(** * goproxy: a shallow embedding of [goproxy.go] and its specification

    The handler [Goproxy.ServeHTTP] and its helpers ([load], [parseRawURL],
    [appendURL], [redactedURL], [stringSliceContains], [globsMatchPath]) are
    embedded as Rocq functions.  Go strings are byte sequences, modelled by [string];
    Go maps with string keys are [gmap string _]; the outside world (the
    toolchain driver, the cache backend, the checksum database, the upstream
    HTTP client, and the heavier library functions) is a record of answers
    the handler consults, and everything the handler does to the outside is
    recorded as a list of events. *)

From Stdlib Require Import ZArith Lia Ascii String.
From stdpp Require Import base option list gmap strings pretty.

Open Scope string_scope.
Open Scope list_scope.

(** ** Byte strings *)

Module Str.

(** [s[n:]] and [s[:n]] for [n <= len(s)]. *)
Fixpoint drop (n : nat) (s : string) : string :=
  match n, s with
  | S k, String _ s' => drop k s'
  | _, _ => s
  end.

Fixpoint take (n : nat) (s : string) : string :=
  match n, s with
  | S k, String c s' => String c (take k s')
  | _, _ => ""
  end.

Definition len (s : string) : nat := String.length s.

Definition byte (c : ascii) : N := Ascii.N_of_ascii c.

Definition is_empty (s : string) : bool :=
  match s with "" => true | _ => false end.

Fixpoint mem (c : ascii) (s : string) : bool :=
  match s with
  | "" => false
  | String d s' => Ascii.eqb c d || mem c s'
  end.

Fixpoint rev_onto (s acc : string) : string :=
  match s with
  | "" => acc
  | String c s' => rev_onto s' (String c acc)
  end.

Definition rev (s : string) : string := rev_onto s "".

End Str.

(** ** Package [unicode/utf8]: the width of the encoding at the head of a
    string, as [utf8.DecodeRuneInString] reports it (an invalid or truncated
    encoding is one byte wide and decodes to [RuneError]). *)

Module Utf8.

Definition between (lo hi : N) (c : ascii) : bool :=
  (lo <=? Str.byte c)%N && (Str.byte c <=? hi)%N.

Definition cont (c : ascii) : bool := between 128 191 c.

Definition width (s : string) : nat :=
  match s with
  | "" => 0
  | String b0 t =>
    if (Str.byte b0 <? 128)%N then 1
    else match t with
    | String b1 t1 =>
      if between 194 223 b0 then (if cont b1 then 2 else 1)
      else match t1 with
      | String b2 t2 =>
        let three :=
          (between 224 224 b0 && between 160 191 b1
           || (between 225 236 b0 || between 238 239 b0) && cont b1
           || between 237 237 b0 && between 128 159 b1) && cont b2 in
        if three then 3
        else match t2 with
        | String b3 _ =>
          let four :=
            (between 240 240 b0 && between 144 191 b1
             || between 241 243 b0 && cont b1
             || between 244 244 b0 && between 128 143 b1)
            && cont b2 && cont b3 in
          if four then 4 else 1
        | "" => 1
        end
      | "" => 1
      end
    | "" => 1
    end
  end.

(** The runes of a string, each as the bytes that encode it. *)
Fixpoint runes_go (k : nat) (cur : string) (s : string) : list string :=
  match s with
  | "" => if Str.is_empty cur then [] else [Str.rev cur]
  | String c s' =>
    match k with
    | S k' => runes_go k' (String c cur) s'
    | O =>
      let rest := runes_go (Nat.pred (width s)) (String c "") s' in
      if Str.is_empty cur then rest else Str.rev cur :: rest
    end
  end.

Definition runes (s : string) : list string := runes_go 0 "" s.

End Utf8.

(** ** Package [strings] *)

Module Strings.

Fixpoint HasPrefix (s prefix : string) : bool :=
  match prefix, s with
  | "", _ => true
  | String p ps, String c cs => Ascii.eqb c p && HasPrefix cs ps
  | String _ _, "" => false
  end.

Definition TrimPrefix (s prefix : string) : string :=
  if HasPrefix s prefix then Str.drop (Str.len prefix) s else s.

Definition HasSuffix (s suffix : string) : bool :=
  (Str.len suffix <=? Str.len s)%nat
  && String.eqb (Str.drop (Str.len s - Str.len suffix) s) suffix.

Definition TrimSuffix (s suffix : string) : string :=
  if HasSuffix s suffix then Str.take (Str.len s - Str.len suffix) s else s.

(** [TrimLeft] for a cutset of ASCII bytes (the handler's is ["/"]). *)
Fixpoint TrimLeft (s cutset : string) : string :=
  match s with
  | String c s' => if Str.mem c cutset then TrimLeft s' cutset else s
  | "" => ""
  end.

(** [Index]: [None] stands for Go's [-1]. *)
Fixpoint Index (s substr : string) : option nat :=
  if HasPrefix s substr then Some 0
  else match s with
       | "" => None
       | String _ s' => S <$> Index s' substr
       end.

Definition Contains (s substr : string) : bool :=
  match Index s substr with Some _ => true | None => false end.

(** [ContainsAny] for ASCII [chars]. *)
Fixpoint ContainsAny (s chars : string) : bool :=
  match s with
  | "" => false
  | String c s' => Str.mem c chars || ContainsAny s' chars
  end.

(** Non-overlapping occurrences of a non-empty [substr]; with an empty one Go
    counts the runes and adds one. *)
Fixpoint count_go (substr : string) (skip : nat) (s : string) : nat :=
  match s with
  | "" => 0
  | String _ s' =>
    match skip with
    | S k => count_go substr k s'
    | O => if HasPrefix s substr
           then S (count_go substr (Nat.pred (Str.len substr)) s')
           else count_go substr 0 s'
    end
  end.

Definition Count (s substr : string) : nat :=
  if Str.is_empty substr then S (length (Utf8.runes s))
  else count_go substr 0 s.

(** [genSplit] with a non-empty separator: [n] is the number of cuts still
    allowed, [skip] the bytes of a separator being passed over, [cur] the
    piece being collected (reversed). *)
Fixpoint split_go (sep : string) (n skip : nat) (cur s : string)
  : list string :=
  match s with
  | "" => [Str.rev cur]
  | String c s' =>
    match skip with
    | S k => split_go sep n k cur s'
    | O =>
      match n with
      | O => [Str.rev cur +:+ s]
      | S n' =>
        if HasPrefix s sep
        then Str.rev cur :: split_go sep n' (Nat.pred (Str.len sep)) "" s'
        else split_go sep n 0 (String c cur) s'
      end
    end
  end.

(** [Split(s, sep)], [sep] non-empty (with an empty [sep] Go explodes [s]
    into runes). *)
Definition Split (s sep : string) : list string :=
  if Str.is_empty sep then Utf8.runes s
  else split_go sep (Str.len s) 0 "" s.

(** [SplitN(s, sep, n)] for [n > 0] and a non-empty [sep]. *)
Definition SplitN (s sep : string) (n : nat) : list string :=
  match n with
  | O => []
  | S k => split_go sep k 0 "" s
  end.

Fixpoint Join (elems : list string) (sep : string) : string :=
  match elems with
  | [] => ""
  | [e] => e
  | e :: es => e +:+ sep +:+ Join es sep
  end.

(** [unicode.IsSpace], read off the encoding at the head of [s]: the width
    of a leading white-space rune, or [None]. *)
Definition bytes_of (l : list N) : string :=
  foldr (fun n s => String (Ascii.ascii_of_N n) s) "" l.

Definition space_encodings : list string :=
  map bytes_of
    (app [ [9]; [10]; [11]; [12]; [13]; [32]; [194; 133]; [194; 160];
           [225; 154; 128] ]
      (app (map (fun k => [226; 128; k])
                [128; 129; 130; 131; 132; 133; 134; 135; 136; 137; 138;
                 168; 169; 175])
           [ [226; 129; 159]; [227; 128; 128] ]))%N.

Definition leading_space (s : string) : option nat :=
  Str.len <$> List.find (fun e => HasPrefix s e) space_encodings.

Definition trailing_space (s : string) : option nat :=
  Str.len <$> List.find (fun e => HasSuffix s e) space_encodings.

Fixpoint trim_left_space (fuel : nat) (s : string) : string :=
  match fuel with
  | O => s
  | S f =>
    match leading_space s with
    | Some w => trim_left_space f (Str.drop w s)
    | None => s
    end
  end.

Fixpoint trim_right_space (fuel : nat) (s : string) : string :=
  match fuel with
  | O => s
  | S f =>
    match trailing_space s with
    | Some w => trim_right_space f (Str.take (Str.len s - w) s)
    | None => s
    end
  end.

Definition TrimSpace (s : string) : string :=
  let l := trim_left_space (Str.len s) s in
  trim_right_space (Str.len l) l.

(** [ToLower] on ASCII letters (other bytes are kept). *)
Definition lower (c : ascii) : ascii :=
  if Utf8.between 65 90 c then Ascii.ascii_of_N (Str.byte c + 32) else c.

Fixpoint ToLower (s : string) : string :=
  match s with
  | "" => ""
  | String c s' => String (lower c) (ToLower s')
  end.

(** [Replace(s, old, new, n)] for a non-empty [old]: the first [n]
    non-overlapping occurrences of [old], from the left, become [new];
    [skip] counts the bytes of an occurrence being passed over. *)
Fixpoint replace_go (old new : string) (n skip : nat) (s : string) : string :=
  match s with
  | "" => ""
  | String c s' =>
    match skip with
    | S k => replace_go old new n k s'
    | O =>
      match n with
      | O => s
      | S n' =>
        if HasPrefix s old
        then new +:+ replace_go old new n' (Nat.pred (Str.len old)) s'
        else String c (replace_go old new n 0 s')
      end
    end
  end.

(** With an empty [old], [new] goes in front of the string and after each
    rune, up to [n] times in all. *)
Fixpoint replace_empty (new : string) (n : nat) (rs : list string) : string :=
  match n with
  | O => foldr String.append "" rs
  | S n' =>
    new +:+ match rs with
            | [] => ""
            | r :: rs' => r +:+ replace_empty new n' rs'
            end
  end.

(** [Replace]: a negative [n] lifts the limit on the number of
    replacements. *)
Definition Replace (s old new : string) (n : Z) : string :=
  if String.eqb old new || (n =? 0)%Z then s
  else
    let m := Strings.Count s old in
    if (m =? 0)%nat then s
    else
      let n := if (n <? 0)%Z || (Z.of_nat m <? n)%Z then m else Z.to_nat n in
      if Str.is_empty old then replace_empty new n (Utf8.runes s)
      else replace_go old new n 0 s.

End Strings.

(** ** Package [regexp], for the fragment of the syntax that
    [regModuleVersionNotFound] is written in: literals, [.], [*], [^],
    groups and alternation (no flags, so [^] is the beginning of the text and
    [.] is any rune but a newline). *)

Module Regexp.

Inductive Regexp : Type :=
| NoMatch
| EmptyMatch
| Literal (c : ascii)
| AnyCharNotNL
| BeginText
| Star (r : Regexp)
| Concat (r1 r2 : Regexp)
| Alternate (r1 r2 : Regexp)
| Capture (r : Regexp).

Inductive level : Type := LAlternate | LConcat | LPiece.

Definition is_repeat (s : string) : bool :=
  match s with
  | String c _ => Str.mem c "*+?"
  | "" => false
  end.

(** A piece is an atom with at most one [*] (Go refuses [**]). *)
Definition starred (r : Regexp) (s : string) : option (Regexp * string) :=
  match s with
  | String "*" s' => if is_repeat s' then None else Some (Star r, s')
  | _ => Some (r, s)
  end.

Fixpoint parse (fuel : nat) (l : level) (s : string)
  : option (Regexp * string) :=
  match fuel with
  | O => None
  | S f =>
    match l with
    | LAlternate =>
      '(r1, rest) ← parse f LConcat s;
      match rest with
      | String "|" rest' =>
        '(r2, rest'') ← parse f LAlternate rest';
        Some (Alternate r1 r2, rest'')
      | _ => Some (r1, rest)
      end
    | LConcat =>
      match s with
      | "" | String "|" _ | String ")" _ => Some (EmptyMatch, s)
      | _ =>
        '(p, rest) ← parse f LPiece s;
        '(q, rest') ← parse f LConcat rest;
        Some (Concat p q, rest')
      end
    | LPiece =>
      match s with
      | "" => None
      | String "(" s' =>
        '(r, rest) ← parse f LAlternate s';
        match rest with
        | String ")" rest' => starred (Capture r) rest'
        | _ => None
        end
      | String "." s' => starred AnyCharNotNL s'
      | String "^" s' => starred BeginText s'
      | String c s' =>
        if Str.mem c "*+?)|[]{}\$" then None else starred (Literal c) s'
      end
    end
  end.

Definition Compile (expr : string) : option Regexp :=
  match parse (4 * Str.len expr + 4) LAlternate expr with
  | Some (r, "") => Some r
  | _ => None
  end.

(** [MustCompile] panics where [Compile] fails; the panic is [NoMatch]
    here, and [regModuleVersionNotFound_compiles] below shows it is not
    reached. *)
Definition MustCompile (expr : string) : Regexp :=
  default NoMatch (Compile expr).

(** Matching by derivatives over the runes of the text; [bot] says whether
    the current position is the beginning of the text. *)
Fixpoint nullable (bot : bool) (r : Regexp) : bool :=
  match r with
  | NoMatch | Literal _ | AnyCharNotNL => false
  | EmptyMatch | Star _ => true
  | BeginText => bot
  | Concat r1 r2 => nullable bot r1 && nullable bot r2
  | Alternate r1 r2 => nullable bot r1 || nullable bot r2
  | Capture r1 => nullable bot r1
  end.

Definition newline : string := String (Ascii.ascii_of_N 10) "".

Fixpoint deriv (bot : bool) (x : string) (r : Regexp) : Regexp :=
  match r with
  | NoMatch | EmptyMatch | BeginText => NoMatch
  | Literal c => if String.eqb x (String c "") then EmptyMatch else NoMatch
  | AnyCharNotNL => if String.eqb x newline then NoMatch else EmptyMatch
  | Star r1 => Concat (deriv bot x r1) (Star r1)
  | Concat r1 r2 =>
    Alternate (Concat (deriv bot x r1) r2)
              (if nullable bot r1 then deriv bot x r2 else NoMatch)
  | Alternate r1 r2 => Alternate (deriv bot x r1) (deriv bot x r2)
  | Capture r1 => deriv bot x r1
  end.

(** Some prefix of [w] matches [r]. *)
Fixpoint match_here (bot : bool) (r : Regexp) (w : list string) : bool :=
  nullable bot r
  || match w with
     | [] => false
     | x :: w' => match_here false (deriv bot x r) w'
     end.

(** Some substring of [w] matches [r]. *)
Fixpoint search (bot : bool) (r : Regexp) (w : list string) : bool :=
  match_here bot r w
  || match w with
     | [] => false
     | _ :: w' => search false r w'
     end.

Definition MatchString (r : Regexp) (s : string) : bool :=
  search true r (Utf8.runes s).

End Regexp.

(** regModuleVersionNotFound is a regular expression that used to report
    whether a message means a module version is not found
    (goproxy.go, lines 33-55; the pieces are the source's, in its order). *)
Definition regModuleVersionNotFound_expr : string :=
  "(400 Bad Request)|" +:+
  "(403 Forbidden)|" +:+
  "(404 Not Found)|" +:+
  "(410 Gone)|" +:+
  "(^bad request: .*)|" +:+
  "(^gone: .*)|" +:+
  "(^not found: .*)|" +:+
  "(could not read Username)|" +:+
  "(does not contain package)|" +:+
  "(go.mod has non-.* module path)|" +:+
  "(go.mod has post-.* module path)|" +:+
  "(invalid .* import path)|" +:+
  "(invalid pseudo-version)|" +:+
  "(invalid version)|" +:+
  "(missing .*/go.mod and .*/go.mod at revision)|" +:+
  "(no matching versions)|" +:+
  "(repository .* not found)|" +:+
  "(unable to connect to)|" +:+
  "(unknown revision)|" +:+
  "(unrecognized import path)" +:+
  "(untrusted revision)|".

Definition regModuleVersionNotFound : Regexp.Regexp :=
  Regexp.MustCompile regModuleVersionNotFound_expr.

(** ** Errors as values: a Go [(T, error)] pair, the error by its text. *)

Inductive result (A : Type) : Type :=
| Ok (a : A)
| Err (msg : string).
Arguments Ok {A} a.
Arguments Err {A} msg.

(** ** Package [golang.org/x/mod/semver]: [IsValid] *)

Module Semver.

Definition isDigit (c : ascii) : bool := Utf8.between 48 57 c.

Definition isIdentChar (c : ascii) : bool :=
  Utf8.between 65 90 c || Utf8.between 97 122 c || isDigit c
  || Ascii.eqb c "-".

Fixpoint digits (v : string) : string * string :=
  match v with
  | String c v' =>
    if isDigit c then let '(d, rest) := digits v' in (String c d, rest)
    else ("", v)
  | "" => ("", "")
  end.

(** [parseInt]: a run of digits without a leading zero (but ["0"]). *)
Definition parseInt (v : string) : option string :=
  match digits v with
  | ("", _) => None
  | (String "0" (String _ _), _) => None
  | (_, rest) => Some rest
  end.

Fixpoint all_chars (p : ascii -> bool) (s : string) : bool :=
  match s with
  | "" => true
  | String c s' => p c && all_chars p s'
  end.

(** [isBadNum]: all digits, longer than one, leading zero. *)
Definition isBadNum (v : string) : bool :=
  all_chars isDigit v && (1 <? Str.len v)%nat && Strings.HasPrefix v "0".

Definition identifiers (s : string) (numeric : bool) : bool :=
  forallb (fun e => negb (Str.is_empty e)
                    && all_chars isIdentChar e
                    && negb (numeric && isBadNum e))
          (Strings.Split s ".").

(** [parsePrerelease]: ["-"], then dot-separated identifiers up to a ["+"]
    or the end. *)
Definition parsePrerelease (v : string) : option string :=
  match v with
  | String "-" v' =>
    let i := default (Str.len v') (Strings.Index v' "+") in
    if identifiers (Str.take i v') true then Some (Str.drop i v') else None
  | _ => None
  end.

(** [parseBuild]: ["+"], then dot-separated identifiers to the end. *)
Definition parseBuild (v : string) : option string :=
  match v with
  | String "+" v' => if identifiers v' false then Some "" else None
  | _ => None
  end.

Definition parse_tail (v : string) : bool :=
  match (if Strings.HasPrefix v "-" then parsePrerelease v else Some v) with
  | None => false
  | Some v1 =>
    match (if Strings.HasPrefix v1 "+" then parseBuild v1 else Some v1) with
    | None => false
    | Some v2 => Str.is_empty v2
    end
  end.

Definition IsValid (v : string) : bool :=
  match v with
  | String "v" v0 =>
    match parseInt v0 with
    | None => false
    | Some "" => true
    | Some (String "." v1) =>
      match parseInt v1 with
      | None => false
      | Some "" => true
      | Some (String "." v2) =>
        match parseInt v2 with
        | None => false
        | Some v3 => parse_tail v3
        end
      | Some _ => false
      end
    | Some _ => false
    end
  | _ => false
  end.

End Semver.

(** ** What the handler takes from other packages *)

Record Userinfo : Type := {
  Username : string;
  Password : option string;
}.

(** [net/url.URL], the fields the handler reads. *)
Record URL : Type := {
  Scheme : string;
  User : option Userinfo;
  Host : string;
  URLPath : string;
}.

(** The library functions that are taken as given.  [path_Match] answers
    [None] for [ErrBadPattern], which Go returns together with
    [matched = false]; the others answer [None] for an error. *)
Record Lib : Type := {
  path_Match : string -> string -> option bool;
  filepath_IsAbs : string -> bool;
  url_Parse : string -> result URL;
  URL_String : URL -> string;
  module_UnescapePath : string -> option string;
  module_UnescapeVersion : string -> option string;
  module_EscapeVersion : string -> result string;
  idna_ToASCII : string -> option string;
  base64_EncodeToString : string -> string;
}.

(** ** Package [path] *)

Module Path.

(** One element more on the cleaned path (the elements so far reversed):
    empty and [.] elements go, [..] takes the element before it with it,
    stays at the head of a path that is not rooted, and goes at the root. *)
Definition clean_step (rooted : bool) (out : list string) (e : string)
  : list string :=
  if String.eqb e "" || String.eqb e "." then out
  else if String.eqb e ".." then
    match out with
    | top :: out' =>
      if String.eqb top ".." then e :: out else out'
    | [] => if rooted then [] else [e]
    end
  else e :: out.

(** [Clean]: the shortest path name equivalent to [p]. *)
Definition Clean (p : string) : string :=
  let rooted := Strings.HasPrefix p "/" in
  let out := foldl (clean_step rooted) [] (Strings.Split p "/") in
  let q := (if rooted then "/" else "") +:+ Strings.Join (reverse out) "/" in
  if String.eqb q "" then "." else q.

Fixpoint ext_go (r acc : string) : string :=
  match r with
  | "" => ""
  | String c r' =>
    if Ascii.eqb c "/" then ""
    else if Ascii.eqb c "." then String "." acc
    else ext_go r' (String c acc)
  end.

(** [Ext]: the suffix from the last dot of the last element. *)
Definition Ext (p : string) : string := ext_go (Str.rev p) "".

Definition IsAbs (p : string) : bool := Strings.HasPrefix p "/".

Fixpoint lastSlash (s : string) : option nat :=
  match s with
  | "" => None
  | String c s' =>
    match lastSlash s' with
    | Some i => Some (S i)
    | None => if Ascii.eqb c "/" then Some 0 else None
    end
  end.

Definition Dir (p : string) : string :=
  Clean
    (Str.take (match lastSlash p with Some i => S i | None => 0 end) p).

Fixpoint Join (elem : list string) : string :=
  match elem with
  | [] => ""
  | e :: rest =>
    if Str.is_empty e then Join rest
    else Clean (Strings.Join elem "/")
  end.

End Path.

(** ** Package [net/url]: [PathUnescape] and [PathEscape] *)

Module Url.

Definition hexval (c : ascii) : option N :=
  if Utf8.between 48 57 c then Some (Str.byte c - 48)%N
  else if Utf8.between 97 102 c then Some (Str.byte c - 87)%N
  else if Utf8.between 65 70 c then Some (Str.byte c - 55)%N
  else None.

(** Every [%] must be followed by two hexadecimal digits; the three bytes
    stand for one. *)
Fixpoint unescape (skip : nat) (s : string) : option string :=
  match s with
  | "" => Some ""
  | String c s' =>
    match skip with
    | S k => unescape k s'
    | O =>
      if Ascii.eqb c "%" then
        match s' with
        | String h (String l _) =>
          match hexval h, hexval l with
          | Some a, Some b =>
            String (Ascii.ascii_of_N (16 * a + b)) <$> unescape 2 s'
          | _, _ => None
          end
        | _ => None
        end
      else String c <$> unescape 0 s'
    end
  end.

Definition PathUnescape (s : string) : option string := unescape 0 s.

(** [shouldEscape(c, encodePathSegment)]: letters, digits and [-_.~] are
    kept; of the reserved characters, [/ ; , ?] are escaped and [$ & + : = @]
    are kept; every other byte is escaped. *)
Definition shouldEscape (c : ascii) : bool :=
  if Utf8.between 97 122 c || Utf8.between 65 90 c || Utf8.between 48 57 c
  then false
  else if Str.mem c "-_.~" then false
  else if Str.mem c "$&+,/:;=?@" then Str.mem c "/;,?"
  else true.

(** [upperhex[n]] for [n < 16]. *)
Definition upperhex (n : N) : ascii :=
  if (n <? 10)%N then Ascii.ascii_of_N (48 + n)
  else Ascii.ascii_of_N (55 + n).

(** [PathEscape]: every byte that [shouldEscape] becomes [%XX]. *)
Fixpoint PathEscape (s : string) : string :=
  match s with
  | "" => ""
  | String c s' =>
    if shouldEscape c
    then String "%" (String (upperhex (Str.byte c / 16))
                       (String (upperhex (Str.byte c mod 16))
                          (PathEscape s')))
    else String c (PathEscape s')
  end.

End Url.

(** ** The outside world *)

(** The record [mod] returns (the fields the handler reads). *)
Record modResult : Type := {
  Version : string;
  Versions : list string;
  Info : string;
  GoMod : string;
  Zip : string;
}.

(** A [Cache]: a named, sized, checksummed stream. *)
Record Cache : Type := {
  Name : string;
  MIMEType : string;
  Size : Z;
  Checksum : string;
}.

(** What [Cacher.Cache] answers: a cache, [ErrCacheNotFound], or another
    error. *)
Inductive cacheAnswer : Type :=
| CacheFound (c : Cache)
| ErrCacheNotFound
| CacheErr (msg : string).

(** The [Cacher] interface. *)
Record CacherI : Type := {
  Cacher_Cache : string -> cacheAnswer;
  Cacher_SetCache : Cache -> option string;
}.

(** Modelled from the spec: [tempCacher], the backend used when none is
    configured (section 4.E: its entries live for the duration of the current
    response and are then deleted), so a probe finds nothing and a write is
    accepted. *)
Definition tempCacher : CacherI :=
  {| Cacher_Cache := fun _ => ErrCacheNotFound;
     Cacher_SetCache := fun _ => None |}.

(** The upstream answer to the log passthrough: [http.DefaultClient.Do]. *)
Record upstreamResponse : Type := {
  StatusCode : Z;
  Status : string;
  Body : result string;            (* what reading the body gives *)
  ContentLength : string;          (* the Content-Length header *)
}.

Inductive doAnswer : Type :=
| DoTimeout (msg : string)         (* a [*url.Error] with [Timeout()] *)
| DoErr (msg : string)
| DoResponse (res : upstreamResponse).

(** The answers of the environment during one request. *)
Record World : Type := {
  ioutil_TempDir : result string;
  (* mod(operation, goBinName, goBinEnv, goproxyRoot, modulePath, moduleVersion) *)
  mod_ : string -> string -> gmap string string -> string -> string -> string
         -> result modResult;
  sumdbClient_Lookup : string -> string -> result (list string);
  dirhash_HashZip : string -> result string;
  dirhash_Hash1 : string -> result string;
  openTempCache : string -> string -> result Cache;
  http_NewRequest : string -> option string;
  http_Do : string -> doAnswer;
}.

(** Modelled from the spec: [newTempCache(filename, name, hash)], which
    creates a cache entry for the file under the name it is given (section
    4.F, steps 4 and 5); what opening and reading the file gives is the
    world's. *)
Definition newTempCache (W : World) (file name : string) : result Cache :=
  match openTempCache W file name with
  | Err e => Err e
  | Ok c => Ok {| Name := name; MIMEType := MIMEType c; Size := Size c;
                  Checksum := Checksum c |}
  end.

(** What the handler does to the outside, in order. *)
Inductive Event : Type :=
| EvLog (msg : string)                              (* g.logError, g.logErrorf *)
| EvPrint (msg : string)                            (* fmt.Println, fmt.Printf *)
| EvTempDir
| EvMod (operation modulePath moduleVersion : string)
| EvCacheGet (name : string)
| EvLookup (modulePath moduleVersion : string)
| EvHashZip (file : string)
| EvHash1 (file : string)
| EvNewTempCache (file name : string)
| EvSetCache (c : Cache)
| EvHTTPDo (url : string)
| EvModClean (root : string)
| EvRemoveAll (root : string).

(** What the handler did with the [http.ResponseWriter]: the response
    helper it called, or the stream it handed over. *)
Inductive Response : Type :=
| NotFound (msg : option string)          (* responseNotFound(rw, msgs...) *)
| MethodNotAllowed                        (* responseMethodNotAllowed(rw) *)
| InternalServerError                     (* responseInternalServerError(rw) *)
| BadGateway                              (* responseBadGateway(rw) *)
| Text (code : Z) (body : string)         (* responseString(rw, code, body) *)
| WriteNil                                (* rw.Write(nil) *)
| Copied (body : result string)           (* io.Copy(rw, sumdbRes.Body) *)
| ServeContent (c : Cache).               (* http.ServeContent *)

(** Modelled from the spec: the status code of a response (sections 4.A,
    4.G and 7: not found is 404, a method that is not allowed 405, an
    internal error 500, a bad gateway 502); [http.ServeContent] chooses its
    own. *)
Definition status (r : Response) : option Z :=
  match r with
  | NotFound _ => Some 404%Z
  | MethodNotAllowed => Some 405%Z
  | InternalServerError => Some 500%Z
  | BadGateway => Some 502%Z
  | Text code _ => Some code
  | WriteNil | Copied _ => Some 200%Z
  | ServeContent _ => None
  end.

(** Modelled from the spec: the body of a response, where a helper writes
    it; a not-found response carries the message it is given (section 7). *)
Definition body (r : Response) : string :=
  match r with
  | NotFound msg => default "" msg
  | Text _ b => b
  | _ => ""
  end.

(** Modelled from the spec: the header that
    [setResponseCacheControlHeader(rw, maxAge)] sets (section 6:
    [Cache-Control: public, max-age=<seconds>]). *)
Definition CacheControlHeader (maxAge : Z) : string :=
  "public, max-age=" +:+ pretty maxAge.

(** The state of a request: the response header set by the handler itself,
    the [maxAge] last given to [setResponseCacheControlHeader], the response,
    the events, the events of the write-back goroutine when one was started,
    and the flag the deferred purge looks at. *)
Record St : Type := mkSt {
  Header : gmap string string;
  CacheControl : option Z;
  Written : option Response;
  Events : list Event;
  Background : option (list Event);
  hijackedGoproxyRootPurge : bool;
}.

Definition St0 : St := mkSt ∅ None None [] None false.

(** ** The handler's monad: state, and [return] *)

Definition M (A : Type) : Type := St -> St * option A.

Definition ret {A} (a : A) : M A := fun s => (s, Some a).

Definition bind {A B} (m : M A) (k : A -> M B) : M B :=
  fun s => match m s with
           | (s', Some a) => k a s'
           | (s', None) => (s', None)
           end.

(** The Go [return] statement. *)
Definition return_ {A} : M A := fun s => (s, None).

Notation "x <~ m ;; k" := (bind m (fun x => k))
  (at level 100, m at next level, right associativity).
Notation "m ;;; k" := (bind m (fun _ => k))
  (at level 100, right associativity).

Definition emit (e : Event) : M unit :=
  fun s => (mkSt (Header s) (CacheControl s) (Written s) (Events s ++ [e])
                 (Background s) (hijackedGoproxyRootPurge s), Some tt).

Definition setHeader (k v : string) : M unit :=
  fun s => (mkSt (<[k := v]> (Header s)) (CacheControl s) (Written s)
                 (Events s) (Background s) (hijackedGoproxyRootPurge s),
            Some tt).

Definition write (r : Response) : M unit :=
  fun s => (mkSt (Header s) (CacheControl s) (Some r) (Events s)
                 (Background s) (hijackedGoproxyRootPurge s), Some tt).

Definition spawn (bg : list Event) : M unit :=
  fun s => (mkSt (Header s) (CacheControl s) (Written s) (Events s) (Some bg)
                 true, Some tt).

Definition when (b : bool) (m : M unit) : M unit := if b then m else ret tt.

Definition run {A} (m : M A) : St := fst (m St0).

(** [g.logError] and [g.logErrorf]. *)
Definition logError (msg : string) : M unit := emit (EvLog msg).

(** A call of [setResponseCacheControlHeader(rw, maxAge)]. *)
Definition setResponseCacheControlHeader (maxAge : Z) : M unit :=
  fun s => (mkSt (Header s) (Some maxAge) (Written s) (Events s)
                 (Background s) (hijackedGoproxyRootPurge s), Some tt).

(** Calls of the response helpers. *)
Definition responseString (code : Z) (body : string) : M unit :=
  write (Text code body).
Definition responseNotFound (msg : option string) : M unit :=
  write (NotFound msg).
Definition responseMethodNotAllowed : M unit := write MethodNotAllowed.
Definition responseInternalServerError : M unit := write InternalServerError.
Definition responseBadGateway : M unit := write BadGateway.

(** The header of the response as it leaves. *)
Definition responseHeader (s : St) : gmap string string :=
  match CacheControl s with
  | Some maxAge => <["Cache-Control" := CacheControlHeader maxAge]> (Header s)
  | None => Header s
  end.

(** The response carries [Cache-Control: public, max-age=n]. *)
Definition maxAgeIs (n : Z) (s : St) : Prop := CacheControl s = Some n.

(** The response has the status [code]. *)
Definition answered (code : Z) (s : St) : Prop :=
  exists r, Written s = Some r /\ status r = Some code.

(** ** [Goproxy] *)

(** Goproxy is the top-level struct of this project.  [loaded] stands for
    [loadOnce]; the logger, the worker channel and the checksum database
    client are part of the [World]. *)
Record Goproxy : Type := {
  GoBinName : string;
  GoBinEnv : list string;
  MaxGoBinWorkers : Z;
  PathPrefix : string;
  Cacher : option CacherI;
  MaxZIPCacheBytes : Z;
  SupportedSUMDBNames : list string;
  DisableNotFoundLog : bool;
  loaded : bool;
  goBinEnv : gmap string string;
  supportedSUMDBNames : gmap string bool;
}.

(** New returns a new instance of the [Goproxy] with default field values;
    [environ] is [os.Environ()]. *)
Definition New (environ : list string) : Goproxy :=
  {| GoBinName := "go";
     GoBinEnv := environ;
     MaxGoBinWorkers := 0;
     PathPrefix := "";
     Cacher := None;
     MaxZIPCacheBytes := 0;
     SupportedSUMDBNames := ["sum.golang.org"];
     DisableNotFoundLog := false;
     loaded := false;
     goBinEnv := ∅;
     supportedSUMDBNames := ∅ |}.

(** Reading a Go [map[string]string]: a missing key reads as [""]. *)
Definition env (m : gmap string string) (k : string) : string :=
  default "" (m !! k).

(** Reading a Go [map[string]bool]: a missing key reads as [false]. *)
Definition flag (m : gmap string bool) (k : string) : bool :=
  default false (m !! k).

Definition eqs (a b : string) : bool := String.eqb a b.

(** The first loop of [load] (lines 168-175). *)
Definition load_GoBinEnv (envs : list string) (m : gmap string string)
  : gmap string string :=
  foldl (fun m e => match Strings.SplitN e "=" 2 with
                    | [k; v] => <[k := v]> m
                    | _ => m
                    end) m envs.

(** The GOPROXY loop of [load] (lines 181-192), with its [continue] and
    [break]. *)
Fixpoint load_proxies (parts proxies : list string) : list string :=
  match parts with
  | [] => proxies
  | proxy :: rest =>
    let proxy := Strings.TrimSpace proxy in
    if eqs proxy "" then load_proxies rest proxies
    else
      let proxies := proxies ++ [proxy] in
      if eqs proxy "direct" || eqs proxy "off" then proxies
      else load_proxies rest proxies
  end.

(** The GONOPROXY and GONOSUMDB loops of [load] (lines 213-221, 231-239). *)
Fixpoint load_trimmed (parts acc : list string) : list string :=
  match parts with
  | [] => acc
  | p :: rest =>
    let p := Strings.TrimSpace p in
    if eqs p "" then load_trimmed rest acc
    else load_trimmed rest (acc ++ [p])
  end.

(** The last loop of [load] (lines 251-255). *)
Definition load_supported (L : Lib) (names : list string)
  (m : gmap string bool) : gmap string bool :=
  foldl (fun m name => match idna_ToASCII L name with
                       | Some n => <[n := true]> m
                       | None => m
                       end) m names.

Definition GOSUMDB_default : string :=
  "sum.golang.org" +:+
  "+033de0ae+Ac4zctda0e5eza+HJyk9SxEdh+s3Ux18htTTAD8OuAn8".

(** The environment after [load] (lines 168-243). *)
Definition load_env (g : Goproxy) : gmap string string :=
  let e := load_GoBinEnv (GoBinEnv g) (goBinEnv g) in
  let proxies := load_proxies (Strings.Split (env e "GOPROXY") ",") [] in
  let e :=
    if (0 <? length proxies)%nat
    then <["GOPROXY" := Strings.Join proxies ","]> e
    else if eqs (env e "GOPROXY") ""
    then <["GOPROXY" := "https://proxy.golang.org,direct"]> e
    else <["GOPROXY" := "off"]> e in
  let e := <["GOSUMDB" := Strings.TrimSpace (env e "GOSUMDB")]> e in
  let e :=
    if eqs (env e "GOSUMDB") "" || eqs (env e "GOSUMDB") "sum.golang.org"
    then <["GOSUMDB" := GOSUMDB_default]> e
    else e in
  let e :=
    if eqs (env e "GONOPROXY") ""
    then <["GONOPROXY" := env e "GOPRIVATE"]> e else e in
  let noproxies := load_trimmed (Strings.Split (env e "GONOPROXY") ",") [] in
  let e :=
    if (0 <? length noproxies)%nat
    then <["GONOPROXY" := Strings.Join noproxies ","]> e else e in
  let e :=
    if eqs (env e "GONOSUMDB") ""
    then <["GONOSUMDB" := env e "GOPRIVATE"]> e else e in
  let nosumdbs := load_trimmed (Strings.Split (env e "GONOSUMDB") ",") [] in
  let e :=
    if (0 <? length nosumdbs)%nat
    then <["GONOSUMDB" := Strings.Join nosumdbs ","]> e else e in
  e.

(** load loads the stuff of the g up. *)
Definition load (L : Lib) (g : Goproxy) : Goproxy :=
  {| GoBinName := GoBinName g;
     GoBinEnv := GoBinEnv g;
     MaxGoBinWorkers := MaxGoBinWorkers g;
     PathPrefix := PathPrefix g;
     Cacher := Cacher g;
     MaxZIPCacheBytes := MaxZIPCacheBytes g;
     SupportedSUMDBNames := SupportedSUMDBNames g;
     DisableNotFoundLog := DisableNotFoundLog g;
     loaded := true;
     goBinEnv := load_env g;
     supportedSUMDBNames :=
       load_supported L (SupportedSUMDBNames g) (supportedSUMDBNames g) |}.

(** [g.loadOnce.Do(g.load)]. *)
Definition loadOnce (L : Lib) (g : Goproxy) : Goproxy :=
  if loaded g then g else load L g.

Definition stagingRepos : list string := [
  "k8s.io/api";
  "k8s.io/apiextensions-apiserver";
  "k8s.io/apimachinery";
  "k8s.io/apiserver";
  "k8s.io/cli-runtime";
  "k8s.io/client-go";
  "k8s.io/cloud-provider";
  "k8s.io/cluster-bootstrap";
  "k8s.io/code-generator";
  "k8s.io/component-base";
  "k8s.io/cri-api";
  "k8s.io/csi-translation-lib";
  "k8s.io/kube-aggregator";
  "k8s.io/kube-controller-manager";
  "k8s.io/kube-proxy";
  "k8s.io/kube-scheduler";
  "k8s.io/kubectl";
  "k8s.io/kubelet";
  "k8s.io/legacy-cloud-providers";
  "k8s.io/metrics";
  "k8s.io/node-api";
  "k8s.io/sample-apiserver";
  "k8s.io/sample-cli-plugin";
  "k8s.io/sample-controller"
].

(** ** The helpers at the end of [goproxy.go] *)

(** redactedURL returns a redacted string form of the u: any password in the
    u is replaced with "[redacted]". *)
Definition redactedURL (L : Lib) (u : URL) : string :=
  match User u with
  | Some ui =>
    match Password ui with
    | Some _ =>
      URL_String L
        {| Scheme := Scheme u;
           User := Some {| Username := Username ui;
                           Password := Some "[redacted]" |};
           Host := Host u;
           URLPath := URLPath u |}
    | None => URL_String L u
    end
  | None => URL_String L u
  end.

(** parseRawURL parses the rawURL. *)
Definition parseRawURL (L : Lib) (rawURL : string) : result URL :=
  let rawURL :=
    if Strings.ContainsAny rawURL ".:/"
       && negb (Strings.Contains rawURL ":/")
       && negb (filepath_IsAbs L rawURL)
       && negb (Path.IsAbs rawURL)
    then "https://" +:+ rawURL
    else rawURL in
  match url_Parse L rawURL with
  | Err e => Err e
  | Ok u =>
    let scheme := Strings.ToLower (Scheme u) in
    if eqs scheme "http" || eqs scheme "https" then Ok u
    else Err ("invalid URL scheme (must be http or https): "
              +:+ redactedURL L u)
  end.

(** stringSliceContains reports whether the ss contains the s. *)
Fixpoint stringSliceContains (ss : list string) (s : string) : bool :=
  match ss with
  | [] => false
  | v :: rest => if eqs v s then true else stringSliceContains rest s
  end.

(** The inner loop of [globsMatchPath] (lines 988-997): walk [target] from
    byte [i], counting slashes, truncating at the N+1'th; the result is the
    final [n] and [prefix]. *)
Fixpoint globsMatchPath_walk (target rest : string) (i n : nat)
  : nat * string :=
  match rest with
  | "" => (n, target)
  | String c rest' =>
    if Ascii.eqb c "/" then
      match n with
      | O => (O, Str.take i target)
      | S n' => globsMatchPath_walk target rest' (S i) n'
      end
    else globsMatchPath_walk target rest' (S i) n
  end.

(** The outer loop of [globsMatchPath] (lines 967-1007); each round shortens
    [globs], so [fuel] above its length is never used up. *)
Fixpoint globsMatchPath_loop (L : Lib) (fuel : nat) (globs target : string)
  : bool :=
  match fuel with
  | O => false
  | S f =>
    if eqs globs "" then false
    else
      let '(glob, globs) :=
        match Strings.Index globs "," with
        | Some i => (Str.take i globs, Str.drop (S i) globs)
        | None => (globs, "")
        end in
      if eqs glob "" then globsMatchPath_loop L f globs target
      else
        let n := Strings.Count glob "/" in
        let '(n, prefix) := globsMatchPath_walk target target 0 n in
        if (0 <? n)%nat then globsMatchPath_loop L f globs target
        else if default false (path_Match L glob prefix) then true
        else globsMatchPath_loop L f globs target
  end.

(** globsMatchPath reports whether any path prefix of target matches one of
    the glob patterns (as defined by the [path.Match]) in the comma-separated
    globs list.  It ignores any empty or malformed patterns in the list. *)
Definition globsMatchPath (L : Lib) (globs target : string) : bool :=
  globsMatchPath_loop L (S (Str.len globs)) globs target.

(** ** [ServeHTTP] *)

Record Request : Type := {
  Method : string;
  RequestPath : string;          (* r.URL.Path *)
}.

Definition LF : string := String (Ascii.ascii_of_N 10) "".
Definition quote : string := String (Ascii.ascii_of_N 34) "".

(** The block the handler repeats wherever it has an error of the driver or
    of the checksum database client in hand (lines 527-539, 582-594, 628-640,
    659-673, 717-731): not found when [regModuleVersionNotFound] matches the
    message, an internal error otherwise; the handler returns. *)
Definition respondModError {A} (g : Goproxy) (err : string) : M A :=
  (if Regexp.MatchString regModuleVersionNotFound err
   then
     when (negb (DisableNotFoundLog g)) (logError err) ;;;
     setResponseCacheControlHeader 60 ;;;
     responseNotFound (Some err)
   else
     logError err ;;;
     responseInternalServerError) ;;;
  return_.

(** [log the error, 500, return]. *)
Definition respondInternal {A} (err : string) : M A :=
  logError err ;;; responseInternalServerError ;;; return_.

(** [not found with a one-hour hint, return]. *)
Definition respondMalformed {A} : M A :=
  setResponseCacheControlHeader 3600 ;;; responseNotFound None ;;; return_.

(** The log passthrough (lines 316-434), entered with the request name less
    its ["sumdb/"] prefix. *)
Definition ServeHTTP_sumdb (L : Lib) (W : World) (g : Goproxy)
  (rawURL : string) : M unit :=
  sumdbURL <~ match parseRawURL L rawURL with
              | Err _ => respondMalformed
              | Ok u => ret u
              end ;;
  sumdbName <~ match idna_ToASCII L (Host sumdbURL) with
               | None => respondMalformed
               | Some n => ret n
               end ;;
  when (negb (flag (supportedSUMDBNames g) sumdbName))
       (setResponseCacheControlHeader 60 ;;;
        responseNotFound None ;;; return_) ;;;
  kind <~
    (if eqs (URLPath sumdbURL) "/supported" then
       setResponseCacheControlHeader 60 ;;;
       write WriteNil ;;; return_
     else if eqs (URLPath sumdbURL) "/latest" then
       ret ("text/plain; charset=utf-8", false)
     else if Strings.HasPrefix (URLPath sumdbURL) "/lookup/" then
       ret ("text/plain; charset=utf-8", true)
     else if Strings.HasPrefix (URLPath sumdbURL) "/tile/" then
       ret ("application/octet-stream", true)
     else respondMalformed) ;;
  let '(contentType, cachingForever) := kind in
  match http_NewRequest W (URL_String L sumdbURL) with
  | Some e => respondInternal e
  | None => ret tt
  end ;;;
  emit (EvHTTPDo (URL_String L sumdbURL)) ;;;
  sumdbRes <~ match http_Do W (URL_String L sumdbURL) with
              | DoTimeout _ => responseBadGateway ;;; return_
              | DoErr e => respondInternal e
              | DoResponse res => ret res
              end ;;
  when (negb (StatusCode sumdbRes =? 200)%Z)
       (b <~ match Body sumdbRes with
             | Err e => respondInternal e
             | Ok b => ret b
             end ;;
        when ((StatusCode sumdbRes =? 400)%Z
              || (StatusCode sumdbRes =? 404)%Z
              || (StatusCode sumdbRes =? 410)%Z)
             (when (negb (DisableNotFoundLog g)) (logError b) ;;;
              (if (StatusCode sumdbRes =? 404)%Z
               then setResponseCacheControlHeader 60
               else setResponseCacheControlHeader 3600) ;;;
              responseNotFound (Some b) ;;;
              return_) ;;;
        logError ("GET " +:+ redactedURL L sumdbURL +:+ ": "
                  +:+ Status sumdbRes +:+ ": " +:+ b) ;;;
        responseBadGateway ;;;
        return_) ;;;
  setHeader "Content-Type" contentType ;;;
  setHeader "Content-Length" (ContentLength sumdbRes) ;;;
  (if cachingForever : bool
   then setResponseCacheControlHeader (365 * 24 * 3600)
   else setResponseCacheControlHeader 60) ;;;
  write (Copied (Body sumdbRes)).

(** The verification of a download against the checksum database
    (lines 645-761). *)
Definition ServeHTTP_verify (W : World) (g : Goproxy)
  (modulePath moduleVersion : string) (mr : modResult) : M unit :=
  let trim := fun e =>
    Strings.TrimPrefix e (modulePath +:+ "@" +:+ moduleVersion +:+ ": ") in
  let untrusted : M unit :=
    setResponseCacheControlHeader 3600 ;;;
    responseNotFound (Some ("untrusted revision " +:+ moduleVersion)) ;;;
    return_ in
  emit (EvLookup modulePath moduleVersion) ;;;
  zipLines <~ match sumdbClient_Lookup W modulePath moduleVersion with
              | Err e => respondModError g (trim e)
              | Ok lines => ret lines
              end ;;
  emit (EvHashZip (Zip mr)) ;;;
  zipHash <~ match dirhash_HashZip W (Zip mr) with
             | Err e => respondInternal e
             | Ok h => ret h
             end ;;
  when (negb (stringSliceContains zipLines
                (modulePath +:+ " " +:+ moduleVersion +:+ " " +:+ zipHash)))
       untrusted ;;;
  emit (EvLookup modulePath (moduleVersion +:+ "/go.mod")) ;;;
  goModLines <~ match sumdbClient_Lookup W modulePath
                        (moduleVersion +:+ "/go.mod") with
                | Err e => respondModError g (trim e)
                | Ok lines => ret lines
                end ;;
  emit (EvHash1 (GoMod mr)) ;;;
  goModHash <~ match dirhash_Hash1 W (GoMod mr) with
               | Err e => respondInternal e
               | Ok h => ret h
               end ;;
  when (negb (stringSliceContains goModLines
                (modulePath +:+ " " +:+ moduleVersion +:+ "/go.mod "
                 +:+ goModHash)))
       untrusted.

(** The goroutine that sets the caches (lines 767-834), less its deferred
    purge. *)
Definition ServeHTTP_setCaches (W : World) (g : Goproxy) (cacher : CacherI)
  (name nameExt : string) (mr : modResult) : M unit :=
  let namePrefix := Strings.TrimSuffix name nameExt in
  let makeCache := fun file name' =>
    emit (EvNewTempCache file name') ;;;
    match newTempCache W file name' with
    | Err e => logError e ;;; return_
    | Ok c => ret c
    end in
  let setCache := fun c =>
    emit (EvSetCache c) ;;;
    match Cacher_SetCache cacher c with
    | Some e => logError e ;;; return_
    | None => ret tt
    end in
  infoCache <~ makeCache (Info mr) (namePrefix +:+ ".info") ;;
  setCache infoCache ;;;
  modCache <~ makeCache (GoMod mr) (namePrefix +:+ ".mod") ;;
  setCache modCache ;;;
  zipCache <~ makeCache (Zip mr) (namePrefix +:+ ".zip") ;;
  when ((MaxZIPCacheBytes g =? 0)%Z
        || (Size zipCache <=? MaxZIPCacheBytes g)%Z)
       (setCache zipCache).

(** The events of the goroutine, its deferred purge last. *)
Definition ServeHTTP_goroutine (W : World) (g : Goproxy) (cacher : CacherI)
  (goproxyRoot name nameExt : string) (mr : modResult) : list Event :=
  Events (run (ServeHTTP_setCaches W g cacher name nameExt mr))
  ++ [EvModClean goproxyRoot; EvRemoveAll goproxyRoot].

(** The cache probe, the download, the verification, the hand-over to the
    goroutine and the response (lines 611-874). *)
Definition ServeHTTP_fetch (L : Lib) (W : World) (g : Goproxy)
  (goproxyRoot modulePath moduleVersion name nameExt : string)
  (cachingForever : bool) : M unit :=
  let cacher := default tempCacher (Cacher g) in
  emit (EvCacheGet name) ;;;
  cache <~
    match Cacher_Cache cacher name with
    | ErrCacheNotFound =>
      emit (EvMod "download" modulePath moduleVersion) ;;;
      mr <~ match mod_ W "download" (GoBinName g) (goBinEnv g) goproxyRoot
                       modulePath moduleVersion with
            | Err e => respondModError g e
            | Ok mr => ret mr
            end ;;
      when (negb (eqs (env (goBinEnv g) "GOSUMDB") "off")
            && negb (globsMatchPath L (env (goBinEnv g) "GONOSUMDB")
                                    modulePath))
           (ServeHTTP_verify W g modulePath moduleVersion mr) ;;;
      spawn (ServeHTTP_goroutine W g cacher goproxyRoot name nameExt mr) ;;;
      let filename :=
        if eqs nameExt ".info" then Info mr
        else if eqs nameExt ".mod" then GoMod mr
        else if eqs nameExt ".zip" then Zip mr
        else "" in
      emit (EvNewTempCache filename name) ;;;
      match newTempCache W filename name with
      | Err e => respondInternal e
      | Ok c => ret c
      end
    | CacheErr e => respondInternal e
    | CacheFound c => ret c
    end ;;
  setHeader "Content-Type" (MIMEType cache) ;;;
  setHeader "ETag"
    (quote +:+ base64_EncodeToString L (Checksum cache) +:+ quote) ;;;
  (if cachingForever
   then setResponseCacheControlHeader (365 * 24 * 3600)
   else setResponseCacheControlHeader 60) ;;;
  write (ServeContent cache).

(** The loop that augments a staging repository's list (lines 544-555):
    at the first version with the prefix, one entry is appended and the loop
    is left. *)
Fixpoint ServeHTTP_augment (vs : list string) (moduleVersion : string)
  (mr : modResult) : M modResult :=
  match vs with
  | [] => ret mr
  | v :: rest =>
    if Strings.HasPrefix v "kubernetes-1." then
      let zeroVer :=
        "v0." +:+ Strings.TrimPrefix moduleVersion "kubernetes-1." in
      emit (EvPrint ("adding " +:+ zeroVer +:+ " to the list" +:+ LF)) ;;;
      ret {| Version := Version mr;
             Versions := Versions mr ++ [zeroVer];
             Info := Info mr; GoMod := GoMod mr; Zip := Zip mr |}
    else ServeHTTP_augment rest moduleVersion mr
  end.

(** The list operation (lines 516-563). *)
Definition ServeHTTP_list (W : World) (g : Goproxy)
  (goproxyRoot modulePath moduleVersion : string) (isStagingRepo : bool)
  : M unit :=
  emit (EvMod "list" modulePath moduleVersion) ;;;
  mr <~ match mod_ W "list" (GoBinName g) (goBinEnv g) goproxyRoot
                   modulePath moduleVersion with
        | Err e => respondModError g e
        | Ok mr => ret mr
        end ;;
  mr <~ (if isStagingRepo then
           emit (EvPrint ("versions [" +:+ Strings.Join (Versions mr) " "
                          +:+ "]" +:+ LF)) ;;;
           ServeHTTP_augment (Versions mr) moduleVersion mr
         else ret mr) ;;
  let versions := Strings.Join (Versions mr) LF in
  setResponseCacheControlHeader 60 ;;;
  responseString 200 versions ;;;
  return_.

(** The latest and lookup operations (lines 564-606): the resolved version
    and the name of the artifact under it. *)
Definition ServeHTTP_resolve (L : Lib) (W : World) (g : Goproxy)
  (goproxyRoot modulePath moduleVersion name nameExt : string)
  (isLatest : bool) : M (string * string) :=
  let operation := if isLatest then "latest" else "lookup" in
  emit (EvMod operation modulePath moduleVersion) ;;;
  mr <~ match mod_ W operation (GoBinName g) (goBinEnv g) goproxyRoot
                   modulePath moduleVersion with
        | Err e => respondModError g e
        | Ok mr => ret mr
        end ;;
  let moduleVersion := Version mr in
  escapedModuleVersion <~ match module_EscapeVersion L moduleVersion with
                          | Err e => respondInternal e
                          | Ok v => ret v
                          end ;;
  let nameBase := escapedModuleVersion +:+ nameExt in
  ret (moduleVersion, Path.Join [Path.Dir name; nameBase]).

(** The deferred purge of the scratch directory (lines 508-514): it runs
    when the handler returns, unless the goroutine took the directory over. *)
Definition deferPurge {A} (g : Goproxy) (goproxyRoot : string) (m : M A)
  : M A :=
  fun s =>
    let '(s', a) := m s in
    if hijackedGoproxyRootPurge s' then (s', a)
    else (mkSt (Header s') (CacheControl s') (Written s')
               (Events s' ++ [EvModClean goproxyRoot; EvRemoveAll goproxyRoot])
               (Background s') false, a).

(** The rewrite of a staging repository's version (lines 495-499). *)
Definition stagingVersion (isStagingRepo : bool) (moduleVersion : string)
  : string :=
  if isStagingRepo && Strings.HasPrefix moduleVersion "v0.1"
  then "kubernetes-1." +:+ Strings.TrimPrefix moduleVersion "v0."
  else moduleVersion.

(** A module request as the path decodes to it (lines 437-485): the name
    after the rewrite of [/@latest] and [/@v/list], the module path, the
    extension and the version. *)
Record moduleRequest : Type := {
  mq_name : string;
  mq_isLatest : bool;
  mq_isList : bool;
  mq_modulePath : string;
  mq_nameExt : string;
  mq_moduleVersion : string;
}.

Definition decodeModule (L : Lib) (name : string) : option moduleRequest :=
  let '(name, isLatest, isList) :=
    if Strings.HasSuffix name "/@latest" then
      (Strings.TrimSuffix name "latest" +:+ "v/latest.info", true, false)
    else if Strings.HasSuffix name "/@v/list" then
      (Strings.TrimSuffix name "list" +:+ "latest.info", false, true)
    else (name, false, false) in
  match Strings.Split name "/@v/" with
  | [escapedModulePath; nameBase] =>
    match module_UnescapePath L escapedModulePath with
    | None => None
    | Some modulePath =>
      let nameExt := Path.Ext nameBase in
      if negb (eqs nameExt ".info" || eqs nameExt ".mod"
               || eqs nameExt ".zip")
      then None
      else
        let escapedModuleVersion := Strings.TrimSuffix nameBase nameExt in
        match module_UnescapeVersion L escapedModuleVersion with
        | None => None
        | Some moduleVersion =>
          Some {| mq_name := name; mq_isLatest := isLatest;
                  mq_isList := isList; mq_modulePath := modulePath;
                  mq_nameExt := nameExt;
                  mq_moduleVersion := moduleVersion |}
        end
    end
  | _ => None
  end.

(** Whether the module path is one of [stagingRepos] (lines 487-494). *)
Definition isStagingRepo (modulePath : string) : bool :=
  existsb (fun sr => eqs sr modulePath) stagingRepos.

(** A decoded module request with its scratch directory (lines 516-874);
    [moduleVersion] is the version after the rewrite. *)
Definition ServeHTTP_operation (L : Lib) (W : World) (g : Goproxy)
  (q : moduleRequest) (moduleVersion goproxyRoot : string) : M unit :=
  if mq_isList q then
    ServeHTTP_list W g goproxyRoot (mq_modulePath q) moduleVersion
                   (isStagingRepo (mq_modulePath q))
  else if mq_isLatest q || negb (Semver.IsValid moduleVersion) then
    resolved <~ ServeHTTP_resolve L W g goproxyRoot (mq_modulePath q)
                  moduleVersion (mq_name q) (mq_nameExt q) (mq_isLatest q) ;;
    let '(moduleVersion, name) := resolved in
    ServeHTTP_fetch L W g goproxyRoot (mq_modulePath q) moduleVersion name
                    (mq_nameExt q) false
  else
    ServeHTTP_fetch L W g goproxyRoot (mq_modulePath q) moduleVersion
                    (mq_name q) (mq_nameExt q) true.

(** A module request (lines 437-874): a path that does not decode is not
    found; one that does has its version rewritten when the module is a
    staging repository, gets a scratch directory, and is served. *)
Definition ServeHTTP_module (L : Lib) (W : World) (g : Goproxy)
  (name : string) : M unit :=
  match decodeModule L name with
  | None => respondMalformed
  | Some q =>
    let staging := isStagingRepo (mq_modulePath q) in
    when staging
         (emit (EvPrint ("isStagingRepo " +:+ mq_modulePath q +:+ LF))) ;;;
    when (staging && Strings.HasPrefix (mq_moduleVersion q) "v0.1")
         (emit (EvPrint (mq_moduleVersion q +:+ " -> "
                         +:+ stagingVersion staging (mq_moduleVersion q)
                         +:+ LF))) ;;;
    let moduleVersion := stagingVersion staging (mq_moduleVersion q) in
    emit EvTempDir ;;;
    goproxyRoot <~ match ioutil_TempDir W with
                   | Err e => respondInternal e
                   | Ok d => ret d
                   end ;;
    deferPurge g goproxyRoot
      (ServeHTTP_operation L W g q moduleVersion goproxyRoot)
  end.

(** The handler after [g.loadOnce.Do(g.load)] (lines 289-874). *)
Definition ServeHTTP_loaded (L : Lib) (W : World) (g : Goproxy)
  (r : Request) : M unit :=
  when (negb (eqs (Method r) "GET" || eqs (Method r) "HEAD"))
       (setResponseCacheControlHeader 3600 ;;;
        responseMethodNotAllowed ;;; return_) ;;;
  when (negb (Strings.HasPrefix (RequestPath r) "/")) respondMalformed ;;;
  let trimmedPath := Path.Clean (RequestPath r) in
  let trimmedPath := Strings.TrimPrefix trimmedPath (PathPrefix g) in
  let trimmedPath := Strings.TrimLeft trimmedPath "/" in
  name <~ match Url.PathUnescape trimmedPath with
          | None => respondMalformed
          | Some n => ret n
          end ;;
  if Strings.HasPrefix name "sumdb/"
  then ServeHTTP_sumdb L W g (Strings.TrimPrefix name "sumdb/")
  else ServeHTTP_module L W g name.

(** ServeHTTP implements the [http.Handler]: the [Goproxy] after the
    request, and what the request did. *)
Definition ServeHTTP (L : Lib) (W : World) (g : Goproxy) (r : Request)
  : Goproxy * St :=
  let g := loadOnce L g in
  (g, run (ServeHTTP_loaded L W g r)).

(** ** A library and a world to run the handler in

    [exampleLib] answers as the Go libraries do on the inputs used in the
    examples below: module paths and versions without capitals or bang
    escapes, lower-case ASCII host names, glob patterns without
    metacharacters, URLs of the form [scheme://host/path], and empty
    checksums. *)

Definition exampleParse (rawURL : string) : result URL :=
  match Strings.Index rawURL "://" with
  | None => Err ("parse " +:+ rawURL +:+ ": missing scheme")
  | Some i =>
    let rest := Str.drop (i + 3) rawURL in
    let j := default (Str.len rest) (Strings.Index rest "/") in
    Ok {| Scheme := Str.take i rawURL; User := None;
          Host := Str.take j rest; URLPath := Str.drop j rest |}
  end.

Definition exampleLib : Lib :=
  {| path_Match := fun pattern name => Some (eqs pattern name);
     filepath_IsAbs := Path.IsAbs;
     url_Parse := exampleParse;
     URL_String := fun u => Scheme u +:+ "://" +:+ Host u +:+ URLPath u;
     module_UnescapePath := Some;
     module_UnescapeVersion := Some;
     module_EscapeVersion := Ok;
     idna_ToASCII := Some;
     base64_EncodeToString := fun _ => "" |}.

(** A world in which everything works: the driver answers every operation
    with [mr], the checksum database with [lines], the two hashes are
    ["h1:zip"] and ["h1:mod"], a temporary cache has the size [size], and the
    upstream answers [up]. *)
Definition exampleWorld (mr : modResult) (lines : list string) (size : Z)
  (up : doAnswer) : World :=
  {| ioutil_TempDir := Ok "/tmp/goproxy1";
     mod_ := fun _ _ _ _ _ _ => Ok mr;
     sumdbClient_Lookup := fun _ _ => Ok lines;
     dirhash_HashZip := fun _ => Ok "h1:zip";
     dirhash_Hash1 := fun _ => Ok "h1:mod";
     openTempCache := fun _ name =>
       Ok {| Name := name; MIMEType := "application/octet-stream";
             Size := size; Checksum := "" |};
     http_NewRequest := fun _ => None;
     http_Do := fun _ => up |}.

(** The same world with a driver that fails with [msg]. *)
Definition failingDriver (W : World) (msg : string) : World :=
  {| ioutil_TempDir := ioutil_TempDir W;
     mod_ := fun _ _ _ _ _ _ => Err msg;
     sumdbClient_Lookup := sumdbClient_Lookup W;
     dirhash_HashZip := dirhash_HashZip W;
     dirhash_Hash1 := dirhash_Hash1 W;
     openTempCache := openTempCache W;
     http_NewRequest := http_NewRequest W;
     http_Do := http_Do W |}.

Definition exampleResult (v : string) (vs : list string) : modResult :=
  {| Version := v; Versions := vs;
     Info := "/tmp/goproxy1/m.info"; GoMod := "/tmp/goproxy1/m.mod";
     Zip := "/tmp/goproxy1/m.zip" |}.

Definition GET (p : string) : Request := {| Method := "GET"; RequestPath := p |}.

(** ** The specification's side, and inputs for the examples *)

(** Modelled from the spec: the signals of section 4.H, as the expression
    would read with one [|] between any two of them and none at the end. *)
Definition spec_signals_expr : string :=
  "(400 Bad Request)|(403 Forbidden)|(404 Not Found)|(410 Gone)|" +:+
  "(^bad request: .*)|(^gone: .*)|(^not found: .*)|" +:+
  "(could not read Username)|(does not contain package)|" +:+
  "(go.mod has non-.* module path)|(go.mod has post-.* module path)|" +:+
  "(invalid .* import path)|(invalid pseudo-version)|(invalid version)|" +:+
  "(missing .*/go.mod and .*/go.mod at revision)|(no matching versions)|" +:+
  "(repository .* not found)|(unable to connect to)|(unknown revision)|" +:+
  "(unrecognized import path)|(untrusted revision)".

Definition spec_signals : Regexp.Regexp := Regexp.MustCompile spec_signals_expr.

Definition exampleModule : modResult :=
  exampleResult "v1.2.3" ["v1.0.0"; "v1.1.0"].

Definition exampleLines : list string :=
  ["example.com/m v1.2.3 h1:zip"; "example.com/m v1.2.3/go.mod h1:mod"].

Definition W_ok : World :=
  exampleWorld exampleModule exampleLines 10 (DoTimeout "timeout").

(** Modelled from the spec (section 6, GOPROXY at init): the trimmed
    non-empty entries of a comma-separated list. *)
Definition spec_entries (orig : string) : list string :=
  List.filter (fun e => negb (eqs e ""))
              (map Strings.TrimSpace (Strings.Split orig ",")).

(** Modelled from the spec: the entries up to and including the first
    [direct] or [off]. *)
Fixpoint spec_upto_sentinel (entries : list string) : list string :=
  match entries with
  | [] => []
  | e :: rest =>
    if eqs e "direct" || eqs e "off" then [e]
    else e :: spec_upto_sentinel rest
  end.

(** Modelled from the spec: the effective GOPROXY for an initial one. *)
Definition spec_GOPROXY (orig : string) : string :=
  match spec_upto_sentinel (spec_entries orig) with
  | [] => if eqs orig "" then "https://proxy.golang.org,direct" else "off"
  | entries => Strings.Join entries ","
  end.

(** The name a request is decoded to (lines 289-312), when it is. *)
Definition requestName (g : Goproxy) (r : Request) : option string :=
  if negb (eqs (Method r) "GET" || eqs (Method r) "HEAD") then None
  else if negb (Strings.HasPrefix (RequestPath r) "/") then None
  else Url.PathUnescape
         (Strings.TrimLeft
            (Strings.TrimPrefix (Path.Clean (RequestPath r)) (PathPrefix g))
            "/").

(** The paths of a log URL that are passed through to the upstream
    (lines 342-349). *)
Definition sumdbPassthrough (u : URL) : bool :=
  eqs (URLPath u) "/latest"
  || Strings.HasPrefix (URLPath u) "/lookup/"
  || Strings.HasPrefix (URLPath u) "/tile/".

(** A log request that reaches [http.DefaultClient.Do]: the raw URL parses,
    its host is in the allow-set, its path is passed through, and the request
    to the upstream can be built. *)
Definition reachesUpstream (L : Lib) (W : World) (g : Goproxy)
  (rawURL : string) (u : URL) (n : string) : Prop :=
  parseRawURL L rawURL = Ok u
  /\ idna_ToASCII L (Host u) = Some n
  /\ flag (supportedSUMDBNames g) n = true
  /\ eqs (URLPath u) "/supported" = false
  /\ sumdbPassthrough u = true
  /\ http_NewRequest W (URL_String L u) = None.

(** An upstream that answers with [code], [status] and [body]. *)
Definition upstreamAnswer (code : Z) (status body : string) : doAnswer :=
  DoResponse {| StatusCode := code; Status := status; Body := Ok body;
                ContentLength := pretty (Str.len body) |}.

(** Whether [evs] hands an entry of the name [name] to [Cacher.SetCache]. *)
Definition written (name : string) (evs : list Event) : bool :=
  existsb (fun e => match e with
                    | EvSetCache c => eqs (Name c) name
                    | _ => false
                    end) evs.

(** The size limit of lines 826-827. *)
Definition zipLimitOk (g : Goproxy) (zipSize : Z) : Prop :=
  MaxZIPCacheBytes g = 0%Z \/ (zipSize <= MaxZIPCacheBytes g)%Z.

(** A [Goproxy] as [New] makes it, with a cache backend and a limit. *)
Definition exampleGoproxy (cacher : option CacherI) (maxZIP : Z) : Goproxy :=
  {| GoBinName := "go";
     GoBinEnv := ["GOPROXY=direct"];
     MaxGoBinWorkers := 0;
     PathPrefix := "";
     Cacher := cacher;
     MaxZIPCacheBytes := maxZIP;
     SupportedSUMDBNames := ["sum.golang.org"];
     DisableNotFoundLog := false;
     loaded := false;
     goBinEnv := ∅;
     supportedSUMDBNames := ∅ |}.

(** [g] with another [MaxZIPCacheBytes]. *)
Definition withMaxZIPCacheBytes (g : Goproxy) (maxZIP : Z) : Goproxy :=
  {| GoBinName := GoBinName g;
     GoBinEnv := GoBinEnv g;
     MaxGoBinWorkers := MaxGoBinWorkers g;
     PathPrefix := PathPrefix g;
     Cacher := Cacher g;
     MaxZIPCacheBytes := maxZIP;
     SupportedSUMDBNames := SupportedSUMDBNames g;
     DisableNotFoundLog := DisableNotFoundLog g;
     loaded := loaded g;
     goBinEnv := goBinEnv g;
     supportedSUMDBNames := supportedSUMDBNames g |}.

(** A backend that holds nothing and refuses to store the entry [name]. *)
Definition refusingCacher (name : string) : CacherI :=
  {| Cacher_Cache := fun _ => ErrCacheNotFound;
     Cacher_SetCache := fun c =>
       if eqs (Name c) name then Some "cacher: write failed" else None |}.

(** Whether a download of [modulePath] is verified (lines 643-644). *)
Definition verifies (L : Lib) (g : Goproxy) (modulePath : string) : bool :=
  negb (eqs (env (goBinEnv g) "GOSUMDB") "off")
  && negb (globsMatchPath L (env (goBinEnv g) "GONOSUMDB") modulePath).

(** The entries handed to [Cacher.SetCache], by the handler or by its
    goroutine. *)
Definition setCaches (evs : list Event) : list Cache :=
  omap (fun e => match e with EvSetCache c => Some c | _ => None end) evs.

Definition cacheWrites (s : St) : list Cache :=
  setCaches (Events s) ++ setCaches (default [] (Background s)).

(** The lookups and hash computations of the verification, in order. *)
Definition isVerification (e : Event) : bool :=
  match e with
  | EvLookup _ _ | EvHashZip _ | EvHash1 _ => true
  | _ => false
  end.

Definition verificationEvents (evs : list Event) : list Event :=
  List.filter isVerification evs.

(** The lines the verification looks for. *)
Definition zipLine (modulePath moduleVersion zipHash : string) : string :=
  modulePath +:+ " " +:+ moduleVersion +:+ " " +:+ zipHash.

Definition goModLine (modulePath moduleVersion goModHash : string) : string :=
  modulePath +:+ " " +:+ moduleVersion +:+ "/go.mod " +:+ goModHash.

(** The file of the requested flavor (lines 836-844). *)
Definition flavorFile (nameExt : string) (mr : modResult) : string :=
  if eqs nameExt ".info" then Info mr
  else if eqs nameExt ".mod" then GoMod mr
  else if eqs nameExt ".zip" then Zip mr
  else "".

(** A response written by one of the response helpers. *)
Definition isPlain (s : St) : Prop :=
  match Written s with
  | Some (ServeContent _) | Some (Copied _) | None => False
  | Some _ => True
  end.

(** The world of a staging repository: the driver resolves
    [kubernetes-1.17.0] to [v0.17.0], and the checksum database vouches for
    it. *)
Definition W_k8s : World :=
  exampleWorld (exampleResult "v0.17.0" ["kubernetes-1.17.0"; "v0.17.0"])
    ["k8s.io/api v0.17.0 h1:zip"; "k8s.io/api v0.17.0/go.mod h1:mod"] 10
    (DoTimeout "timeout").

(** A step of the handler only adds to the events. *)
Definition extends {A} (m : M A) : Prop :=
  forall s, exists l, Events (fst (m s)) = Events s ++ l.

(** A step of the handler whose first event is [e]. *)
Definition startsWith {A} (e : Event) (m : M A) : Prop :=
  forall s, exists l, Events (fst (m s)) = Events s ++ e :: l.

(** The version a staging repository's list is augmented with
    (line 547). *)
Definition zeroVer (moduleVersion : string) : string :=
  "v0." +:+ Strings.TrimPrefix moduleVersion "kubernetes-1.".

(** The versions of a staging repository's list (lines 542-556). *)
Definition augmented (moduleVersion : string) (versions : list string)
  : list string :=
  versions
  ++ (if existsb (fun v => Strings.HasPrefix v "kubernetes-1.") versions
      then [zeroVer moduleVersion] else []).

(** Modelled from the spec (section 6, glob semantics): the fields of a
    list separated by the byte [sep]; the path elements of a target are its
    fields separated by [/]. *)
Fixpoint spec_fields (sep : ascii) (s : string) : list string :=
  match s with
  | "" => [""]
  | String c s' =>
    if Ascii.eqb c sep then "" :: spec_fields sep s'
    else match spec_fields sep s' with
         | h :: t => String c h :: t
         | [] => [String c ""]
         end
  end.

(** Modelled from the spec: a pattern with N slashes matches the target's
    first N+1 path elements using shell-glob rules; a target with fewer
    elements does not match, and empty or malformed patterns are ignored. *)
Definition spec_globMatches (L : Lib) (target glob : string) : Prop :=
  glob <> ""
  /\ let n := Strings.Count glob "/" in
     let elements := spec_fields "/" target in
     n + 1 <= length elements
     /\ path_Match L glob (Strings.Join (take (n + 1) elements) "/")
        = Some true.

(** The same, decided. *)
Definition spec_globMatchesb (L : Lib) (target glob : string) : bool :=
  negb (eqs glob "")
  && (let n := Strings.Count glob "/" in
      let elements := spec_fields "/" target in
      (n + 1 <=? length elements)%nat
      && default false
           (path_Match L glob (Strings.Join (take (n + 1) elements) "/"))).

(** The meaning of a regular expression of the fragment: [Matches bot r w]
    says that [r] matches exactly the runes [w], read from a position that
    is the beginning of the text when [bot] is set. *)
Definition botAfter (bot : bool) (w : list string) : bool :=
  match w with
  | [] => bot
  | _ :: _ => false
  end.

Inductive Matches : bool -> Regexp.Regexp -> list string -> Prop :=
| M_empty bot : Matches bot Regexp.EmptyMatch []
| M_literal bot c : Matches bot (Regexp.Literal c) [String c ""]
| M_any bot x : x <> Regexp.newline -> Matches bot Regexp.AnyCharNotNL [x]
| M_begin : Matches true Regexp.BeginText []
| M_star_nil bot r : Matches bot (Regexp.Star r) []
| M_star_more bot r x w1 w2 :
    Matches bot r (x :: w1) -> Matches false (Regexp.Star r) w2 ->
    Matches bot (Regexp.Star r) ((x :: w1) ++ w2)
| M_concat bot r1 r2 w1 w2 :
    Matches bot r1 w1 -> Matches (botAfter bot w1) r2 w2 ->
    Matches bot (Regexp.Concat r1 r2) (w1 ++ w2)
| M_alternate_l bot r1 r2 w :
    Matches bot r1 w -> Matches bot (Regexp.Alternate r1 r2) w
| M_alternate_r bot r1 r2 w :
    Matches bot r2 w -> Matches bot (Regexp.Alternate r1 r2) w
| M_capture bot r w : Matches bot r w -> Matches bot (Regexp.Capture r) w.

(** ** What the later properties speak of *)

(** A request for the log [u], under the name [n] of the allow-set
    (lines 315-334): the request decodes to a name under [sumdb/], the rest of
    the name parses to [u], and the host of [u] is allowed as [n]. *)
Definition logRequest (L : Lib) (g : Goproxy) (r : Request) (u : URL)
  (n : string) : Prop :=
  exists name,
    requestName g r = Some name
    /\ Strings.HasPrefix name "sumdb/" = true
    /\ parseRawURL L (Strings.TrimPrefix name "sumdb/") = Ok u
    /\ idna_ToASCII L (Host u) = Some n
    /\ flag (supportedSUMDBNames (loadOnce L g)) n = true.

(** A step of the handler that adds events of the kind [P] only. *)
Definition emitsOnly {A} (P : Event -> bool) (m : M A) : Prop :=
  forall s, exists l, Events (fst (m s)) = Events s ++ l /\ forallb P l = true.

(** The kinds of events. *)
Definition isHTTPDo (e : Event) : bool :=
  match e with EvHTTPDo _ => true | _ => false end.

Definition isLog (e : Event) : bool :=
  match e with EvLog _ => true | _ => false end.

Definition isPurge (e : Event) : bool :=
  match e with EvModClean _ | EvRemoveAll _ => true | _ => false end.

(** The purge of the scratch directory (lines 511-512, 769-770). *)
Definition purge (goproxyRoot : string) : list Event :=
  [EvModClean goproxyRoot; EvRemoveAll goproxyRoot].

(** Everything a request did, the goroutine's part last. *)
Definition allEvents (s : St) : list Event :=
  Events s ++ default [] (Background s).

(** A step of the handler that leaves the goroutine and the flag of the
    deferred purge alone, or starts the write-back for [goproxyRoot] and sets
    the flag. *)
Definition startsWriteBack {A} (W : World) (g : Goproxy)
  (goproxyRoot : string) (m : M A) : Prop :=
  forall s,
    let s' := fst (m s) in
    (Background s' = Background s
     /\ hijackedGoproxyRootPurge s' = hijackedGoproxyRootPurge s)
    \/ (hijackedGoproxyRootPurge s' = true
        /\ exists cacher name nameExt mr,
             Background s'
             = Some (ServeHTTP_goroutine W g cacher goproxyRoot name nameExt
                                         mr)).

Definition isPrint (e : Event) : bool :=
  match e with EvPrint _ => true | _ => false end.

(** A backend that holds the entry [c] and nothing else, and a backend that
    fails with [msg]. *)
Definition holdingCacher (c : Cache) : CacherI :=
  {| Cacher_Cache := fun name =>
       if eqs name (Name c) then CacheFound c else ErrCacheNotFound;
     Cacher_SetCache := fun _ => None |}.

Definition brokenCacher (msg : string) : CacherI :=
  {| Cacher_Cache := fun _ => CacheErr msg;
     Cacher_SetCache := fun _ => Some msg |}.

(** The world [W] without a place for scratch directories. *)
Definition noTempDir (W : World) (msg : string) : World :=
  {| ioutil_TempDir := Err msg;
     mod_ := mod_ W;
     sumdbClient_Lookup := sumdbClient_Lookup W;
     dirhash_HashZip := dirhash_HashZip W;
     dirhash_Hash1 := dirhash_Hash1 W;
     openTempCache := openTempCache W;
     http_NewRequest := http_NewRequest W;
     http_Do := http_Do W |}.

(** A comma-separated list as [load] leaves it (lines 213-225 and 231-243):
    the entries trimmed, the empty ones dropped, the others joined again; a
    list without entries is left as it is. *)
Definition load_list (v : string) : string :=
  let entries := load_trimmed (Strings.Split v ",") [] in
  if (0 <? length entries)%nat then Strings.Join entries "," else v.

(** The environment after the first loop of [load]. *)
Definition load_environ (g : Goproxy) : gmap string string :=
  load_GoBinEnv (GoBinEnv g) (goBinEnv g).

(** The blocks of [load] that follow, one variable each: GOPROXY
    (lines 181-200), GOSUMDB (lines 202-207), and GONOPROXY and GONOSUMDB
    (lines 209-225 and 227-243), which are alike. *)
Definition load_GOPROXY (e : gmap string string) : gmap string string :=
  let proxies := load_proxies (Strings.Split (env e "GOPROXY") ",") [] in
  if (0 <? length proxies)%nat
  then <["GOPROXY" := Strings.Join proxies ","]> e
  else if eqs (env e "GOPROXY") ""
  then <["GOPROXY" := "https://proxy.golang.org,direct"]> e
  else <["GOPROXY" := "off"]> e.

Definition load_GOSUMDB (e : gmap string string) : gmap string string :=
  let e := <["GOSUMDB" := Strings.TrimSpace (env e "GOSUMDB")]> e in
  if eqs (env e "GOSUMDB") "" || eqs (env e "GOSUMDB") "sum.golang.org"
  then <["GOSUMDB" := GOSUMDB_default]> e
  else e.

Definition load_private (k : string) (e : gmap string string)
  : gmap string string :=
  let e := if eqs (env e k) "" then <[k := env e "GOPRIVATE"]> e else e in
  let entries := load_trimmed (Strings.Split (env e k) ",") [] in
  if (0 <? length entries)%nat
  then <[k := Strings.Join entries ","]> e else e.

(** [u] with the password [p], when it has user information. *)
Definition withPassword (u : URL) (p : string) : URL :=
  match User u with
  | Some ui =>
    {| Scheme := Scheme u;
       User := Some {| Username := Username ui; Password := Some p |};
       Host := Host u;
       URLPath := URLPath u |}
  | None => u
  end.

(** ** [appendURL] *)

(** A [url.URL] with its [RawPath], the encoded form of the path that
    [appendURL] keeps beside [Path]. *)
Record RawURL : Type := {
  Plain : URL;
  RawPath : string;
}.

(** One round of the loop of [appendURL] (lines 923-929). *)
Definition appendURL_step (u : RawURL) (ep : string) : RawURL :=
  {| Plain := {| Scheme := Scheme (Plain u);
                 User := User (Plain u);
                 Host := Host (Plain u);
                 URLPath := Path.Join [URLPath (Plain u); ep] |};
     RawPath :=
       Path.Join [RawPath u;
                  Strings.Replace (Url.PathEscape ep) "%2F" "/" (-1)] |}.

(** appendURL appends the extraPaths to the u safely and returns a new
    instance of the [url.URL]. *)
Definition appendURL (u : RawURL) (extraPaths : list string) : RawURL :=
  foldl appendURL_step u extraPaths.

(** The escaped form [appendURL] gives an extra path (line 927). *)
Definition escapedPath (p : string) : string :=
  Strings.Replace (Url.PathEscape p) "%2F" "/" (-1).

(** The same, byte by byte: a slash is kept, and every other byte is what
    [PathEscape] makes of it. *)
Fixpoint escapedBytes (p : string) : string :=
  match p with
  | "" => ""
  | String c p' =>
    (if Ascii.eqb c "/" then "/" else Url.PathEscape (String c ""))
    +:+ escapedBytes p'
  end.

(** * Properties *)

(** ** The monad's operations, one step at a time *)

Ltac step_M :=
  cbv beta iota delta
    [bind ret return_ when emit setHeader write spawn logError run
     setResponseCacheControlHeader responseString responseNotFound
     responseMethodNotAllowed responseInternalServerError responseBadGateway
     respondInternal respondMalformed maxAgeIs St0];
  cbn [Header CacheControl Written Events Background
       hijackedGoproxyRootPurge fst snd].

Ltac red_M :=
  cbv beta iota;
  cbn [Header CacheControl Written Events Background
       hijackedGoproxyRootPurge fst snd negb].

(** ** The library models on examples *)

Example TrimSpace_ex : Strings.TrimSpace "  direct	" = "direct".
Proof. reflexivity. Qed.

Example Split_ex :
  Strings.Split "a/@v/b/@v/" "/@v/" = ["a"; "b"; ""]
  /\ Strings.Split "" "," = [""]
  /\ Strings.SplitN "K=a=b" "=" 2 = ["K"; "a=b"]
  /\ Strings.SplitN "K" "=" 2 = ["K"].
Proof. repeat split. Qed.

Example regexp_examples :
  let re := Regexp.MustCompile "(404 Not Found)|(^gone: .*)|(invalid .* import path)" in
  Regexp.MatchString re "GET x: 404 Not Found" = true
  /\ Regexp.MatchString re "gone: v1" = true
  /\ Regexp.MatchString re "it is gone: v1" = false
  /\ Regexp.MatchString re "invalid github.com/ import path" = true
  /\ Regexp.MatchString re "exit status 1" = false.
Proof. vm_compute. repeat split. Qed.

Example IsValid_ex :
  Semver.IsValid "v1.2.3" = true /\ Semver.IsValid "v0.17.0" = true
  /\ Semver.IsValid "v1" = true /\ Semver.IsValid "v1.2.3-pre.1+meta" = true
  /\ Semver.IsValid "v1.02.3" = false /\ Semver.IsValid "v1.2.3-01" = false
  /\ Semver.IsValid "master" = false /\ Semver.IsValid "latest" = false
  /\ Semver.IsValid "kubernetes-1.17.0" = false.
Proof. vm_compute. repeat split. Qed.

Example Ext_ex :
  Path.Ext "v1.2.3.zip" = ".zip" /\ Path.Ext "latest.info" = ".info"
  /\ Path.Ext "a.b/c" = "" /\ Path.Ext "list" = "".
Proof. repeat split. Qed.

Example Clean_ex :
  Path.Clean "/a//b/./c/../d/" = "/a/b/d" /\ Path.Clean "/../a" = "/a"
  /\ Path.Clean "../../a/.." = "../.." /\ Path.Clean "" = "."
  /\ Path.Clean "/" = "/" /\ Path.Dir "m/@v/x.info" = "m/@v"
  /\ Path.Join ["m/@v"; "v1.info"] = "m/@v/v1.info".
Proof. repeat split. Qed.

Example PathUnescape_ex :
  Url.PathUnescape "a%2Fb+c" = Some "a/b+c" /\ Url.PathUnescape "a%2" = None
  /\ Url.PathUnescape "%zz" = None /\ Url.PathUnescape "k8s.io/api" = Some "k8s.io/api".
Proof. repeat split. Qed.

(** ** The matcher against the meaning of the expressions *)

Lemma nullable_Matches (bot : bool) (r : Regexp.Regexp) :
  Regexp.nullable bot r = true <-> Matches bot r [].
Proof.
  split.
  - induction r; cbn [Regexp.nullable]; intros H; try discriminate.
    + constructor.
    + subst bot. constructor.
    + constructor.
    + apply andb_true_iff in H as [H1 H2].
      apply (M_concat bot r1 r2 [] []); auto.
    + apply orb_true_iff in H as [H|H];
        [apply M_alternate_l|apply M_alternate_r]; auto.
    + constructor. auto.
  - intros H. remember [] as w eqn:Ew.
    induction H; cbn [Regexp.nullable]; try discriminate; try reflexivity.
    + apply app_eq_nil in Ew as [-> ->]. cbn [botAfter] in *.
      rewrite IHMatches1, IHMatches2 by reflexivity. reflexivity.
    + rewrite IHMatches by assumption. reflexivity.
    + rewrite IHMatches by assumption. apply orb_true_r.
    + auto.
Qed.

Lemma botAfter_false (w : list string) : botAfter false w = false.
Proof. destruct w; reflexivity. Qed.

Lemma Matches_deriv (bot : bool) (x : string) (r : Regexp.Regexp)
  (w : list string) :
  Matches false (Regexp.deriv bot x r) w <-> Matches bot r (x :: w).
Proof.
  split.
  - revert w. induction r; intros w H; cbn [Regexp.deriv] in H.
    + inversion H.
    + inversion H.
    + destruct (String.eqb_spec x (String c "")) as [->|Hne];
        inversion H; subst. constructor.
    + destruct (String.eqb_spec x Regexp.newline) as [->|Hne];
        inversion H; subst. constructor. exact Hne.
    + inversion H.
    + inversion H; subst. rewrite botAfter_false in *.
      apply (M_star_more bot r x w1 w2); auto.
    + inversion H; subst.
      * match goal with
        | Hc : Matches false (Regexp.Concat _ _) _ |- _ =>
          inversion Hc; subst
        end.
        rewrite botAfter_false in *.
        apply (M_concat bot r1 r2 (x :: w1) w2); auto.
      * destruct (Regexp.nullable bot r1) eqn:Hn.
        -- apply (M_concat bot r1 r2 [] (x :: w)).
           ++ apply nullable_Matches. exact Hn.
           ++ cbn [botAfter]. auto.
        -- match goal with
           | Hc : Matches false Regexp.NoMatch _ |- _ => inversion Hc
           end.
    + inversion H; subst;
        [apply M_alternate_l|apply M_alternate_r]; auto.
    + constructor. auto.
  - intros H. remember (x :: w) as xw eqn:Ew. revert x w Ew.
    induction H; intros x' w' Ew; cbn [Regexp.deriv]; try discriminate.
    + injection Ew as <- <-. rewrite String.eqb_refl. constructor.
    + injection Ew as <- <-.
      destruct (String.eqb_spec x Regexp.newline) as [->|_];
        [contradiction|constructor].
    + injection Ew as <- <-.
      apply (M_concat false _ _ w1 w2).
      * apply IHMatches1. reflexivity.
      * rewrite botAfter_false. exact H0.
    + destruct w1 as [|y w1]; cbn [app botAfter] in *.
      * apply M_alternate_r.
        rewrite (proj2 (nullable_Matches bot r1) H).
        apply IHMatches2. exact Ew.
      * injection Ew as <- <-. apply M_alternate_l.
        apply (M_concat false _ _ w1 w2).
        -- apply IHMatches1. reflexivity.
        -- rewrite botAfter_false. exact H0.
    + apply M_alternate_l. auto.
    + apply M_alternate_r. auto.
    + auto.
Qed.

(** [match_here] finds the prefixes that match. *)
Lemma match_here_Matches (bot : bool) (r : Regexp.Regexp) (w : list string) :
  Regexp.match_here bot r w = true
  <-> exists w1 w2, w = w1 ++ w2 /\ Matches bot r w1.
Proof.
  revert bot r. induction w as [|x w IH]; intros bot r;
    cbn [Regexp.match_here]; rewrite orb_true_iff.
  - split.
    + intros [H|H]; [|discriminate]. exists [], [].
      split; [reflexivity|]. apply nullable_Matches. exact H.
    + intros (w1 & w2 & E & H). symmetry in E.
      apply app_eq_nil in E as [-> ->].
      left. apply nullable_Matches. exact H.
  - rewrite IH. split.
    + intros [H|(w1 & w2 & -> & H)].
      * exists [], (x :: w). split; [reflexivity|].
        apply nullable_Matches. exact H.
      * exists (x :: w1), w2. split; [reflexivity|].
        apply Matches_deriv. exact H.
    + intros ([|y w1] & w2 & E & H).
      * left. apply nullable_Matches. exact H.
      * cbn [app] in E. injection E as <- ->. right.
        exists w1, w2. split; [reflexivity|]. apply Matches_deriv. exact H.
Qed.

(** [search] finds the substrings that match. *)
Lemma search_Matches (bot : bool) (r : Regexp.Regexp) (w : list string) :
  Regexp.search bot r w = true
  <-> exists pre w1 post,
        w = pre ++ w1 ++ post /\ Matches (botAfter bot pre) r w1.
Proof.
  revert bot. induction w as [|x w IH]; intros bot;
    cbn [Regexp.search]; rewrite orb_true_iff, match_here_Matches.
  - split.
    + intros [(w1 & w2 & E & H)|H]; [|discriminate].
      exists [], w1, w2. auto.
    + intros (pre & w1 & post & E & H). left.
      destruct pre as [|y pre]; [|discriminate]. exists w1, post. auto.
  - rewrite IH. split.
    + intros [(w1 & w2 & E & H)|(pre & w1 & post & -> & H)].
      * exists [], w1, w2. auto.
      * exists (x :: pre), w1, post. split; [reflexivity|].
        rewrite botAfter_false in H. exact H.
    + intros ([|y pre] & w1 & post & E & H).
      * left. exists w1, post. auto.
      * cbn [app] in E. injection E as <- ->. right.
        exists pre, w1, post. split; [reflexivity|].
        rewrite botAfter_false. exact H.
Qed.

(** [MatchString]: some substring of the text matches the expression. *)
Lemma MatchString_Matches (r : Regexp.Regexp) (s : string) :
  Regexp.MatchString r s = true
  <-> exists pre w post,
        Utf8.runes s = pre ++ w ++ post /\ Matches (botAfter true pre) r w.
Proof. apply search_Matches. Qed.

(** ** C1: the error classifier *)

Lemma regModuleVersionNotFound_compiles :
  Regexp.Compile regModuleVersionNotFound_expr = Some regModuleVersionNotFound.
Proof. vm_compute. reflexivity. Qed.

(** The expression ends in [|]: its last alternative is empty. *)
Lemma regModuleVersionNotFound_nullable :
  Regexp.nullable true regModuleVersionNotFound = true.
Proof. vm_compute. reflexivity. Qed.

Lemma MatchString_nullable (r : Regexp.Regexp) (s : string) :
  Regexp.nullable true r = true -> Regexp.MatchString r s = true.
Proof.
  intros Hn. unfold Regexp.MatchString.
  destruct (Utf8.runes s) as [|x w]; simpl; rewrite Hn; reflexivity.
Qed.

(** The expression matches every message. *)
Lemma regModuleVersionNotFound_matches_all (msg : string) :
  Regexp.MatchString regModuleVersionNotFound msg = true.
Proof. apply MatchString_nullable, regModuleVersionNotFound_nullable. Qed.

(** What [respondModError] leaves: not found, for one minute, whatever the
    message. *)
Lemma respondModError_not_found {A} (g : Goproxy) (err : string) (s : St) :
  let s' := fst (respondModError (A := A) g err s) in
  Written s' = Some (NotFound (Some err))
  /\ maxAgeIs 60 s'
  /\ snd (respondModError (A := A) g err s) = None.
Proof.
  unfold respondModError. rewrite regModuleVersionNotFound_matches_all.
  destruct (DisableNotFoundLog g); step_M; auto.
Qed.

(** C1 (the code departs from the claim): the driver fails the download of
    [example.com/m@v1.2.3] with ["exit status 1"], a message that carries
    none of the signals of section 4.H; the claim asks for 500, the handler
    answers 404 with [max-age=60]. *)
Theorem C1_message_without_signal_is_not_found :
  let msg := "exit status 1" in
  let s := snd (ServeHTTP exampleLib (failingDriver W_ok msg)
                          (New ["GOPROXY=direct"])
                          (GET "/example.com/m/@v/v1.2.3.info")) in
  Regexp.MatchString spec_signals msg = false
  /\ Written s = Some (NotFound (Some msg))
  /\ answered 404 s
  /\ maxAgeIs 60 s.
Proof. vm_compute. repeat split. eexists. split; reflexivity. Qed.

(** ** C6: GOPROXY at init *)

Lemma env_insert_eq (m : gmap string string) (k v : string) :
  env (<[k := v]> m) k = v.
Proof. unfold env. rewrite lookup_insert_eq. reflexivity. Qed.

Lemma env_insert_ne (m : gmap string string) (k k' v : string) :
  k <> k' -> env (<[k := v]> m) k' = env m k'.
Proof. intros H. unfold env. rewrite lookup_insert_ne by exact H. reflexivity. Qed.

(** The loop of [load] collects what the specification describes. *)
Lemma load_proxies_spec (parts proxies : list string) :
  load_proxies parts proxies
  = proxies ++ spec_upto_sentinel
                 (List.filter (fun e => negb (eqs e ""))
                              (map Strings.TrimSpace parts)).
Proof.
  revert proxies. induction parts as [|p parts IH]; intros proxies; simpl.
  - symmetry. apply app_nil_r.
  - destruct (eqs (Strings.TrimSpace p) "") eqn:He; simpl.
    + apply IH.
    + destruct (eqs (Strings.TrimSpace p) "direct"
                || eqs (Strings.TrimSpace p) "off"); [reflexivity|].
      rewrite IH, <- app_assoc. reflexivity.
Qed.

(** The steps of [load] after the GOPROXY one leave GOPROXY alone. *)
Lemma load_env_GOPROXY (g : Goproxy) :
  let e := load_GoBinEnv (GoBinEnv g) (goBinEnv g) in
  let proxies := load_proxies (Strings.Split (env e "GOPROXY") ",") [] in
  env (load_env g) "GOPROXY"
  = if (0 <? length proxies)%nat then Strings.Join proxies ","
    else if eqs (env e "GOPROXY") "" then "https://proxy.golang.org,direct"
    else "off".
Proof.
  intros e proxies. unfold load_env. fold e. fold proxies.
  repeat match goal with
  | |- context [if ?b then <[_ := _]> _ else _] => destruct b
  end;
  repeat (rewrite env_insert_ne by discriminate);
  rewrite ?env_insert_eq; reflexivity.
Qed.

(** C6: after [load], the effective GOPROXY is the comma-join of the trimmed
    non-empty entries of the initial one up to and including the first
    [direct] or [off]; with no entry left it is
    [https://proxy.golang.org,direct] when the initial string was empty and
    [off] when it was not. *)
Theorem C6_GOPROXY_after_load (L : Lib) (g : Goproxy) :
  env (goBinEnv (load L g)) "GOPROXY"
  = spec_GOPROXY (env (load_GoBinEnv (GoBinEnv g) (goBinEnv g)) "GOPROXY").
Proof.
  simpl. rewrite load_env_GOPROXY. rewrite load_proxies_spec. simpl.
  unfold spec_GOPROXY, spec_entries.
  destruct (spec_upto_sentinel _) as [|e es]; reflexivity.
Qed.

Example GOPROXY_ex :
  let g := fun v => load exampleLib (New ["GOPROXY=" +:+ v]) in
  env (goBinEnv (g " https://a.io , ,direct,https://b.io")) "GOPROXY"
  = "https://a.io,direct"
  /\ env (goBinEnv (g "")) "GOPROXY" = "https://proxy.golang.org,direct"
  /\ env (goBinEnv (g " , ")) "GOPROXY" = "off"
  /\ env (goBinEnv (load exampleLib (New []))) "GOPROXY"
     = "https://proxy.golang.org,direct".
Proof. vm_compute. repeat split. Qed.

(** ** The decoding of the request *)

Lemma PathPrefix_loadOnce (L : Lib) (g : Goproxy) :
  PathPrefix (loadOnce L g) = PathPrefix g.
Proof. unfold loadOnce. destruct (loaded g); reflexivity. Qed.

Lemma ServeHTTP_loaded_name (L : Lib) (W : World) (g : Goproxy) (r : Request)
  (name : string) (s : St) :
  requestName g r = Some name ->
  ServeHTTP_loaded L W g r s
  = if Strings.HasPrefix name "sumdb/"
    then ServeHTTP_sumdb L W g (Strings.TrimPrefix name "sumdb/") s
    else ServeHTTP_module L W g name s.
Proof.
  unfold requestName, ServeHTTP_loaded. intros H.
  destruct (negb (eqs (Method r) "GET" || eqs (Method r) "HEAD"));
    [discriminate|].
  destruct (negb (Strings.HasPrefix (RequestPath r) "/")); [discriminate|].
  step_M. rewrite H.
  destruct (Strings.HasPrefix name "sumdb/"); reflexivity.
Qed.

(** ** C9: log hosts outside the allow-set *)

(** The allow-set after [load]: what was in it, and the ASCII forms of the
    configured names. *)
Lemma load_supported_flag (L : Lib) (names : list string)
  (m : gmap string bool) (n : string) :
  flag (load_supported L names m) n
  = flag m n
    || existsb (fun name => match idna_ToASCII L name with
                            | Some n' => eqs n' n
                            | None => false
                            end) names.
Proof.
  unfold load_supported. revert m.
  induction names as [|name names IH]; intros m; simpl.
  - symmetry. apply orb_false_r.
  - rewrite IH. destruct (idna_ToASCII L name) as [n'|]; simpl; [|reflexivity].
    unfold flag, eqs. destruct (String.eqb_spec n' n) as [->|Hne].
    + rewrite lookup_insert_eq. simpl. symmetry. apply orb_true_r.
    + rewrite lookup_insert_ne by exact Hne. reflexivity.
Qed.

(** C9: a [sumdb/] request (GET or HEAD, decoded to a name under [sumdb/]
    whose remainder parses to a URL) whose host, after IDNA-ASCII
    normalisation, is not in the allow-set of the loaded [Goproxy] is answered
    404 with [max-age=60], whatever the path of the URL. *)
Theorem C9_unsupported_log_host (L : Lib) (W : World) (g : Goproxy)
  (r : Request) (name : string) (u : URL) (n : string) :
  requestName g r = Some name ->
  Strings.HasPrefix name "sumdb/" = true ->
  parseRawURL L (Strings.TrimPrefix name "sumdb/") = Ok u ->
  idna_ToASCII L (Host u) = Some n ->
  flag (supportedSUMDBNames (loadOnce L g)) n = false ->
  let s := snd (ServeHTTP L W g r) in
  Written s = Some (NotFound None) /\ answered 404 s /\ maxAgeIs 60 s.
Proof.
  intros Hname Hpre Hparse Hhost Hflag. unfold ServeHTTP, run. simpl.
  assert (Hn : requestName (loadOnce L g) r = Some name)
    by (unfold requestName in *; rewrite PathPrefix_loadOnce; exact Hname).
  rewrite (ServeHTTP_loaded_name _ _ _ _ _ _ Hn), Hpre.
  unfold ServeHTTP_sumdb. step_M.
  rewrite Hparse, Hhost, Hflag. red_M.
  repeat split. eexists. split; reflexivity.
Qed.

Lemma C9_unsupported_log_host_witness :
  let s := snd (ServeHTTP exampleLib W_ok (New [])
                          (GET "/sumdb/sum.example.org/lookup/x")) in
  Written s = Some (NotFound None) /\ answered 404 s /\ maxAgeIs 60 s.
Proof.
  apply (C9_unsupported_log_host exampleLib W_ok (New [])
           (GET "/sumdb/sum.example.org/lookup/x")
           "sumdb/sum.example.org/lookup/x"
           {| Scheme := "https"; User := None; Host := "sum.example.org";
              URLPath := "/lookup/x" |}
           "sum.example.org");
    vm_compute; reflexivity.
Defined.

(** ** C8: the upstream of the log passthrough *)

(** Up to [http.DefaultClient.Do], a request that reaches the upstream has
    only been recorded. *)
Lemma ServeHTTP_sumdb_upstream (L : Lib) (W : World) (g : Goproxy)
  (rawURL : string) (u : URL) (n : string) (s0 : St) :
  reachesUpstream L W g rawURL u n ->
  exists contentType cachingForever,
    ServeHTTP_sumdb L W g rawURL s0
    = (sumdbRes <~ match http_Do W (URL_String L u) with
                   | DoTimeout _ => responseBadGateway ;;; return_
                   | DoErr e => respondInternal e
                   | DoResponse res => ret res
                   end ;;
       when (negb (StatusCode sumdbRes =? 200)%Z)
            (b <~ match Body sumdbRes with
                  | Err e => respondInternal e
                  | Ok b => ret b
                  end ;;
             when ((StatusCode sumdbRes =? 400)%Z
                   || (StatusCode sumdbRes =? 404)%Z
                   || (StatusCode sumdbRes =? 410)%Z)
                  (when (negb (DisableNotFoundLog g)) (logError b) ;;;
                   (if (StatusCode sumdbRes =? 404)%Z
                    then setResponseCacheControlHeader 60
                    else setResponseCacheControlHeader 3600) ;;;
                   responseNotFound (Some b) ;;;
                   return_) ;;;
             logError ("GET " +:+ redactedURL L u +:+ ": "
                       +:+ Status sumdbRes +:+ ": " +:+ b) ;;;
             responseBadGateway ;;;
             return_) ;;;
       setHeader "Content-Type" contentType ;;;
       setHeader "Content-Length" (ContentLength sumdbRes) ;;;
       (if cachingForever : bool
        then setResponseCacheControlHeader (365 * 24 * 3600)
        else setResponseCacheControlHeader 60) ;;;
       write (Copied (Body sumdbRes)))
      (fst (emit (EvHTTPDo (URL_String L u)) s0)).
Proof.
  intros (Hparse & Hhost & Hflag & Hsup & Hkind & Hreq).
  unfold ServeHTTP_sumdb.
  unfold bind at 1. unfold ret at 1. rewrite Hparse.
  unfold bind at 1. unfold ret at 1. rewrite Hhost.
  unfold bind at 1. rewrite Hflag. unfold when at 1, ret at 1. simpl negb. cbv iota.
  unfold bind at 1. rewrite Hsup.
  unfold sumdbPassthrough in Hkind.
  destruct (eqs (URLPath u) "/latest").
  { eexists _, _. unfold ret at 1. cbv iota beta. unfold bind at 1.
    rewrite Hreq. unfold ret at 1. cbv iota beta. reflexivity. }
  destruct (Strings.HasPrefix (URLPath u) "/lookup/").
  { eexists _, _. unfold ret at 1. cbv iota beta. unfold bind at 1.
    rewrite Hreq. unfold ret at 1. cbv iota beta. reflexivity. }
  destruct (Strings.HasPrefix (URLPath u) "/tile/"); [|discriminate].
  eexists _, _. unfold ret at 1. cbv iota beta. unfold bind at 1.
  rewrite Hreq. unfold ret at 1. cbv iota beta. reflexivity.
Qed.

(** C8: for a log request that reaches the upstream, a timeout of the
    upstream is answered 502; an upstream status of 400, 404 or 410 whose
    body is [b] is answered 404 with [b], for one minute when it was 404 and
    for one hour otherwise; any other status but 200 is answered 502, and the
    redacted URL, the status and the body are logged. *)
Theorem C8_upstream_failures (L : Lib) (W : World) (g : Goproxy)
  (rawURL : string) (u : URL) (n : string) (s0 : St) :
  reachesUpstream L W g rawURL u n ->
  let s := fst (ServeHTTP_sumdb L W g rawURL s0) in
  (forall msg, http_Do W (URL_String L u) = DoTimeout msg ->
     Written s = Some BadGateway /\ answered 502 s)
  /\ (forall res b,
        http_Do W (URL_String L u) = DoResponse res -> Body res = Ok b ->
        StatusCode res = 400%Z \/ StatusCode res = 404%Z
        \/ StatusCode res = 410%Z ->
        Written s = Some (NotFound (Some b)) /\ answered 404 s
        /\ maxAgeIs (if (StatusCode res =? 404)%Z then 60 else 3600) s)
  /\ (forall res b,
        http_Do W (URL_String L u) = DoResponse res -> Body res = Ok b ->
        StatusCode res <> 200%Z -> StatusCode res <> 400%Z ->
        StatusCode res <> 404%Z -> StatusCode res <> 410%Z ->
        Written s = Some BadGateway /\ answered 502 s
        /\ In (EvLog ("GET " +:+ redactedURL L u +:+ ": " +:+ Status res
                      +:+ ": " +:+ b)) (Events s)).
Proof.
  intros Hreach s.
  destruct (ServeHTTP_sumdb_upstream L W g rawURL u n s0 Hreach)
    as (ct & cf & Heq).
  subst s. rewrite Heq. clear Heq. split; [|split].
  - intros msg Hdo. rewrite Hdo. step_M.
    split; [reflexivity|]. eexists. split; reflexivity.
  - intros res b Hdo Hbody Hcode. rewrite Hdo. step_M.
    destruct Hcode as [-> | [-> | ->]]; simpl; rewrite Hbody;
      destruct (DisableNotFoundLog g); red_M;
      (split; [reflexivity|split; [eexists; split; reflexivity|reflexivity]]).
  - intros res b Hdo Hbody H200 H400 H404 H410. rewrite Hdo. step_M.
    apply Z.eqb_neq in H200, H400, H404, H410.
    rewrite H200, H400, H404, H410. simpl. rewrite Hbody. red_M.
    split; [reflexivity|]. split; [eexists; split; reflexivity|].
    apply in_or_app. right. left. reflexivity.
Qed.

Lemma C8_upstream_failures_witness :
  let up := upstreamAnswer 410 "410 Gone" "gone" in
  let W := exampleWorld exampleModule exampleLines 10 up in
  let g := load exampleLib (New []) in
  let s := fst (ServeHTTP_sumdb exampleLib W g "sum.golang.org/lookup/m@v1"
                                St0) in
  Written s = Some (NotFound (Some "gone")) /\ answered 404 s
  /\ maxAgeIs 3600 s.
Proof.
  intros up W g.
  refine (proj1 (proj2
    (C8_upstream_failures exampleLib W g "sum.golang.org/lookup/m@v1"
       {| Scheme := "https"; User := None; Host := "sum.golang.org";
          URLPath := "/lookup/m@v1" |}
       "sum.golang.org" St0 _)) _ "gone" eq_refl eq_refl _).
  - vm_compute. repeat split.
  - right. right. reflexivity.
Defined.

(** ** C10: the size limit of the write-back *)

Lemma eqs_append_l (p a b : string) : eqs (p +:+ a) (p +:+ b) = eqs a b.
Proof.
  unfold eqs. induction p as [|c p IH]; simpl; [reflexivity|].
  rewrite Ascii.eqb_refl. exact IH.
Qed.

Lemma eqs_refl (a : string) : eqs a a = true.
Proof. apply String.eqb_refl. Qed.

Ltac writeback_cases W cacher :=
  repeat match goal with
  | |- context [openTempCache W ?f ?n] =>
    destruct (openTempCache W f n) eqn:?; simpl
  | |- context [Cacher_SetCache cacher ?c] =>
    destruct (Cacher_SetCache cacher c) eqn:?; simpl
  end.

(** C10, as the code has it: a write-back stops at its first error, so the
    [.zip] entry is written only if [MaxZIPCacheBytes] is zero or the size of
    the zip is at most [MaxZIPCacheBytes], and it is written then provided the
    [.info] and [.mod] entries were created and written and the [.zip] entry
    was created; the writes of [.info] and [.mod] do not depend on
    [MaxZIPCacheBytes]. *)
Theorem C10_zip_write_limit (W : World) (g : Goproxy) (cacher : CacherI)
  (goproxyRoot name nameExt : string) (mr : modResult) :
  let namePrefix := Strings.TrimSuffix name nameExt in
  let evs := ServeHTTP_goroutine W g cacher goproxyRoot name nameExt mr in
  (written (namePrefix +:+ ".zip") evs = true ->
   exists zipCache,
     newTempCache W (Zip mr) (namePrefix +:+ ".zip") = Ok zipCache
     /\ zipLimitOk g (Size zipCache))
  /\ (forall infoCache modCache zipCache,
        newTempCache W (Info mr) (namePrefix +:+ ".info") = Ok infoCache ->
        Cacher_SetCache cacher infoCache = None ->
        newTempCache W (GoMod mr) (namePrefix +:+ ".mod") = Ok modCache ->
        Cacher_SetCache cacher modCache = None ->
        newTempCache W (Zip mr) (namePrefix +:+ ".zip") = Ok zipCache ->
        zipLimitOk g (Size zipCache) ->
        written (namePrefix +:+ ".zip") evs = true)
  /\ (forall maxZIP,
        let evs' := ServeHTTP_goroutine W (withMaxZIPCacheBytes g maxZIP)
                      cacher goproxyRoot name nameExt mr in
        written (namePrefix +:+ ".info") evs'
        = written (namePrefix +:+ ".info") evs
        /\ written (namePrefix +:+ ".mod") evs'
           = written (namePrefix +:+ ".mod") evs).
Proof.
  intros namePrefix evs. subst evs.
  unfold ServeHTTP_goroutine, ServeHTTP_setCaches, newTempCache, zipLimitOk.
  fold namePrefix. repeat split.
  - step_M. writeback_cases W cacher; unfold written; simpl;
      rewrite ?eqs_append_l; simpl; try discriminate.
    all: match goal with
         | |- context [if ?b then _ else _] => destruct b eqn:Hlim
         end; simpl; rewrite ?eqs_append_l; simpl; try discriminate.
    all: intros _; eexists; split; [reflexivity|]; simpl.
    all: apply orb_true_iff in Hlim; destruct Hlim as [Hz|Hle];
      [left; apply Z.eqb_eq, Hz | right; apply Z.leb_le, Hle].
  - intros infoCache modCache zipCache Hi Hsi Hm Hsm Hz Hlim. step_M.
    destruct (openTempCache W (Info mr) _) as [ic|] eqn:Ei; [|discriminate].
    injection Hi as <-. simpl. rewrite Hsi. simpl.
    destruct (openTempCache W (GoMod mr) _) as [mc|] eqn:Em; [|discriminate].
    injection Hm as <-. simpl. rewrite Hsm. simpl.
    destruct (openTempCache W (Zip mr) _) as [zc|] eqn:Ez; [|discriminate].
    injection Hz as <-. simpl in *.
    assert (Hb : (MaxZIPCacheBytes g =? 0)%Z
                 || (Size zc <=? MaxZIPCacheBytes g)%Z = true).
    { apply orb_true_iff. destruct Hlim as [H0|Hle];
        [left; apply Z.eqb_eq, H0 | right; apply Z.leb_le, Hle]. }
    rewrite Hb. simpl. unfold written.
    match goal with
    | |- context [Cacher_SetCache cacher ?c] =>
      destruct (Cacher_SetCache cacher c)
    end; simpl; rewrite ?eqs_append_l, ?eqs_refl; simpl;
      rewrite ?orb_true_r; reflexivity.
  - step_M. simpl.
    writeback_cases W cacher; try reflexivity.
    all: unfold written; simpl; rewrite ?eqs_append_l; simpl.
    all: repeat match goal with
         | |- context [if ?b then _ else _] => destruct b; simpl
         end;
      writeback_cases W cacher; rewrite ?eqs_append_l; reflexivity.
  - step_M. simpl.
    writeback_cases W cacher; try reflexivity.
    all: unfold written; simpl; rewrite ?eqs_append_l; simpl.
    all: repeat match goal with
         | |- context [if ?b then _ else _] => destruct b; simpl
         end;
      writeback_cases W cacher; rewrite ?eqs_append_l; reflexivity.
Qed.

(** C10, as the claim states it, fails: with [MaxZIPCacheBytes] zero and a
    backend that refuses the [.info] entry, the write-back of
    [example.com/m@v1.2.3] stops before the [.zip] entry, which is not
    written although the limit allows it. *)
Lemma C10_zip_not_written_after_failed_info_write :
  let g := exampleGoproxy
             (Some (refusingCacher "example.com/m/@v/v1.2.3.info")) 0 in
  let s := snd (ServeHTTP exampleLib W_ok g
                          (GET "/example.com/m/@v/v1.2.3.zip")) in
  match Background s with
  | Some evs =>
    ~ (written "example.com/m/@v/v1.2.3.zip" evs = true <-> zipLimitOk g 10)
  | None => False
  end.
Proof.
  vm_compute. intros [_ H]. specialize (H (or_introl eq_refl)).
  discriminate H.
Qed.

(** ** C2: a download the checksum database does not vouch for *)

Lemma Contains_refl (s : string) : Strings.Contains s s = true.
Proof.
  assert (H : Strings.HasPrefix s s = true).
  { induction s as [|c s IH]; simpl; [reflexivity|].
    rewrite Ascii.eqb_refl. exact IH. }
  unfold Strings.Contains. destruct s; simpl in *; [reflexivity|].
  rewrite H. reflexivity.
Qed.

Lemma setCaches_app (a b : list Event) :
  setCaches (a ++ b) = setCaches a ++ setCaches b.
Proof. unfold setCaches. apply omap_app. Qed.

(** C2: on a cache miss, with the download verified, if the line
    [<module_path> <version> <zip_hash>] is not among the lines of the zip
    lookup, or the line [<module_path> <version>/go.mod <go_mod_hash>] is not
    among the lines of the go.mod lookup, the answer is 404 with a body that
    contains [untrusted revision <version>] and [max-age=3600], and nothing is
    handed to the cache backend. *)
Theorem C2_untrusted_revision (L : Lib) (W : World) (g : Goproxy)
  (goproxyRoot modulePath moduleVersion name nameExt : string)
  (cachingForever : bool) (s0 : St) (mr : modResult)
  (zipLines : list string) (zipHash : string) :
  Cacher_Cache (default tempCacher (Cacher g)) name = ErrCacheNotFound ->
  mod_ W "download" (GoBinName g) (goBinEnv g) goproxyRoot modulePath
       moduleVersion = Ok mr ->
  verifies L g modulePath = true ->
  sumdbClient_Lookup W modulePath moduleVersion = Ok zipLines ->
  dirhash_HashZip W (Zip mr) = Ok zipHash ->
  stringSliceContains zipLines (zipLine modulePath moduleVersion zipHash)
  = false
  \/ (exists goModLines goModHash,
        sumdbClient_Lookup W modulePath (moduleVersion +:+ "/go.mod")
        = Ok goModLines
        /\ dirhash_Hash1 W (GoMod mr) = Ok goModHash
        /\ stringSliceContains goModLines
             (goModLine modulePath moduleVersion goModHash) = false) ->
  let s := fst (ServeHTTP_fetch L W g goproxyRoot modulePath moduleVersion
                                name nameExt cachingForever s0) in
  (exists r,
     Written s = Some r /\ status r = Some 404%Z
     /\ Strings.Contains (body r) ("untrusted revision " +:+ moduleVersion)
        = true)
  /\ maxAgeIs 3600 s
  /\ cacheWrites s = cacheWrites s0.
Proof.
  intros Hmiss Hmod Hver Hzip Hhash Hline.
  unfold verifies in Hver. unfold zipLine, goModLine in Hline.
  unfold ServeHTTP_fetch, ServeHTTP_verify. step_M.
  rewrite Hmiss; red_M. rewrite Hmod; red_M. rewrite Hver; red_M.
  rewrite Hzip; red_M. rewrite Hhash; red_M.
  unfold cacheWrites.
  destruct (stringSliceContains zipLines _) eqn:Hz; red_M.
  - destruct Hline as [Hline | (gl & gh & Hl & Hh & Hc)]; [discriminate|].
    rewrite Hl; red_M. rewrite Hh; red_M. rewrite Hc; red_M.
    split; [|split].
    + eexists. repeat split. apply Contains_refl.
    + reflexivity.
    + rewrite !setCaches_app. cbn. rewrite !app_nil_r. reflexivity.
  - split; [|split].
    + eexists. repeat split. apply Contains_refl.
    + reflexivity.
    + rewrite !setCaches_app. cbn. rewrite !app_nil_r. reflexivity.
Qed.

Lemma C2_untrusted_revision_witness :
  let W := exampleWorld exampleModule ["example.com/m v1.2.3 h1:other"] 10
                        (DoTimeout "timeout") in
  let g := load exampleLib (New []) in
  let s := fst (ServeHTTP_fetch exampleLib W g "/tmp/goproxy1"
                  "example.com/m" "v1.2.3" "example.com/m/@v/v1.2.3.zip"
                  ".zip" true St0) in
  (exists r,
     Written s = Some r /\ status r = Some 404%Z
     /\ Strings.Contains (body r) "untrusted revision v1.2.3" = true)
  /\ maxAgeIs 3600 s
  /\ cacheWrites s = [].
Proof.
  intros W g.
  apply (C2_untrusted_revision exampleLib W g "/tmp/goproxy1"
           "example.com/m" "v1.2.3" "example.com/m/@v/v1.2.3.zip" ".zip"
           true St0 exampleModule ["example.com/m v1.2.3 h1:other"]
           "h1:zip");
    try reflexivity.
  left. reflexivity.
Defined.
(** ** C5: when a download is verified *)

Lemma verificationEvents_app (a b : list Event) :
  verificationEvents (a ++ b) = verificationEvents a ++ verificationEvents b.
Proof. apply List.filter_app. Qed.

(** An error response adds log lines only. *)
Lemma respondModError_events {A} (g : Goproxy) (err : string) (s : St) :
  exists l,
    Events (fst (respondModError (A := A) g err s)) = Events s ++ l
    /\ verificationEvents l = []
    /\ snd (respondModError (A := A) g err s) = None.
Proof.
  unfold respondModError.
  destruct (Regexp.MatchString regModuleVersionNotFound err);
    [destruct (DisableNotFoundLog g)|]; step_M.
  - exists []. rewrite app_nil_r. auto.
  - exists [EvLog err]. auto.
  - exists [EvLog err]. auto.
Qed.

(** The verification starts with the lookup of the version, and when no
    step fails and the zip line is found it is the two lookups and the two
    hashes. *)
Lemma ServeHTTP_verify_events (W : World) (g : Goproxy)
  (modulePath moduleVersion : string) (mr : modResult) (s : St) :
  exists evs,
    Events (fst (ServeHTTP_verify W g modulePath moduleVersion mr s))
    = Events s ++ EvLookup modulePath moduleVersion :: evs
    /\ (forall zipLines zipHash goModLines goModHash,
          sumdbClient_Lookup W modulePath moduleVersion = Ok zipLines ->
          dirhash_HashZip W (Zip mr) = Ok zipHash ->
          stringSliceContains zipLines
            (zipLine modulePath moduleVersion zipHash) = true ->
          sumdbClient_Lookup W modulePath (moduleVersion +:+ "/go.mod")
          = Ok goModLines ->
          dirhash_Hash1 W (GoMod mr) = Ok goModHash ->
          verificationEvents evs
          = [EvHashZip (Zip mr);
             EvLookup modulePath (moduleVersion +:+ "/go.mod");
             EvHash1 (GoMod mr)]).
Proof.
  unfold ServeHTTP_verify, zipLine. step_M.
  destruct (sumdbClient_Lookup W modulePath moduleVersion) as [zl|e] eqn:Hzl;
    red_M.
  2:{ destruct (respondModError_events (A := list string) g
                  (Strings.TrimPrefix e
                     (modulePath +:+ "@" +:+ moduleVersion +:+ ": "))
                  (mkSt (Header s) (CacheControl s) (Written s)
                        (Events s ++ [EvLookup modulePath moduleVersion])
                        (Background s) (hijackedGoproxyRootPurge s)))
        as (l & Hl & _ & Hnone).
      destruct (respondModError _ _ _) as [s' o]. simpl in *. subst o.
      red_M. exists l. rewrite Hl, <- app_assoc. split; [reflexivity|].
      intros; discriminate. }
  destruct (dirhash_HashZip W (Zip mr)) as [zh|e] eqn:Hzh; red_M.
  2:{ eexists. rewrite <- !app_assoc. split; [reflexivity|].
      intros; discriminate. }
  destruct (stringSliceContains zl _) eqn:Hz; red_M.
  2:{ eexists. rewrite <- !app_assoc. split; [reflexivity|].
      intros zl' zh' gl gh H1 H2 H3. injection H1 as <-. injection H2 as <-.
      rewrite Hz in H3. discriminate. }
  destruct (sumdbClient_Lookup W modulePath (moduleVersion +:+ "/go.mod"))
    as [gl|e] eqn:Hgl; red_M.
  2:{ destruct (respondModError_events (A := list string) g
                  (Strings.TrimPrefix e
                     (modulePath +:+ "@" +:+ moduleVersion +:+ ": "))
                  (mkSt (Header s) (CacheControl s) (Written s)
                        (((Events s ++ [EvLookup modulePath moduleVersion])
                          ++ [EvHashZip (Zip mr)])
                         ++ [EvLookup modulePath
                                      (moduleVersion +:+ "/go.mod")])
                        (Background s) (hijackedGoproxyRootPurge s)))
        as (l & Hl & _ & Hnone).
      destruct (respondModError _ _ _) as [s' o]. simpl in *. subst o.
      red_M. eexists. rewrite Hl, <- !app_assoc. split; [reflexivity|].
      intros; discriminate. }
  destruct (dirhash_Hash1 W (GoMod mr)) as [gh|e] eqn:Hgh; red_M.
  2:{ eexists. rewrite <- !app_assoc. split; [reflexivity|].
      intros; discriminate. }
  destruct (stringSliceContains gl _); red_M;
    eexists; rewrite <- !app_assoc; (split; [reflexivity|]);
    intros; reflexivity.
Qed.

(** C5: on a cache miss, once the driver has downloaded the module, the
    verification (the lookups in the checksum database and the hashes) is
    performed if and only if the effective GOSUMDB is not [off] and
    GONOSUMDB does not match the module path; otherwise no lookup and no
    hash is made and the requested file is what is served. *)
Theorem C5_verification_gate (L : Lib) (W : World) (g : Goproxy)
  (goproxyRoot modulePath moduleVersion name nameExt : string)
  (cachingForever : bool) (s0 : St) (mr : modResult) :
  Cacher_Cache (default tempCacher (Cacher g)) name = ErrCacheNotFound ->
  mod_ W "download" (GoBinName g) (goBinEnv g) goproxyRoot modulePath
       moduleVersion = Ok mr ->
  let s := fst (ServeHTTP_fetch L W g goproxyRoot modulePath moduleVersion
                                name nameExt cachingForever s0) in
  exists evs,
    Events s = Events s0 ++ evs
    /\ (verificationEvents evs <> []
        <-> (env (goBinEnv g) "GOSUMDB" <> "off"
             /\ globsMatchPath L (env (goBinEnv g) "GONOSUMDB") modulePath
                = false))
    /\ (forall zipLines zipHash goModLines goModHash,
          verificationEvents evs <> [] ->
          sumdbClient_Lookup W modulePath moduleVersion = Ok zipLines ->
          dirhash_HashZip W (Zip mr) = Ok zipHash ->
          stringSliceContains zipLines
            (zipLine modulePath moduleVersion zipHash) = true ->
          sumdbClient_Lookup W modulePath (moduleVersion +:+ "/go.mod")
          = Ok goModLines ->
          dirhash_Hash1 W (GoMod mr) = Ok goModHash ->
          verificationEvents evs
          = [EvLookup modulePath moduleVersion; EvHashZip (Zip mr);
             EvLookup modulePath (moduleVersion +:+ "/go.mod");
             EvHash1 (GoMod mr)])
    /\ (verificationEvents evs = [] ->
        forall cache,
          newTempCache W (flavorFile nameExt mr) name = Ok cache ->
          Written s = Some (ServeContent cache)).
Proof.
  intros Hmiss Hmod.
  unfold ServeHTTP_fetch. step_M.
  rewrite Hmiss; red_M. rewrite Hmod; red_M. fold (flavorFile nameExt mr).
  destruct (String.eqb_spec (env (goBinEnv g) "GOSUMDB") "off") as [Hoff|Hon];
    unfold eqs;
    [ apply String.eqb_eq in Hoff as Hb
    | apply String.eqb_neq in Hon as Hb ]; rewrite Hb; cbn [negb andb].
  2: destruct (globsMatchPath L (env (goBinEnv g) "GONOSUMDB") modulePath)
       eqn:Hglob; cbn [negb].
  2, 1: (* not verified *)
    red_M;
    destruct (newTempCache W (flavorFile nameExt mr) name) as [c|e] eqn:Hc;
    red_M; destruct cachingForever; red_M;
    (eexists; rewrite <- !app_assoc; split; [reflexivity|]);
    (split; [split; [intros H; exfalso; apply H; reflexivity
                    | intros [H1 H2]; congruence]|]);
    (split; [intros ? ? ? ? H; exfalso; apply H; reflexivity|]);
    intros _ cache Hcache; congruence.
  (* verified *)
  set (s1 := mkSt _ _ _ _ _ _).
  destruct (ServeHTTP_verify_events W g modulePath moduleVersion mr s1)
    as (evs & Hevs & Hfull).
  destruct (ServeHTTP_verify W g modulePath moduleVersion mr s1) as [s' o].
  cbn [fst] in Hevs. subst s1. cbn [Events] in Hevs.
  assert (Hne : forall tl,
            verificationEvents
              ([EvCacheGet name; EvMod "download" modulePath moduleVersion]
               ++ EvLookup modulePath moduleVersion :: evs ++ tl) <> [])
    by (intros tl; cbn; discriminate).
  cbn [app] in Hne.
  assert (Hall : forall tl zipLines zipHash goModLines goModHash,
            verificationEvents tl = [] ->
            sumdbClient_Lookup W modulePath moduleVersion = Ok zipLines ->
            dirhash_HashZip W (Zip mr) = Ok zipHash ->
            stringSliceContains zipLines
              (zipLine modulePath moduleVersion zipHash) = true ->
            sumdbClient_Lookup W modulePath (moduleVersion +:+ "/go.mod")
            = Ok goModLines ->
            dirhash_Hash1 W (GoMod mr) = Ok goModHash ->
            verificationEvents
              ([EvCacheGet name; EvMod "download" modulePath moduleVersion]
               ++ EvLookup modulePath moduleVersion :: evs ++ tl)
            = [EvLookup modulePath moduleVersion; EvHashZip (Zip mr);
               EvLookup modulePath (moduleVersion +:+ "/go.mod");
               EvHash1 (GoMod mr)]).
  { intros tl zl zh gl gh Htl H1 H2 H3 H4 H5. cbn.
    rewrite verificationEvents_app, Htl, app_nil_r.
    rewrite (Hfull zl zh gl gh H1 H2 H3 H4 H5). reflexivity. }
  cbn [app] in Hall.
  destruct o as [[]|]; red_M.
  - destruct (newTempCache W (flavorFile nameExt mr) name) as [c|e] eqn:Hc;
      red_M; destruct cachingForever; red_M; rewrite Hevs.
    all: eexists; split; [rewrite <- !app_assoc; reflexivity|]; cbn [app].
    all: split; [split; [intros _; split; [exact Hon|reflexivity]
                        | intros _; apply (Hne _)]|].
    all: split; [intros zl zh gl gh _; apply (Hall _); reflexivity|].
    all: intros Hnil; exfalso; exact (Hne _ Hnil).
  - rewrite Hevs.
    pose proof (Hne []) as Hne0. pose proof (Hall []) as Hall0.
    rewrite app_nil_r in Hne0, Hall0.
    eexists; split; [rewrite <- !app_assoc; reflexivity|]; cbn [app].
    split; [split; [intros _; split; [exact Hon|reflexivity]
                   | intros _; exact Hne0]|].
    split; [intros zl zh gl gh _; apply Hall0; reflexivity|].
    intros Hnil; exfalso; exact (Hne0 Hnil).
Qed.

Lemma C5_verification_gate_witness :
  let g := load exampleLib (New []) in
  let s := fst (ServeHTTP_fetch exampleLib W_ok g "/tmp/goproxy1"
                  "example.com/m" "v1.2.3" "example.com/m/@v/v1.2.3.zip"
                  ".zip" true St0) in
  exists evs,
    Events s = evs
    /\ verificationEvents evs
       = [EvLookup "example.com/m" "v1.2.3"; EvHashZip (Zip exampleModule);
          EvLookup "example.com/m" "v1.2.3/go.mod";
          EvHash1 (GoMod exampleModule)].
Proof.
  intros g.
  destruct (C5_verification_gate exampleLib W_ok g "/tmp/goproxy1"
              "example.com/m" "v1.2.3" "example.com/m/@v/v1.2.3.zip" ".zip"
              true St0 exampleModule eq_refl eq_refl)
    as (evs & Hevs & Hiff & Hfull & _).
  exists evs. split; [exact Hevs|].
  apply (Hfull exampleLines "h1:zip" exampleLines "h1:mod");
    try reflexivity.
  apply Hiff. split; [discriminate|reflexivity].
Defined.
(** ** C4: the cache hint of a served artifact *)

Lemma respondModError_plain {A} (g : Goproxy) (err : string) (s : St) :
  isPlain (fst (respondModError (A := A) g err s))
  /\ snd (respondModError (A := A) g err s) = None.
Proof.
  unfold respondModError, isPlain.
  destruct (Regexp.MatchString regModuleVersionNotFound err);
    [destruct (DisableNotFoundLog g)|]; step_M; split; auto; exact I.
Qed.

(** When the verification returns from the handler, it has answered. *)
Lemma ServeHTTP_verify_plain (W : World) (g : Goproxy)
  (modulePath moduleVersion : string) (mr : modResult) (s : St) :
  snd (ServeHTTP_verify W g modulePath moduleVersion mr s) = None ->
  isPlain (fst (ServeHTTP_verify W g modulePath moduleVersion mr s)).
Proof.
  unfold ServeHTTP_verify. step_M.
  destruct (sumdbClient_Lookup W modulePath moduleVersion) as [zl|e]; red_M.
  2:{ intros _.
      match goal with
      | |- context [respondModError g ?e ?s] =>
        destruct (respondModError_plain (A := list string) g e s) as [Hp Hn];
        destruct (respondModError (A := list string) g e s) as [s' o]
      end.
      simpl in *. subst o. red_M. exact Hp. }
  destruct (dirhash_HashZip W (Zip mr)) as [zh|e]; red_M.
  2:{ intros _. exact I. }
  destruct (stringSliceContains zl _); red_M.
  2:{ intros _. exact I. }
  destruct (sumdbClient_Lookup W modulePath (moduleVersion +:+ "/go.mod"))
    as [gl|e]; red_M.
  2:{ intros _.
      match goal with
      | |- context [respondModError g ?e ?s] =>
        destruct (respondModError_plain (A := list string) g e s) as [Hp Hn];
        destruct (respondModError (A := list string) g e s) as [s' o]
      end.
      simpl in *. subst o. red_M. exact Hp. }
  destruct (dirhash_Hash1 W (GoMod mr)) as [gh|e]; red_M.
  2:{ intros _. exact I. }
  destruct (stringSliceContains gl _); red_M.
  - discriminate.
  - intros _. exact I.
Qed.

Lemma isPlain_not_served (s : St) (c : Cache) :
  isPlain s -> Written s = Some (ServeContent c) -> False.
Proof. unfold isPlain. intros H H'. rewrite H' in H. exact H. Qed.

(** A served artifact carries the hint of [cachingForever]. *)
Lemma ServeHTTP_fetch_served (L : Lib) (W : World) (g : Goproxy)
  (goproxyRoot modulePath moduleVersion name nameExt : string)
  (cachingForever : bool) (s0 : St) (c : Cache) :
  let s := fst (ServeHTTP_fetch L W g goproxyRoot modulePath moduleVersion
                                name nameExt cachingForever s0) in
  Written s = Some (ServeContent c) ->
  maxAgeIs (if cachingForever then 31536000 else 60) s.
Proof.
  unfold ServeHTTP_fetch. step_M.
  destruct (Cacher_Cache _ name) as [c0| |e]; red_M.
  - destruct cachingForever; red_M; intros _; reflexivity.
  - destruct (mod_ W _ _ _ _ _ _) as [mr|e]; red_M.
    2:{ match goal with
        | |- context [respondModError g ?e ?s] =>
          destruct (respondModError_plain (A := modResult) g e s) as [Hp Hn];
          destruct (respondModError (A := modResult) g e s) as [s' o]
        end.
        simpl in *. subst o. red_M. intros H.
        destruct (isPlain_not_served _ _ Hp H). }
    match goal with
    | |- context [(if ?b then ServeHTTP_verify _ _ _ _ _ else _) ?s] =>
      set (s1 := s); destruct b
    end.
    + pose proof (ServeHTTP_verify_plain W g modulePath moduleVersion mr s1)
        as Hv.
      destruct (ServeHTTP_verify W g modulePath moduleVersion mr s1)
        as [s' [[]|]]; red_M.
      2:{ intros H. destruct (isPlain_not_served _ _ (Hv eq_refl) H). }
      destruct (newTempCache W _ name) as [c1|e]; red_M.
      2:{ discriminate. }
      destruct cachingForever; red_M; intros _; reflexivity.
    + red_M. destruct (newTempCache W _ name) as [c1|e]; red_M.
      2:{ discriminate. }
      destruct cachingForever; red_M; intros _; reflexivity.
  - discriminate.
Qed.

Lemma ServeHTTP_augment_returns (vs : list string) (moduleVersion : string)
  (mr : modResult) (s : St) :
  exists s' mr', ServeHTTP_augment vs moduleVersion mr s = (s', Some mr').
Proof.
  induction vs as [|v vs IH]; simpl.
  - eexists _, _. reflexivity.
  - destruct (Strings.HasPrefix v "kubernetes-1."); [|exact IH].
    step_M. eexists _, _. reflexivity.
Qed.

(** The list operation always answers by a response helper. *)
Lemma ServeHTTP_list_plain (W : World) (g : Goproxy)
  (goproxyRoot modulePath moduleVersion : string) (staging : bool) (s : St) :
  isPlain (fst (ServeHTTP_list W g goproxyRoot modulePath moduleVersion
                               staging s)).
Proof.
  unfold ServeHTTP_list. step_M.
  destruct (mod_ W _ _ _ _ _ _) as [mr|e]; red_M.
  2:{ match goal with
      | |- context [respondModError g ?e ?s] =>
        destruct (respondModError_plain (A := modResult) g e s) as [Hp Hn];
        destruct (respondModError (A := modResult) g e s) as [s' o]
      end.
      simpl in *. subst o. red_M. exact Hp. }
  destruct staging; red_M.
  - match goal with
    | |- context [ServeHTTP_augment ?vs ?v ?m ?s] =>
      destruct (ServeHTTP_augment_returns vs v m s) as (s' & mr' & ->)
    end.
    red_M. exact I.
  - exact I.
Qed.

(** When the resolution returns from the handler, it has answered. *)
Lemma ServeHTTP_resolve_plain (L : Lib) (W : World) (g : Goproxy)
  (goproxyRoot modulePath moduleVersion name nameExt : string)
  (isLatest : bool) (s : St) :
  snd (ServeHTTP_resolve L W g goproxyRoot modulePath moduleVersion name
                         nameExt isLatest s) = None ->
  isPlain (fst (ServeHTTP_resolve L W g goproxyRoot modulePath moduleVersion
                                  name nameExt isLatest s)).
Proof.
  unfold ServeHTTP_resolve. step_M.
  destruct (mod_ W _ _ _ _ _ _) as [mr|e]; red_M.
  2:{ intros _.
      match goal with
      | |- context [respondModError g ?e ?s] =>
        destruct (respondModError_plain (A := modResult) g e s) as [Hp Hn];
        destruct (respondModError (A := modResult) g e s) as [s' o]
      end.
      simpl in *. subst o. red_M. exact Hp. }
  destruct (module_EscapeVersion L (Version mr)) as [v|e]; red_M.
  - discriminate.
  - intros _. exact I.
Qed.

(** What a decoded request is served with. *)
Lemma ServeHTTP_operation_served (L : Lib) (W : World) (g : Goproxy)
  (q : moduleRequest) (moduleVersion goproxyRoot : string) (s0 : St)
  (c : Cache) :
  let s := fst (ServeHTTP_operation L W g q moduleVersion goproxyRoot s0) in
  Written s = Some (ServeContent c) ->
  maxAgeIs (if negb (mq_isLatest q) && Semver.IsValid moduleVersion
            then 31536000 else 60) s.
Proof.
  unfold ServeHTTP_operation.
  destruct (mq_isList q).
  { intros H. destruct (isPlain_not_served _ _
                          (ServeHTTP_list_plain _ _ _ _ _ _ _) H). }
  destruct (mq_isLatest q) eqn:Hl; [|destruct (Semver.IsValid moduleVersion)];
    cbn [negb orb andb].
  2: apply (ServeHTTP_fetch_served L W g _ _ _ _ _ true).
  all: unfold bind;
    match goal with
    | |- context [ServeHTTP_resolve ?a ?b ?c ?d ?e ?f ?h ?i ?j ?s] =>
      pose proof (ServeHTTP_resolve_plain a b c d e f h i j s) as Hr;
      destruct (ServeHTTP_resolve a b c d e f h i j s) as [s' [[v n]|]]
    end; cbn [fst snd] in *.
  1, 3: apply (ServeHTTP_fetch_served L W g _ _ _ _ _ false).
  all: intros H; destruct (isPlain_not_served _ _ (Hr eq_refl) H).
Qed.

(** The deferred purge leaves the response alone. *)
Lemma deferPurge_response {A} (g : Goproxy) (goproxyRoot : string)
  (m : M A) (s : St) :
  Written (fst (deferPurge g goproxyRoot m s)) = Written (fst (m s))
  /\ CacheControl (fst (deferPurge g goproxyRoot m s))
     = CacheControl (fst (m s)).
Proof.
  unfold deferPurge. destruct (m s) as [s' a].
  destruct (hijackedGoproxyRootPurge s'); auto.
Qed.

(** C4, as the code has it: a module request that is served carries
    [max-age=31536000] when it is not [/@latest] and its version, after the
    rewrite of a staging repository's version, is valid semver
    ([cachingForever] true), and [max-age=60] when it is [/@latest] or that
    version is not valid semver and is looked up ([cachingForever] false). *)
Theorem C4_cache_hint_of_served_artifact (L : Lib) (W : World) (g : Goproxy)
  (name : string) (q : moduleRequest) (s0 : St) (c : Cache) :
  decodeModule L name = Some q ->
  let s := fst (ServeHTTP_module L W g name s0) in
  Written s = Some (ServeContent c) ->
  let moduleVersion :=
    stagingVersion (isStagingRepo (mq_modulePath q)) (mq_moduleVersion q) in
  maxAgeIs (if negb (mq_isLatest q) && Semver.IsValid moduleVersion
            then 31536000 else 60) s.
Proof.
  intros Hq. unfold ServeHTTP_module. rewrite Hq. step_M.
  destruct (isStagingRepo (mq_modulePath q)); red_M;
    [destruct (Strings.HasPrefix (mq_moduleVersion q) "v0.1")|];
    cbn [andb]; red_M.
  all: destruct (ioutil_TempDir W) as [d|e]; red_M; [|discriminate].
  all: match goal with
       | |- context [deferPurge ?g' ?d ?m ?s] =>
         destruct (deferPurge_response g' d m s) as [Hw Hh]
       end; rewrite Hw, Hh.
  all: apply ServeHTTP_operation_served.
Qed.

(** C4, as the claim states it, fails: [GET /k8s.io/api/@v/v0.17.0.info]
    names the valid semver version [v0.17.0] directly, the version is
    rewritten to [kubernetes-1.17.0], which is looked up, and the artifact is
    served with [max-age=60]. *)
Lemma C4_staging_semver_request_is_served_for_a_minute :
  let s := snd (ServeHTTP exampleLib W_k8s (New [])
                          (GET "/k8s.io/api/@v/v0.17.0.info")) in
  Semver.IsValid "v0.17.0" = true
  /\ (exists c, Written s = Some (ServeContent c))
  /\ maxAgeIs 60 s
  /\ ~ maxAgeIs 31536000 s.
Proof.
  vm_compute. repeat split; eauto. discriminate.
Qed.

Lemma C4_cache_hint_of_served_artifact_witness :
  let s := fst (ServeHTTP_module exampleLib W_ok (load exampleLib (New []))
                                 "example.com/m/@v/v1.2.3.info" St0) in
  maxAgeIs 31536000 s.
Proof.
  refine (C4_cache_hint_of_served_artifact exampleLib W_ok
            (load exampleLib (New [])) "example.com/m/@v/v1.2.3.info"
            {| mq_name := "example.com/m/@v/v1.2.3.info";
               mq_isLatest := false; mq_isList := false;
               mq_modulePath := "example.com/m"; mq_nameExt := ".info";
               mq_moduleVersion := "v1.2.3" |}
            St0
            {| Name := "example.com/m/@v/v1.2.3.info";
               MIMEType := "application/octet-stream"; Size := 10;
               Checksum := "" |} _ _); reflexivity.
Defined.
(** ** The events only grow *)

Lemma extends_ret {A} (a : A) : extends (ret a).
Proof. intros s. exists []. symmetry. apply app_nil_r. Qed.

Lemma extends_return {A} : extends (return_ (A := A)).
Proof. intros s. exists []. symmetry. apply app_nil_r. Qed.

Lemma extends_emit (e : Event) : extends (emit e).
Proof. intros s. exists [e]. reflexivity. Qed.

Lemma extends_setHeader (k v : string) : extends (setHeader k v).
Proof. intros s. exists []. symmetry. apply app_nil_r. Qed.

Lemma extends_setResponseCacheControlHeader (maxAge : Z) :
  extends (setResponseCacheControlHeader maxAge).
Proof. intros s. exists []. symmetry. apply app_nil_r. Qed.

Lemma extends_write (r : Response) : extends (write r).
Proof. intros s. exists []. symmetry. apply app_nil_r. Qed.

Lemma extends_spawn (bg : list Event) : extends (spawn bg).
Proof. intros s. exists []. symmetry. apply app_nil_r. Qed.

Lemma extends_bind {A B} (m : M A) (k : A -> M B) :
  extends m -> (forall a, extends (k a)) -> extends (bind m k).
Proof.
  intros Hm Hk s. unfold bind. destruct (Hm s) as [l Hl].
  destruct (m s) as [s' [a|]]; cbn [fst] in *.
  - destruct (Hk a s') as [l' Hl']. exists (l ++ l').
    rewrite Hl', Hl, app_assoc. reflexivity.
  - exists l. exact Hl.
Qed.

Lemma extends_deferPurge {A} (g : Goproxy) (goproxyRoot : string)
  (m : M A) : extends m -> extends (deferPurge g goproxyRoot m).
Proof.
  intros Hm s. unfold deferPurge. destruct (Hm s) as [l Hl].
  destruct (m s) as [s' a]. cbn [fst] in *.
  destruct (hijackedGoproxyRootPurge s'); cbn [fst Events].
  - exists l. exact Hl.
  - eexists. rewrite Hl, <- app_assoc. reflexivity.
Qed.

Create HintDb extends discriminated.
#[export] Hint Resolve extends_ret extends_return extends_emit
  extends_setHeader extends_setResponseCacheControlHeader extends_write
  extends_spawn extends_deferPurge : extends.

Ltac extends_step :=
  first
    [ apply extends_bind; [|intros]
    | solve [auto with extends]
    | match goal with
      | |- extends (match ?x with _ => _ end) => destruct x
      | |- extends (if ?b then _ else _) => destruct b
      | |- extends (let '(_, _) := ?p in _) => destruct p
      end
    | progress unfold when, logError, responseString, responseNotFound, responseMethodNotAllowed,
        responseInternalServerError, responseBadGateway, respondInternal,
        respondMalformed, respondModError ].

Ltac extends_tac := repeat extends_step.

Lemma extends_respondModError {A} (g : Goproxy) (err : string) :
  extends (respondModError (A := A) g err).
Proof. extends_tac. Qed.

Lemma extends_verify (W : World) (g : Goproxy)
  (modulePath moduleVersion : string) (mr : modResult) :
  extends (ServeHTTP_verify W g modulePath moduleVersion mr).
Proof. unfold ServeHTTP_verify. extends_tac. Qed.

Lemma extends_fetch (L : Lib) (W : World) (g : Goproxy)
  (goproxyRoot modulePath moduleVersion name nameExt : string)
  (cachingForever : bool) :
  extends (ServeHTTP_fetch L W g goproxyRoot modulePath moduleVersion name
                           nameExt cachingForever).
Proof.
  unfold ServeHTTP_fetch. extends_tac.
Qed.

Lemma extends_augment (vs : list string) (moduleVersion : string)
  (mr : modResult) : extends (ServeHTTP_augment vs moduleVersion mr).
Proof. induction vs as [|v vs IH]; simpl; extends_tac; exact IH. Qed.

Lemma extends_list (W : World) (g : Goproxy)
  (goproxyRoot modulePath moduleVersion : string) (staging : bool) :
  extends (ServeHTTP_list W g goproxyRoot modulePath moduleVersion staging).
Proof. unfold ServeHTTP_list. extends_tac; apply extends_augment. Qed.
Lemma startsWith_emit {B} (e : Event) (k : M B) :
  extends k -> startsWith e (emit e ;;; k).
Proof.
  intros Hk s. unfold bind, emit.
  match goal with |- context [k ?s1] => destruct (Hk s1) as [l Hl] end.
  exists l. rewrite Hl. cbn [Events]. rewrite <- app_assoc. reflexivity.
Qed.

Lemma startsWith_bind {A B} (e : Event) (m : M A) (k : A -> M B) :
  startsWith e m -> (forall a, extends (k a)) -> startsWith e (bind m k).
Proof.
  intros Hm Hk s. unfold bind. destruct (Hm s) as [l Hl].
  destruct (m s) as [s' [a|]]; cbn [fst] in *.
  - destruct (Hk a s') as [l' Hl']. exists (l ++ l').
    rewrite Hl', Hl, <- app_assoc. reflexivity.
  - exists l. exact Hl.
Qed.

Lemma deferPurge_events {A} (g : Goproxy) (goproxyRoot : string) (m : M A)
  (s : St) :
  exists tl,
    Events (fst (deferPurge g goproxyRoot m s)) = Events (fst (m s)) ++ tl.
Proof.
  unfold deferPurge. destruct (m s) as [s' a].
  destruct (hijackedGoproxyRootPurge s'); cbn [fst Events].
  - exists []. symmetry. apply app_nil_r.
  - eexists. reflexivity.
Qed.

(** ** C3: the staging repositories *)

Lemma kubernetes_not_semver (v : string) :
  Semver.IsValid ("kubernetes-1." +:+ v) = false.
Proof. reflexivity. Qed.

(** A list, a latest and a lookup start by driving the toolchain with the
    version they are given. *)
Lemma ServeHTTP_operation_drives (L : Lib) (W : World) (g : Goproxy)
  (q : moduleRequest) (moduleVersion goproxyRoot : string) :
  Semver.IsValid moduleVersion = false ->
  exists operation,
    startsWith (EvMod operation (mq_modulePath q) moduleVersion)
               (ServeHTTP_operation L W g q moduleVersion goproxyRoot).
Proof.
  intros Hv. unfold ServeHTTP_operation. rewrite Hv, orb_true_r.
  destruct (mq_isList q).
  - exists "list". unfold ServeHTTP_list. apply startsWith_emit.
    extends_tac; apply extends_augment.
  - exists (if mq_isLatest q then "latest" else "lookup").
    apply startsWith_bind.
    + unfold ServeHTTP_resolve. apply startsWith_emit. extends_tac.
    + intros [v n]. apply extends_fetch.
Qed.

(** The loop appends one entry when some version has the prefix, and none
    otherwise. *)
Lemma ServeHTTP_augment_versions (vs : list string) (moduleVersion : string)
  (mr : modResult) (s : St) :
  exists s',
    ServeHTTP_augment vs moduleVersion mr s
    = (s', Some {| Version := Version mr;
                   Versions :=
                     Versions mr
                     ++ (if existsb (fun v => Strings.HasPrefix v
                                                "kubernetes-1.") vs
                         then [zeroVer moduleVersion] else []);
                   Info := Info mr; GoMod := GoMod mr; Zip := Zip mr |})
    /\ Written s' = Written s /\ Header s' = Header s.
Proof.
  induction vs as [|v vs IH]; simpl.
  - exists s. rewrite app_nil_r. destruct mr; auto.
  - destruct (Strings.HasPrefix v "kubernetes-1."); [|exact IH].
    step_M. eexists. auto.
Qed.

(** C3: for a module path of [stagingRepos], a requested version with the
    prefix [v0.1] is replaced, before the toolchain is driven, by
    [kubernetes-1.] followed by the version less its prefix [v0.]; and the
    list the driver returns, when one of its versions has the prefix
    [kubernetes-1.], is answered with one more entry, [v0.] followed by the
    version bound to the request less its prefix [kubernetes-1.]. *)
Theorem C3_staging_repositories (L : Lib) (W : World) (g : Goproxy)
  (name : string) (q : moduleRequest) (goproxyRoot : string) (s0 : St) :
  decodeModule L name = Some q ->
  In (mq_modulePath q) stagingRepos ->
  ioutil_TempDir W = Ok goproxyRoot ->
  let s := fst (ServeHTTP_module L W g name s0) in
  (Strings.HasPrefix (mq_moduleVersion q) "v0.1" = true ->
   let moduleVersion :=
     "kubernetes-1." +:+ Strings.TrimPrefix (mq_moduleVersion q) "v0." in
   exists operation evs,
     Events s
     = Events s0
       ++ [EvPrint ("isStagingRepo " +:+ mq_modulePath q +:+ LF);
           EvPrint (mq_moduleVersion q +:+ " -> " +:+ moduleVersion +:+ LF);
           EvTempDir;
           EvMod operation (mq_modulePath q) moduleVersion]
       ++ evs)
  /\ (forall mr,
        mq_isList q = true ->
        mod_ W "list" (GoBinName g) (goBinEnv g) goproxyRoot
             (mq_modulePath q)
             (stagingVersion true (mq_moduleVersion q)) = Ok mr ->
        Written s
        = Some (Text 200
                  (Strings.Join
                     (augmented (stagingVersion true (mq_moduleVersion q))
                                (Versions mr))
                     LF))).
Proof.
  intros Hq Hin Htmp.
  assert (Hst : isStagingRepo (mq_modulePath q) = true).
  { unfold isStagingRepo. apply existsb_exists. exists (mq_modulePath q).
    split; [exact Hin|apply eqs_refl]. }
  unfold ServeHTTP_module. rewrite Hq, Hst. step_M. rewrite Htmp. red_M.
  split.
  - intros Hpre. unfold stagingVersion. rewrite Hpre. cbn [andb]. red_M.
    match goal with
    | |- context [deferPurge ?g' ?d ?m ?s] =>
      destruct (deferPurge_events g' d m s) as [tl ->];
      destruct (ServeHTTP_operation_drives L W g' q _ d
                  (kubernetes_not_semver
                     (Strings.TrimPrefix (mq_moduleVersion q) "v0.")))
        as [operation Hop];
      destruct (Hop s) as [l ->]
    end.
    exists operation, (l ++ tl). cbn [Events].
    rewrite <- !app_assoc. reflexivity.
  - intros mr Hlist Hmod.
    destruct (Strings.HasPrefix (mq_moduleVersion q) "v0.1"); cbn [andb];
      red_M.
    all: match goal with
         | |- context [deferPurge ?g' ?d ?m ?s] =>
           destruct (deferPurge_response g' d m s) as [-> _]
         end.
    all: unfold ServeHTTP_operation; rewrite Hlist.
    all: unfold ServeHTTP_list; step_M; rewrite Hmod; red_M.
    all: rewrite Hst; red_M.
    all: match goal with
         | |- context [ServeHTTP_augment ?vs ?v ?m ?s] =>
           destruct (ServeHTTP_augment_versions vs v m s)
             as (s' & -> & _ & _)
         end; red_M; reflexivity.
Qed.

Lemma C3_staging_repositories_witness :
  let s := fst (ServeHTTP_module exampleLib W_k8s (load exampleLib (New []))
                                 "k8s.io/api/@v/v0.17.0.info" St0) in
  exists operation evs,
    Events s
    = [EvPrint ("isStagingRepo k8s.io/api" +:+ LF);
       EvPrint ("v0.17.0 -> kubernetes-1.17.0" +:+ LF);
       EvTempDir;
       EvMod operation "k8s.io/api" "kubernetes-1.17.0"]
      ++ evs.
Proof.
  exact (proj1
           (C3_staging_repositories exampleLib W_k8s
              (load exampleLib (New [])) "k8s.io/api/@v/v0.17.0.info"
              {| mq_name := "k8s.io/api/@v/v0.17.0.info";
                 mq_isLatest := false; mq_isList := false;
                 mq_modulePath := "k8s.io/api"; mq_nameExt := ".info";
                 mq_moduleVersion := "v0.17.0" |}
              "/tmp/goproxy1" St0 eq_refl (or_introl eq_refl) eq_refl)
           eq_refl).
Defined.

(** The version bound to a list request is [latest], so the entry added to
    a staging repository's list is [v0.latest]. *)
Example staging_list_ex :
  Written (snd (ServeHTTP exampleLib W_k8s (New [])
                          (GET "/k8s.io/api/@v/list")))
  = Some (Text 200 ("kubernetes-1.17.0" +:+ LF +:+ "v0.17.0" +:+ LF
                     +:+ "v0.latest")).
Proof. vm_compute. reflexivity. Qed.
(** ** C7: the glob list *)

Lemma append_cons (c : ascii) (s t : string) :
  String c s +:+ t = String c (s +:+ t).
Proof. reflexivity. Qed.

Lemma append_nil_r (s : string) : s +:+ "" = s.
Proof.
  induction s as [|c s IH]; [reflexivity|].
  rewrite append_cons, IH. reflexivity.
Qed.

Lemma append_assoc (a b c : string) : (a +:+ b) +:+ c = a +:+ (b +:+ c).
Proof.
  induction a as [|x a IH]; [reflexivity|].
  rewrite !append_cons, IH. reflexivity.
Qed.

Lemma len_append (a b : string) : Str.len (a +:+ b) = Str.len a + Str.len b.
Proof.
  unfold Str.len. induction a as [|x a IH]; [reflexivity|].
  rewrite append_cons. simpl. rewrite IH. reflexivity.
Qed.

Lemma take_len_append (a b : string) : Str.take (Str.len a) (a +:+ b) = a.
Proof.
  unfold Str.len. induction a as [|x a IH].
  - destruct b; reflexivity.
  - rewrite append_cons. simpl. rewrite IH. reflexivity.
Qed.

Lemma spec_fields_nonempty (sep : ascii) (s : string) :
  spec_fields sep s <> [].
Proof.
  destruct s as [|c s]; simpl; [discriminate|].
  destruct (Ascii.eqb c sep); [discriminate|].
  destruct (spec_fields sep s); discriminate.
Qed.

Lemma Join_cons_byte (c : ascii) (h : string) (t : list string)
  (sep : string) :
  Strings.Join (String c h :: t) sep = String c (Strings.Join (h :: t) sep).
Proof. destruct t; reflexivity. Qed.

Lemma Join_cons_empty (e : string) (t : list string) (sep : string) :
  Strings.Join ("" :: e :: t) sep = sep +:+ Strings.Join (e :: t) sep.
Proof. reflexivity. Qed.

(** The walk over the target finds its first N+1 elements, or too few. *)
Lemma globsMatchPath_walk_spec (rest pre : string) (n : nat) :
  let elements := spec_fields "/" rest in
  globsMatchPath_walk (pre +:+ rest) rest (Str.len pre) n
  = if (n + 1 <=? length elements)%nat
    then (0, pre +:+ Strings.Join (take (n + 1) elements) "/")
    else (n + 1 - length elements, pre +:+ rest).
Proof.
  revert pre n. induction rest as [|c rest IH]; intros pre n.
  - cbn [globsMatchPath_walk spec_fields length].
    destruct (Nat.leb_spec (n + 1) 1) as [Hle|Hgt].
    + replace n with 0 by lia. reflexivity.
    + f_equal. lia.
  - cbn [globsMatchPath_walk spec_fields].
    destruct (Ascii.eqb_spec c "/") as [->|Hc].
    + cbn [length]. destruct n as [|n].
      * cbn. rewrite take_len_append, append_nil_r. reflexivity.
      * specialize (IH (pre +:+ "/") n).
        rewrite append_assoc, len_append in IH. cbn [Str.len String.length] in IH.
        replace (Str.len pre + 1) with (S (Str.len pre)) in IH by lia.
        change ("/" +:+ rest) with (String "/" rest) in IH.
        rewrite IH. clear IH.
        destruct (spec_fields "/" rest) as [|h t] eqn:Ef;
          [destruct (spec_fields_nonempty _ _ Ef)|].
        cbn [length].
        destruct (Nat.leb_spec (n + 1) (S (length t))) as [Hle|Hgt];
          destruct (Nat.leb_spec (S n + 1) (S (S (length t)))) as [Hle'|Hgt'];
          try lia.
        -- f_equal. rewrite append_assoc. f_equal.
           replace (S n + 1) with (S (S n)) by lia.
           replace (n + 1) with (S n) by lia. reflexivity.
        -- f_equal.
    + specialize (IH (pre +:+ String c "") n).
      rewrite append_assoc, len_append in IH. cbn [Str.len String.length] in IH.
      replace (Str.len pre + 1) with (S (Str.len pre)) in IH by lia.
      change (String c "" +:+ rest) with (String c rest) in IH.
      rewrite IH. clear IH.
      destruct (spec_fields "/" rest) as [|h t] eqn:Ef;
        [destruct (spec_fields_nonempty _ _ Ef)|].
      cbn [length].
      destruct (Nat.leb_spec (n + 1) (S (length t))) as [Hle|Hgt];
        [|reflexivity].
      f_equal. rewrite append_assoc. f_equal.
      replace (n + 1) with (S n) by lia. cbn [take].
      rewrite Join_cons_byte. reflexivity.
Qed.

Lemma HasPrefix_nil (s : string) : Strings.HasPrefix s "" = true.
Proof. destruct s; reflexivity. Qed.

(** Cutting at the first comma gives the first field and leaves the rest. *)
Lemma Index_comma_fields (s : string) :
  match Strings.Index s "," with
  | None => spec_fields "," s = [s]
  | Some i =>
    spec_fields "," s = Str.take i s :: spec_fields "," (Str.drop (S i) s)
    /\ Str.len (Str.drop (S i) s) < Str.len s
  end.
Proof.
  induction s as [|c s IH]; [reflexivity|].
  cbn [Strings.Index Strings.HasPrefix spec_fields].
  rewrite HasPrefix_nil, andb_true_r.
  destruct (Ascii.eqb c ",").
  - split; [reflexivity|]. cbn. lia.
  - destruct (Strings.Index s ",") as [i|]; cbn [fmap option_fmap option_map].
    + destruct IH as [-> Hlen]. split; [reflexivity|].
      change (Str.drop (S (S i)) (String c s)) with (Str.drop (S i) s).
      unfold Str.len in *. cbn [String.length]. lia.
    + rewrite IH. reflexivity.
Qed.

Lemma globsMatchPath_loop_empty (L : Lib) (fuel : nat) (target : string) :
  globsMatchPath_loop L fuel "" target = false.
Proof. destruct fuel; reflexivity. Qed.

(** One round of the loop on a pattern that is not empty. *)
Lemma globsMatchPath_round (L : Lib) (glob target : string) (later : bool) :
  eqs glob "" = false ->
  (let n := Strings.Count glob "/" in
   let '(n, prefix) := globsMatchPath_walk target target 0 n in
   if (0 <? n)%nat then later
   else if default false (path_Match L glob prefix) then true
   else later)
  = spec_globMatchesb L target glob || later.
Proof.
  intros Hne. unfold spec_globMatchesb. rewrite Hne. cbn [negb andb].
  cbv zeta.
  pose proof (globsMatchPath_walk_spec target "" (Strings.Count glob "/"))
    as Hw.
  cbv zeta in Hw. change ("" +:+ target) with target in Hw.
  change (Str.len "") with 0 in Hw. rewrite Hw. clear Hw.
  destruct (Nat.leb_spec (Strings.Count glob "/" + 1)
                         (length (spec_fields "/" target))) as [Hle|Hgt].
  - change (0 <? 0)%nat with false. cbv iota. cbn [andb].
    change ("" +:+ ?x) with x.
    destruct (default false _); reflexivity.
  - destruct (Nat.ltb_spec 0 (Strings.Count glob "/" + 1
                              - length (spec_fields "/" target)));
      [reflexivity|lia].
Qed.

Lemma spec_globMatchesb_empty (L : Lib) (target : string) :
  spec_globMatchesb L target "" = false.
Proof. reflexivity. Qed.

(** The loop decides whether some field of the list matches. *)
Lemma globsMatchPath_loop_spec (L : Lib) (fuel : nat) (globs target : string) :
  Str.len globs < fuel ->
  globsMatchPath_loop L fuel globs target
  = existsb (spec_globMatchesb L target) (spec_fields "," globs).
Proof.
  revert globs. induction fuel as [|fuel IH]; intros globs Hlen; [lia|].
  cbn [globsMatchPath_loop].
  destruct (eqs globs "") eqn:Hg.
  { apply String.eqb_eq in Hg. subst globs. reflexivity. }
  pose proof (Index_comma_fields globs) as Hi.
  destruct (Strings.Index globs ",") as [i|].
  - destruct Hi as [-> Hlt]. cbn [existsb].
    rewrite <- (IH (Str.drop (S i) globs)) by lia.
    destruct (eqs (Str.take i globs) "") eqn:Hglob.
    + apply String.eqb_eq in Hglob. rewrite Hglob.
      rewrite spec_globMatchesb_empty. reflexivity.
    + apply (globsMatchPath_round L _ target _ Hglob).
  - rewrite Hi. cbn [existsb]. rewrite Hg.
    etransitivity; [apply (globsMatchPath_round L globs target _ Hg)|].
    rewrite globsMatchPath_loop_empty. reflexivity.
Qed.

Lemma spec_globMatchesb_true (L : Lib) (target glob : string) :
  spec_globMatchesb L target glob = true <-> spec_globMatches L target glob.
Proof.
  unfold spec_globMatchesb, spec_globMatches. cbv zeta.
  rewrite !andb_true_iff, negb_true_iff, Nat.leb_le.
  unfold eqs. rewrite String.eqb_neq.
  destruct (path_Match L glob _) as [[]|]; cbn [default].
  - tauto.
  - split; [intros (_ & _ & H)|intros (_ & _ & H)]; discriminate.
  - split; [intros (_ & _ & H)|intros (_ & _ & H)]; discriminate.
Qed.

(** C7: [globsMatchPath] is true exactly when some field of the
    comma-separated list is a non-empty pattern that, having N slashes,
    matches by [path.Match] the first N+1 path elements of the target; a
    target with fewer elements is not matched by it, and empty and malformed
    patterns count for nothing. *)
Theorem C7_globsMatchPath_spec (L : Lib) (globs target : string) :
  globsMatchPath L globs target = true
  <-> exists glob,
        In glob (spec_fields "," globs) /\ spec_globMatches L target glob.
Proof.
  unfold globsMatchPath.
  rewrite globsMatchPath_loop_spec by lia.
  rewrite existsb_exists.
  split; intros (glob & Hin & Hm); exists glob; (split; [exact Hin|]);
    apply spec_globMatchesb_true; exact Hm.
Qed.

Example globsMatchPath_ex :
  globsMatchPath exampleLib "a.com,,b.com/x" "b.com/x/y/z" = true
  /\ globsMatchPath exampleLib "a.com,,b.com/x" "b.com" = false
  /\ globsMatchPath exampleLib "a.com,,b.com/x" "a.com" = true
  /\ globsMatchPath exampleLib ",," "a.com" = false
  /\ globsMatchPath exampleLib "" "" = false.
Proof. vm_compute. repeat split. Qed.
(** ** The stages within [ServeHTTP] *)

(** GOSUMDB after [load]: trimmed, and the default for an empty one and for
    [sum.golang.org]. *)
Lemma load_env_GOSUMDB (g : Goproxy) :
  let v := Strings.TrimSpace
             (env (load_GoBinEnv (GoBinEnv g) (goBinEnv g)) "GOSUMDB") in
  env (load_env g) "GOSUMDB"
  = if eqs v "" || eqs v "sum.golang.org" then GOSUMDB_default else v.
Proof.
  intros v. unfold load_env.
  set (e := load_GoBinEnv (GoBinEnv g) (goBinEnv g)) in *.
  repeat match goal with
  | |- context [if ?b then <["GOPROXY" := _]> _ else _] => destruct b
  | |- context [if ?b then <["GONOPROXY" := _]> _ else _] => destruct b
  | |- context [if ?b then <["GONOSUMDB" := _]> _ else _] => destruct b
  end;
  repeat (rewrite env_insert_ne by discriminate);
  rewrite !env_insert_eq;
  repeat (rewrite env_insert_ne by discriminate);
  fold v; destruct (eqs v "" || eqs v "sum.golang.org");
  rewrite ?env_insert_eq; repeat (rewrite env_insert_ne by discriminate);
  rewrite ?env_insert_eq; reflexivity.
Qed.

(** A request for an artifact under a version that is valid semver after
    the rewrite goes from the scratch directory straight to the cache probe,
    with [cachingForever] set. *)
Lemma ServeHTTP_reaches_fetch (L : Lib) (W : World) (g : Goproxy)
  (r : Request) (name : string) (q : moduleRequest) (goproxyRoot : string) :
  let g' := loadOnce L g in
  let moduleVersion :=
    stagingVersion (isStagingRepo (mq_modulePath q)) (mq_moduleVersion q) in
  requestName g r = Some name ->
  Strings.HasPrefix name "sumdb/" = false ->
  decodeModule L name = Some q ->
  mq_isList q = false -> mq_isLatest q = false ->
  Semver.IsValid moduleVersion = true ->
  ioutil_TempDir W = Ok goproxyRoot ->
  exists s1,
    Written s1 = None /\ Background s1 = None /\ setCaches (Events s1) = []
    /\ snd (ServeHTTP L W g r)
       = fst (deferPurge g' goproxyRoot
                (ServeHTTP_fetch L W g' goproxyRoot (mq_modulePath q)
                   moduleVersion (mq_name q) (mq_nameExt q) true) s1).
Proof.
  intros g' moduleVersion Hname Hsum Hq Hlist Hlatest Hvalid Htmp.
  unfold ServeHTTP, run. cbn [snd]. fold g'.
  assert (Hn : requestName g' r = Some name).
  { unfold requestName in *. unfold g'. rewrite PathPrefix_loadOnce.
    exact Hname. }
  rewrite (ServeHTTP_loaded_name _ _ _ _ _ _ Hn), Hsum.
  unfold ServeHTTP_module. rewrite Hq. step_M. rewrite Htmp.
  unfold ServeHTTP_operation. rewrite Hlist, Hlatest. fold moduleVersion.
  rewrite Hvalid. cbn [negb orb].
  destruct (isStagingRepo (mq_modulePath q)); red_M;
    [destruct (Strings.HasPrefix (mq_moduleVersion q) "v0.1")|];
    cbn [andb]; red_M; eexists; (repeat split; [..|reflexivity]);
    reflexivity.
Qed.
(** ** [strings.Split] on one byte gives the fields *)

Lemma rev_onto_append (s acc : string) :
  Str.rev_onto s acc = Str.rev s +:+ acc.
Proof.
  unfold Str.rev. revert acc.
  induction s as [|c s IH]; intros acc; [reflexivity|].
  cbn [Str.rev_onto]. rewrite (IH (String c acc)), (IH (String c "")).
  rewrite append_assoc. reflexivity.
Qed.

Lemma split_go_byte (c : ascii) (s : string) (n : nat) (cur : string) :
  Str.len s <= n ->
  Strings.split_go (String c "") n 0 cur s
  = match spec_fields c s with
    | h :: t => (Str.rev cur +:+ h) :: t
    | [] => []
    end.
Proof.
  revert n cur. induction s as [|d s IH]; intros n cur Hn.
  - cbn. rewrite append_nil_r. reflexivity.
  - unfold Str.len in Hn. cbn [String.length] in Hn.
    destruct n as [|n]; [lia|].
    cbn [Strings.split_go Strings.HasPrefix spec_fields].
    rewrite HasPrefix_nil, andb_true_r.
    destruct (Ascii.eqb d c).
    + cbn [Str.len String.length Nat.pred].
      rewrite (IH n "") by (unfold Str.len; lia).
      rewrite append_nil_r.
      destruct (spec_fields c s) as [|h t] eqn:Ef;
        [destruct (spec_fields_nonempty _ _ Ef)|].
      reflexivity.
    + rewrite (IH (S n) (String d cur)) by (unfold Str.len; lia).
      destruct (spec_fields c s) as [|h t] eqn:Ef;
        [destruct (spec_fields_nonempty _ _ Ef)|].
      f_equal. unfold Str.rev at 1. cbn [Str.rev_onto].
      rewrite rev_onto_append, append_assoc. reflexivity.
Qed.

(** The fields of the specification are what [strings.Split] returns. *)
Lemma Split_byte (c : ascii) (s : string) :
  Strings.Split s (String c "") = spec_fields c s.
Proof.
  unfold Strings.Split. cbn [Str.is_empty].
  rewrite split_go_byte by lia.
  destruct (spec_fields c s); reflexivity.
Qed.

(** ** The handler on examples *)

(** The limit at work: a zip of 10 bytes is stored under a limit of 10 and
    under no limit, and is not stored under a limit of 9; the other two
    entries are stored in all three cases. *)
Example zip_limit_ex :
  let stored := fun maxZIP => fun ext =>
    match Background (snd (ServeHTTP exampleLib W_ok
                             (exampleGoproxy None maxZIP)
                             (GET "/example.com/m/@v/v1.2.3.mod"))) with
    | Some evs => written ("example.com/m/@v/v1.2.3" +:+ ext) evs
    | None => false
    end in
  map (stored 10%Z) [".info"; ".mod"; ".zip"] = [true; true; true]
  /\ map (stored 0%Z) [".info"; ".mod"; ".zip"] = [true; true; true]
  /\ map (stored 9%Z) [".info"; ".mod"; ".zip"] = [true; true; false].
Proof. vm_compute. repeat split. Qed.

(** With GOSUMDB off, or the module under GONOSUMDB (here through
    GOPRIVATE), nothing is looked up or hashed and the file is served. *)
Example unverified_ex :
  let run := fun environ =>
    snd (ServeHTTP exampleLib W_ok (New environ)
                   (GET "/example.com/m/@v/v1.2.3.mod")) in
  let served := fun s => match Written s with
                         | Some (ServeContent _) => true
                         | _ => false
                         end in
  verificationEvents (Events (run ["GOSUMDB= off "])) = []
  /\ served (run ["GOSUMDB= off "]) = true
  /\ verificationEvents (Events (run ["GOPRIVATE=example.com"])) = []
  /\ served (run ["GOPRIVATE=example.com"]) = true
  /\ length (verificationEvents (Events (run []))) = 4.
Proof. vm_compute. repeat split. Qed.

(** ** Requests that are turned away at the door *)

Lemma eqs_false (a b : string) : a <> b -> eqs a b = false.
Proof. intros H. apply String.eqb_neq. exact H. Qed.

(** X1: a request whose method is neither GET nor HEAD is answered by
    [responseMethodNotAllowed] (405) with [max-age=3600], whatever its path:
    nothing is decoded, driven, looked up or fetched. *)
Theorem ServeHTTP_other_method (L : Lib) (W : World) (g : Goproxy)
  (r : Request) :
  Method r <> "GET" -> Method r <> "HEAD" ->
  let s := snd (ServeHTTP L W g r) in
  Written s = Some MethodNotAllowed /\ answered 405 s /\ maxAgeIs 3600 s
  /\ Events s = [] /\ Background s = None.
Proof.
  intros Hget Hhead. unfold ServeHTTP, ServeHTTP_loaded. cbn [snd].
  rewrite (eqs_false _ _ Hget), (eqs_false _ _ Hhead). step_M.
  repeat split. eexists. split; reflexivity.
Qed.

Lemma ServeHTTP_other_method_witness :
  let s := snd (ServeHTTP exampleLib W_ok (New [])
                  {| Method := "POST";
                     RequestPath := "/example.com/m/@v/list" |}) in
  Written s = Some MethodNotAllowed /\ answered 405 s /\ maxAgeIs 3600 s
  /\ Events s = [] /\ Background s = None.
Proof.
  apply (ServeHTTP_other_method exampleLib W_ok (New [])
           {| Method := "POST"; RequestPath := "/example.com/m/@v/list" |});
    discriminate.
Defined.

(** X2: a GET or HEAD request whose path does not start with a slash, or
    whose cleaned and trimmed path is not a valid percent-encoding, is
    answered by [responseNotFound] (404, no message) with [max-age=3600], and
    nothing else is done. *)
Theorem ServeHTTP_undecodable_path (L : Lib) (W : World) (g : Goproxy)
  (r : Request) :
  Method r = "GET" \/ Method r = "HEAD" ->
  requestName g r = None ->
  let s := snd (ServeHTTP L W g r) in
  Written s = Some (NotFound None) /\ answered 404 s /\ maxAgeIs 3600 s
  /\ Events s = [] /\ Background s = None.
Proof.
  intros Hm Hname. unfold ServeHTTP, ServeHTTP_loaded. cbn [snd].
  unfold requestName in Hname. rewrite PathPrefix_loadOnce.
  assert (Hok : eqs (Method r) "GET" || eqs (Method r) "HEAD" = true).
  { destruct Hm as [-> | ->]; reflexivity. }
  rewrite Hok in *. cbn [negb] in *.
  destruct (Strings.HasPrefix (RequestPath r) "/"); cbn [negb] in *.
  - step_M. rewrite Hname. red_M.
    repeat split. eexists. split; reflexivity.
  - step_M. repeat split. eexists. split; reflexivity.
Qed.

Lemma ServeHTTP_undecodable_path_witness :
  let s := snd (ServeHTTP exampleLib W_ok (New []) (GET "/example.com/%zz")) in
  Written s = Some (NotFound None) /\ answered 404 s /\ maxAgeIs 3600 s
  /\ Events s = [] /\ Background s = None.
Proof.
  apply (ServeHTTP_undecodable_path exampleLib W_ok (New [])
           (GET "/example.com/%zz")); [left|]; reflexivity.
Defined.

(** ** The kinds of events a stage adds *)

Lemma emitsOnly_ret {A} (P : Event -> bool) (a : A) : emitsOnly P (ret a).
Proof. intros s. exists []. split; [symmetry; apply app_nil_r|reflexivity]. Qed.

Lemma emitsOnly_return {A} (P : Event -> bool) :
  emitsOnly P (return_ (A := A)).
Proof. intros s. exists []. split; [symmetry; apply app_nil_r|reflexivity]. Qed.

Lemma emitsOnly_emit (P : Event -> bool) (e : Event) :
  P e = true -> emitsOnly P (emit e).
Proof.
  intros He s. exists [e]. split; [reflexivity|]. cbn. rewrite He. reflexivity.
Qed.

Lemma emitsOnly_setHeader (P : Event -> bool) (k v : string) :
  emitsOnly P (setHeader k v).
Proof. intros s. exists []. split; [symmetry; apply app_nil_r|reflexivity]. Qed.

Lemma emitsOnly_setResponseCacheControlHeader (P : Event -> bool)
  (maxAge : Z) : emitsOnly P (setResponseCacheControlHeader maxAge).
Proof. intros s. exists []. split; [symmetry; apply app_nil_r|reflexivity]. Qed.

Lemma emitsOnly_write (P : Event -> bool) (r : Response) :
  emitsOnly P (write r).
Proof. intros s. exists []. split; [symmetry; apply app_nil_r|reflexivity]. Qed.

Lemma emitsOnly_spawn (P : Event -> bool) (bg : list Event) :
  emitsOnly P (spawn bg).
Proof. intros s. exists []. split; [symmetry; apply app_nil_r|reflexivity]. Qed.

Lemma emitsOnly_bind {A B} (P : Event -> bool) (m : M A) (k : A -> M B) :
  emitsOnly P m -> (forall a, emitsOnly P (k a)) -> emitsOnly P (bind m k).
Proof.
  intros Hm Hk s. unfold bind. destruct (Hm s) as (l & Hl & Pl).
  destruct (m s) as [s' [a|]]; cbn [fst] in *.
  - destruct (Hk a s') as (l' & Hl' & Pl'). exists (l ++ l'). split.
    + rewrite Hl', Hl, app_assoc. reflexivity.
    + rewrite forallb_app, Pl, Pl'. reflexivity.
  - exists l. split; assumption.
Qed.

Lemma emitsOnly_deferPurge {A} (P : Event -> bool) (g : Goproxy)
  (goproxyRoot : string) (m : M A) :
  forallb P (purge goproxyRoot) = true ->
  emitsOnly P m -> emitsOnly P (deferPurge g goproxyRoot m).
Proof.
  intros Hp Hm s. unfold deferPurge. destruct (Hm s) as (l & Hl & Pl).
  destruct (m s) as [s' a]. cbn [fst] in *.
  destruct (hijackedGoproxyRootPurge s'); cbn [fst Events].
  - exists l. split; assumption.
  - exists (l ++ purge goproxyRoot). split.
    + rewrite Hl, <- app_assoc. reflexivity.
    + rewrite forallb_app, Pl, Hp. reflexivity.
Qed.

Ltac emitsOnly_step :=
  first
    [ apply emitsOnly_bind; [|intros]
    | apply emitsOnly_ret
    | apply emitsOnly_return
    | apply emitsOnly_setHeader
    | apply emitsOnly_setResponseCacheControlHeader
    | apply emitsOnly_write
    | apply emitsOnly_spawn
    | apply emitsOnly_emit; reflexivity
    | apply emitsOnly_deferPurge; [reflexivity|]
    | match goal with
      | |- emitsOnly _ (match ?x with _ => _ end) => destruct x
      | |- emitsOnly _ (if ?b then _ else _) => destruct b
      | |- emitsOnly _ (let '(_, _) := ?p in _) => destruct p
      end
    | progress unfold when, logError, responseString, responseNotFound,
        responseMethodNotAllowed, responseInternalServerError,
        responseBadGateway, respondInternal, respondMalformed,
        respondModError ].

Ltac emitsOnly_tac := repeat emitsOnly_step.

Lemma emitsOnly_augment (P : Event -> bool) (vs : list string)
  (moduleVersion : string) (mr : modResult) :
  (forall msg, P (EvPrint msg) = true) ->
  emitsOnly P (ServeHTTP_augment vs moduleVersion mr).
Proof.
  intros HP. induction vs as [|v vs IH]; cbn [ServeHTTP_augment].
  - apply emitsOnly_ret.
  - destruct (Strings.HasPrefix v "kubernetes-1."); [|exact IH].
    apply emitsOnly_bind; [apply emitsOnly_emit, HP|intros; apply emitsOnly_ret].
Qed.

(** A module request does not reach out to the upstream. *)
Lemma ServeHTTP_module_no_upstream (L : Lib) (W : World) (g : Goproxy)
  (name : string) :
  emitsOnly (fun e => negb (isHTTPDo e)) (ServeHTTP_module L W g name).
Proof.
  unfold ServeHTTP_module, ServeHTTP_operation, ServeHTTP_list,
    ServeHTTP_resolve, ServeHTTP_fetch, ServeHTTP_verify.
  emitsOnly_tac; apply emitsOnly_augment; reflexivity.
Qed.

(** ** The log passthrough *)

(** A log request is at the [switch] of line 337 with nothing done yet. *)
Lemma ServeHTTP_logRequest (L : Lib) (W : World) (g : Goproxy) (r : Request)
  (u : URL) (n : string) :
  logRequest L g r u n ->
  exists name,
    Strings.HasPrefix name "sumdb/" = true
    /\ parseRawURL L (Strings.TrimPrefix name "sumdb/") = Ok u
    /\ idna_ToASCII L (Host u) = Some n
    /\ flag (supportedSUMDBNames (loadOnce L g)) n = true
    /\ snd (ServeHTTP L W g r)
       = fst (ServeHTTP_sumdb L W (loadOnce L g)
                (Strings.TrimPrefix name "sumdb/") St0).
Proof.
  intros (name & Hname & Hpre & Hparse & Hhost & Hflag).
  exists name. repeat (split; [assumption|]).
  unfold ServeHTTP, run. cbn [snd].
  assert (Hn : requestName (loadOnce L g) r = Some name)
    by (unfold requestName in *; rewrite PathPrefix_loadOnce; exact Hname).
  rewrite (ServeHTTP_loaded_name _ _ _ _ _ _ Hn), Hpre. reflexivity.
Qed.

Ltac enter_log W H :=
  let name := fresh "name" in
  let Hpre := fresh "Hpre" in
  let Hparse := fresh "Hparse" in
  let Hhost := fresh "Hhost" in
  let Hflag := fresh "Hflag" in
  let Heq := fresh "Heq" in
  destruct (ServeHTTP_logRequest _ W _ _ _ _ H)
    as (name & Hpre & Hparse & Hhost & Hflag & Heq);
  rewrite Heq; clear Heq;
  unfold ServeHTTP_sumdb; step_M; rewrite Hparse, Hhost, Hflag; red_M.

(** X3: a request for [/supported] of an allowed log is answered by the
    handler itself, with an empty 200 and [max-age=60]: the upstream is not
    asked. *)
Theorem ServeHTTP_sumdb_supported (L : Lib) (W : World) (g : Goproxy)
  (r : Request) (u : URL) (n : string) :
  logRequest L g r u n ->
  URLPath u = "/supported" ->
  let s := snd (ServeHTTP L W g r) in
  Written s = Some WriteNil /\ answered 200 s /\ maxAgeIs 60 s
  /\ Events s = [].
Proof.
  intros Hlog Hpath s. subst s. enter_log W Hlog. rewrite Hpath. red_M.
  repeat split. eexists. split; reflexivity.
Qed.

Lemma ServeHTTP_sumdb_supported_witness :
  let s := snd (ServeHTTP exampleLib W_ok (New [])
                          (GET "/sumdb/sum.golang.org/supported")) in
  Written s = Some WriteNil /\ answered 200 s /\ maxAgeIs 60 s
  /\ Events s = [].
Proof.
  apply (ServeHTTP_sumdb_supported exampleLib W_ok (New [])
           (GET "/sumdb/sum.golang.org/supported")
           {| Scheme := "https"; User := None; Host := "sum.golang.org";
              URLPath := "/supported" |}
           "sum.golang.org"); [|reflexivity].
  exists "sumdb/sum.golang.org/supported". vm_compute. repeat split.
Defined.

(** X4: a request for a path of an allowed log other than [/supported],
    [/latest], [/lookup/...] and [/tile/...] is answered by
    [responseNotFound] (404) with [max-age=3600], and the upstream is not
    asked. *)
Theorem ServeHTTP_sumdb_unknown_path (L : Lib) (W : World) (g : Goproxy)
  (r : Request) (u : URL) (n : string) :
  logRequest L g r u n ->
  URLPath u <> "/supported" ->
  sumdbPassthrough u = false ->
  let s := snd (ServeHTTP L W g r) in
  Written s = Some (NotFound None) /\ answered 404 s /\ maxAgeIs 3600 s
  /\ Events s = [].
Proof.
  intros Hlog Hsup Hpass s. subst s. enter_log W Hlog.
  rewrite (eqs_false _ _ Hsup). unfold sumdbPassthrough in Hpass.
  apply orb_false_iff in Hpass. destruct Hpass as [Hpass Htile].
  apply orb_false_iff in Hpass. destruct Hpass as [Hlatest Hlookup].
  rewrite Hlatest, Hlookup, Htile. red_M.
  repeat split. eexists. split; reflexivity.
Qed.

Lemma ServeHTTP_sumdb_unknown_path_witness :
  let s := snd (ServeHTTP exampleLib W_ok (New [])
                          (GET "/sumdb/sum.golang.org/tile")) in
  Written s = Some (NotFound None) /\ answered 404 s /\ maxAgeIs 3600 s
  /\ Events s = [].
Proof.
  apply (ServeHTTP_sumdb_unknown_path exampleLib W_ok (New [])
           (GET "/sumdb/sum.golang.org/tile")
           {| Scheme := "https"; User := None; Host := "sum.golang.org";
              URLPath := "/tile" |}
           "sum.golang.org"); [|discriminate|reflexivity].
  exists "sumdb/sum.golang.org/tile". vm_compute. repeat split.
Defined.

(** X5: when the upstream answers a passed-through log request with 200, its
    body is copied to the client and nothing is logged; the content type is
    [application/octet-stream] for a tile and [text/plain; charset=utf-8]
    otherwise, the upstream's [Content-Length] is forwarded, and the cache
    hint is [max-age=60] for [/latest] and one year for lookups and tiles. *)
Theorem ServeHTTP_sumdb_success (L : Lib) (W : World) (g : Goproxy)
  (r : Request) (u : URL) (n : string) (res : upstreamResponse) :
  logRequest L g r u n ->
  sumdbPassthrough u = true ->
  http_NewRequest W (URL_String L u) = None ->
  http_Do W (URL_String L u) = DoResponse res ->
  StatusCode res = 200%Z ->
  let s := snd (ServeHTTP L W g r) in
  Written s = Some (Copied (Body res))
  /\ Header s !! "Content-Type"
     = Some (if eqs (URLPath u) "/latest"
                || Strings.HasPrefix (URLPath u) "/lookup/"
             then "text/plain; charset=utf-8"
             else "application/octet-stream")
  /\ Header s !! "Content-Length" = Some (ContentLength res)
  /\ maxAgeIs (if eqs (URLPath u) "/latest" then 60 else 31536000) s
  /\ Events s = [EvHTTPDo (URL_String L u)].
Proof.
  intros Hlog Hpass Hreq Hdo Hcode s. subst s. enter_log W Hlog.
  unfold sumdbPassthrough in Hpass.
  destruct (eqs (URLPath u) "/supported") eqn:Hsup.
  { apply String.eqb_eq in Hsup. rewrite Hsup in Hpass. discriminate Hpass. }
  destruct (eqs (URLPath u) "/latest"); red_M;
    [|destruct (Strings.HasPrefix (URLPath u) "/lookup/"); red_M;
      [|destruct (Strings.HasPrefix (URLPath u) "/tile/"); red_M;
        [|discriminate Hpass]]].
  all: rewrite Hreq; red_M; rewrite Hdo; red_M; rewrite Hcode; red_M.
  all: repeat split; try reflexivity.
  all: rewrite lookup_insert_ne by discriminate; apply lookup_insert_eq.
Qed.

Lemma ServeHTTP_sumdb_success_witness :
  let up := upstreamAnswer 200 "200 OK" "tile" in
  let W := exampleWorld exampleModule exampleLines 10 up in
  let s := snd (ServeHTTP exampleLib W (New [])
                          (GET "/sumdb/sum.golang.org/tile/8/0/000")) in
  Written s = Some (Copied (Ok "tile"))
  /\ Header s !! "Content-Type" = Some "application/octet-stream"
  /\ Header s !! "Content-Length" = Some "4"
  /\ maxAgeIs 31536000 s
  /\ Events s = [EvHTTPDo "https://sum.golang.org/tile/8/0/000"].
Proof.
  intros up W.
  apply (ServeHTTP_sumdb_success exampleLib W (New [])
           (GET "/sumdb/sum.golang.org/tile/8/0/000")
           {| Scheme := "https"; User := None; Host := "sum.golang.org";
              URLPath := "/tile/8/0/000" |}
           "sum.golang.org"
           {| StatusCode := 200; Status := "200 OK"; Body := Ok "tile";
              ContentLength := "4" |}); try reflexivity.
  exists "sumdb/sum.golang.org/tile/8/0/000". vm_compute. repeat split.
Defined.

(** ** Who starts the goroutine *)

Lemma startsWriteBack_same {A} (W : World) (g : Goproxy) (d : string)
  (m : M A) :
  (forall s, Background (fst (m s)) = Background s
             /\ hijackedGoproxyRootPurge (fst (m s))
                = hijackedGoproxyRootPurge s) ->
  startsWriteBack W g d m.
Proof. intros H s. left. apply H. Qed.

Lemma startsWriteBack_spawn (W : World) (g : Goproxy) (d : string)
  (cacher : CacherI) (name nameExt : string) (mr : modResult) :
  startsWriteBack W g d
    (spawn (ServeHTTP_goroutine W g cacher d name nameExt mr)).
Proof. intros s. right. split; [reflexivity|]. eexists _, _, _, _. reflexivity. Qed.

Lemma startsWriteBack_bind {A B} (W : World) (g : Goproxy) (d : string)
  (m : M A) (k : A -> M B) :
  startsWriteBack W g d m -> (forall a, startsWriteBack W g d (k a)) ->
  startsWriteBack W g d (bind m k).
Proof.
  intros Hm Hk s. unfold bind. specialize (Hm s). cbv zeta in *.
  destruct (m s) as [s' [a|]]; cbn [fst] in *; [|exact Hm].
  specialize (Hk a s'). cbv zeta in Hk.
  destruct Hk as [[Hb Hh]|Hk]; [|right; exact Hk].
  rewrite Hb, Hh. exact Hm.
Qed.

Lemma startsWriteBack_deferPurge {A} (W : World) (g : Goproxy)
  (d : string) (m : M A) :
  startsWriteBack W g d m -> startsWriteBack W g d (deferPurge g d m).
Proof.
  intros Hm s. unfold deferPurge. specialize (Hm s). cbv zeta in *.
  destruct (m s) as [s' a]. cbn [fst] in *.
  destruct (hijackedGoproxyRootPurge s') eqn:Hh; cbn [fst].
  - rewrite Hh. exact Hm.
  - cbn [Background hijackedGoproxyRootPurge].
    destruct Hm as [[Hb Hh']|[Hh' _]]; [|discriminate].
    left. split; assumption.
Qed.

Ltac startsWriteBack_step :=
  first
    [ apply startsWriteBack_bind; [|intros]
    | apply startsWriteBack_spawn
    | apply startsWriteBack_same; intros; split; reflexivity
    | match goal with
      | |- startsWriteBack _ _ _ (match ?x with _ => _ end) => destruct x
      | |- startsWriteBack _ _ _ (if ?b then _ else _) => destruct b
      | |- startsWriteBack _ _ _ (let '(_, _) := ?p in _) => destruct p
      end
    | progress unfold when, logError, responseString, responseNotFound,
        responseMethodNotAllowed, responseInternalServerError,
        responseBadGateway, respondInternal, respondMalformed,
        respondModError ].

Ltac startsWriteBack_tac := repeat startsWriteBack_step.

Lemma startsWriteBack_augment (W : World) (g : Goproxy) (d : string)
  (vs : list string) (moduleVersion : string) (mr : modResult) :
  startsWriteBack W g d (ServeHTTP_augment vs moduleVersion mr).
Proof.
  induction vs as [|v vs IH]; cbn [ServeHTTP_augment].
  - startsWriteBack_tac.
  - destruct (Strings.HasPrefix v "kubernetes-1."); [|exact IH].
    startsWriteBack_tac.
Qed.

Lemma startsWriteBack_operation (L : Lib) (W : World) (g : Goproxy)
  (q : moduleRequest) (moduleVersion d : string) :
  startsWriteBack W g d (ServeHTTP_operation L W g q moduleVersion d).
Proof.
  unfold ServeHTTP_operation, ServeHTTP_list, ServeHTTP_resolve,
    ServeHTTP_fetch, ServeHTTP_verify.
  startsWriteBack_tac; apply startsWriteBack_augment.
Qed.

(** ** The scratch directory *)

Lemma emitsOnly_setCaches (P : Event -> bool) (W : World) (g : Goproxy)
  (cacher : CacherI) (name nameExt : string) (mr : modResult) :
  (forall msg, P (EvLog msg) = true) ->
  (forall file name', P (EvNewTempCache file name') = true) ->
  (forall c, P (EvSetCache c) = true) ->
  emitsOnly P (ServeHTTP_setCaches W g cacher name nameExt mr).
Proof.
  intros Hlog Hnew Hset. unfold ServeHTTP_setCaches.
  repeat first
    [ apply emitsOnly_bind; [|intros]
    | apply emitsOnly_ret
    | apply emitsOnly_return
    | apply emitsOnly_emit; first [apply Hlog|apply Hnew|apply Hset]
    | match goal with
      | |- emitsOnly _ (match ?x with _ => _ end) => destruct x
      | |- emitsOnly _ (if ?b then _ else _) => destruct b
      end
    | progress unfold when, logError ].
Qed.

(** The goroutine purges the scratch directory as its last action, and only
    then. *)
Lemma ServeHTTP_goroutine_purge (W : World) (g : Goproxy) (cacher : CacherI)
  (d name nameExt : string) (mr : modResult) :
  exists bg0,
    ServeHTTP_goroutine W g cacher d name nameExt mr = bg0 ++ purge d
    /\ forallb (fun e => negb (isPurge e)) bg0 = true.
Proof.
  unfold ServeHTTP_goroutine, run.
  destruct (emitsOnly_setCaches (fun e => negb (isPurge e)) W g cacher name
              nameExt mr (fun _ => eq_refl) (fun _ _ => eq_refl)
              (fun _ => eq_refl) St0) as (l & Hl & Pl).
  exists l. rewrite Hl. split; [reflexivity|exact Pl].
Qed.

Lemma emitsOnly_operation_no_purge (L : Lib) (W : World) (g : Goproxy)
  (q : moduleRequest) (moduleVersion d : string) :
  emitsOnly (fun e => negb (isPurge e))
            (ServeHTTP_operation L W g q moduleVersion d).
Proof.
  unfold ServeHTTP_operation, ServeHTTP_list, ServeHTTP_resolve,
    ServeHTTP_fetch, ServeHTTP_verify.
  emitsOnly_tac; apply emitsOnly_augment; reflexivity.
Qed.

(** X6: a module request that got its scratch directory purges it exactly
    once ([modClean], then [os.RemoveAll]), as the last action of whoever
    owns it: the handler when it returns without having started the
    write-back, and otherwise the goroutine, when its writes are over. *)
Theorem ServeHTTP_module_purges_once (L : Lib) (W : World) (g : Goproxy)
  (name : string) (q : moduleRequest) (d : string) :
  decodeModule L name = Some q ->
  ioutil_TempDir W = Ok d ->
  let s := run (ServeHTTP_module L W g name) in
  let others := forallb (fun e => negb (isPurge e)) in
  match Background s with
  | None => exists evs, Events s = evs ++ purge d /\ others evs = true
  | Some bg =>
    others (Events s) = true
    /\ exists bg0, bg = bg0 ++ purge d /\ others bg0 = true
  end.
Proof.
  intros Hq Htmp. unfold run, ServeHTTP_module. rewrite Hq.
  set (staging := isStagingRepo (mq_modulePath q)).
  set (v := stagingVersion staging (mq_moduleVersion q)).
  assert (Hpre : exists s1,
            Background s1 = None /\ hijackedGoproxyRootPurge s1 = false
            /\ forallb (fun e => negb (isPurge e)) (Events s1) = true
            /\ (when staging
                    (emit (EvPrint ("isStagingRepo " +:+ mq_modulePath q
                                    +:+ LF))) ;;;
                  when (staging
                        && Strings.HasPrefix (mq_moduleVersion q) "v0.1")
                    (emit (EvPrint (mq_moduleVersion q +:+ " -> " +:+ v
                                    +:+ LF))) ;;;
                  emit EvTempDir ;;;
                  goproxyRoot <~ match ioutil_TempDir W with
                                 | Err e => respondInternal e
                                 | Ok d => ret d
                                 end ;;
                  deferPurge g goproxyRoot
                    (ServeHTTP_operation L W g q v goproxyRoot)) St0
                 = deferPurge g d (ServeHTTP_operation L W g q v d) s1).
  { rewrite Htmp.
    destruct staging; [destruct (Strings.HasPrefix (mq_moduleVersion q) "v0.1")|];
      cbn [andb]; step_M;
      (eexists; (split; [|split; [|split]]); [..|reflexivity]; reflexivity). }
  destruct Hpre as (s1 & Hb1 & Hh1 & He1 & Heq).
  cbv zeta. rewrite Heq. clear Heq.
  unfold deferPurge.
  pose proof (emitsOnly_operation_no_purge L W g q v d s1) as (l & Hl & Pl).
  pose proof (startsWriteBack_operation L W g q v d s1) as Hs.
  cbv zeta in Hs.
  destruct (ServeHTTP_operation L W g q v d s1) as [s' a]. cbn [fst] in *.
  destruct Hs as [[Hb Hh]|[Hh (cacher & nm & ext & mr & Hb)]].
  - rewrite Hh, Hh1. cbn [fst Background Events]. rewrite Hb, Hb1.
    exists (Events s1 ++ l). rewrite Hl. split; [reflexivity|].
    rewrite forallb_app, He1, Pl. reflexivity.
  - rewrite Hh. cbn [fst]. rewrite Hb. split.
    + rewrite Hl, forallb_app, He1, Pl. reflexivity.
    + apply ServeHTTP_goroutine_purge.
Qed.

Lemma ServeHTTP_module_purges_once_witness :
  let s := run (ServeHTTP_module exampleLib W_ok (load exampleLib (New []))
                                 "example.com/m/@v/v1.2.3.info") in
  let others := forallb (fun e => negb (isPurge e)) in
  match Background s with
  | None => exists evs, Events s = evs ++ purge "/tmp/goproxy1"
                        /\ others evs = true
  | Some bg =>
    others (Events s) = true
    /\ exists bg0, bg = bg0 ++ purge "/tmp/goproxy1" /\ others bg0 = true
  end.
Proof.
  apply (ServeHTTP_module_purges_once exampleLib W_ok
           (load exampleLib (New [])) "example.com/m/@v/v1.2.3.info"
           {| mq_name := "example.com/m/@v/v1.2.3.info";
              mq_isLatest := false; mq_isList := false;
              mq_modulePath := "example.com/m"; mq_nameExt := ".info";
              mq_moduleVersion := "v1.2.3" |}
           "/tmp/goproxy1"); reflexivity.
Defined.

(** ** Where the upstream is asked *)

(** [parseRawURL] answers with URLs of the schemes http and https only. *)
Lemma parseRawURL_http (L : Lib) (rawURL : string) (u : URL) :
  parseRawURL L rawURL = Ok u ->
  eqs (Strings.ToLower (Scheme u)) "http"
  || eqs (Strings.ToLower (Scheme u)) "https" = true.
Proof.
  unfold parseRawURL.
  destruct (url_Parse L _) as [u'|e]; [|discriminate].
  destruct (eqs (Strings.ToLower (Scheme u')) "http"
            || eqs (Strings.ToLower (Scheme u')) "https") eqn:Hs;
    [|discriminate].
  intros [= <-]. exact Hs.
Qed.

(** The passthrough asks the upstream at most once, for the URL of an allowed
    log and one of the paths that are passed through, and starts nothing in
    the background. *)
Lemma ServeHTTP_sumdb_asks (L : Lib) (W : World) (g : Goproxy)
  (rawURL : string) :
  let s := fst (ServeHTTP_sumdb L W g rawURL St0) in
  Background s = None
  /\ forall url,
       In (EvHTTPDo url) (Events s) ->
       exists u n,
         parseRawURL L rawURL = Ok u
         /\ idna_ToASCII L (Host u) = Some n
         /\ flag (supportedSUMDBNames g) n = true
         /\ sumdbPassthrough u = true
         /\ url = URL_String L u.
Proof.
  unfold ServeHTTP_sumdb. step_M.
  destruct (parseRawURL L rawURL) as [u|e] eqn:Hparse; red_M;
    [|split; [reflexivity|intros url []]].
  destruct (idna_ToASCII L (Host u)) as [n|] eqn:Hhost; red_M;
    [|split; [reflexivity|intros url []]].
  destruct (flag (supportedSUMDBNames g) n) eqn:Hflag; red_M;
    [|split; [reflexivity|intros url []]].
  destruct (eqs (URLPath u) "/supported"); red_M;
    [split; [reflexivity|intros url []]|].
  assert (Hgoal : sumdbPassthrough u = true ->
            forall (evs : list Event) (url : string),
              (forall e, In e evs ->
                 e = EvHTTPDo (URL_String L u) \/ isLog e = true) ->
              In (EvHTTPDo url) evs ->
              exists u0 n0,
                Ok u = Ok u0 /\ idna_ToASCII L (Host u0) = Some n0
                /\ flag (supportedSUMDBNames g) n0 = true
                /\ sumdbPassthrough u0 = true /\ url = URL_String L u0).
  { intros Hpass evs url Hall Hin. exists u, n.
    repeat (split; [assumption || reflexivity|]).
    destruct (Hall _ Hin) as [[= ->]|Hlog]; [reflexivity|discriminate Hlog]. }
  assert (Hpass : sumdbPassthrough u
                  = (eqs (URLPath u) "/latest"
                     || Strings.HasPrefix (URLPath u) "/lookup/"
                     || Strings.HasPrefix (URLPath u) "/tile/"))
    by reflexivity.
  destruct (eqs (URLPath u) "/latest"); red_M;
    [|destruct (Strings.HasPrefix (URLPath u) "/lookup/"); red_M;
      [|destruct (Strings.HasPrefix (URLPath u) "/tile/"); red_M;
        [|split; [reflexivity|intros url []]]]].
  all: specialize (Hgoal Hpass).
  all: destruct (http_NewRequest W (URL_String L u)); red_M;
    [split; [reflexivity|intros url [[=]|[]]]|].
  all: destruct (http_Do W (URL_String L u)) as [msg|msg|res]; red_M.
  all: repeat match goal with
       | |- context [if ?b then _ else _] => destruct b; red_M
       | |- context [match Body ?r with _ => _ end] => destruct (Body r); red_M
       end.
  all: (split; [reflexivity|]).
  all: intros url; apply Hgoal; cbn [Events app];
    intros e He; cbn [In] in He;
    repeat (destruct He as [<-|He]; [auto|]); destruct He.
Qed.

Lemma startsWriteBack_module (L : Lib) (W : World) (g : Goproxy)
  (name : string) :
  startsWriteBack W g
    (match ioutil_TempDir W with Ok d => d | Err _ => "" end)
    (ServeHTTP_module L W g name).
Proof.
  unfold ServeHTTP_module.
  destruct (decodeModule L name) as [q|]; [|startsWriteBack_tac].
  cbv zeta.
  assert (Hret : forall (d : string) (k : string -> M unit),
            startsWriteBack W g d (k d) ->
            startsWriteBack W g d (bind (ret d) k))
    by (intros d k H s; exact (H s)).
  destruct (ioutil_TempDir W) as [d|e];
    do 3 (apply startsWriteBack_bind; [startsWriteBack_tac|intros _]).
  - apply Hret, startsWriteBack_deferPurge, startsWriteBack_operation.
  - intros s. left. split; reflexivity.
Qed.

(** The goroutine sets caches, logs and purges, and does nothing else. *)
Lemma ServeHTTP_goroutine_only (P : Event -> bool) (W : World) (g : Goproxy)
  (cacher : CacherI) (d name nameExt : string) (mr : modResult) :
  (forall msg, P (EvLog msg) = true) ->
  (forall file name', P (EvNewTempCache file name') = true) ->
  (forall c, P (EvSetCache c) = true) ->
  forallb P (purge d) = true ->
  forallb P (ServeHTTP_goroutine W g cacher d name nameExt mr) = true.
Proof.
  intros Hlog Hnew Hset Hpurge. unfold ServeHTTP_goroutine, run.
  destruct (emitsOnly_setCaches P W g cacher name nameExt mr Hlog Hnew Hset
              St0) as (l & Hl & Pl).
  rewrite Hl, forallb_app. cbn [Events St0 app]. rewrite Pl. exact Hpurge.
Qed.

(** A request that does not decode to a name does nothing. *)
Lemma ServeHTTP_loaded_rejected (L : Lib) (W : World) (g : Goproxy)
  (r : Request) :
  requestName g r = None ->
  let s := fst (ServeHTTP_loaded L W g r St0) in
  Events s = [] /\ Background s = None.
Proof.
  unfold requestName, ServeHTTP_loaded. intros H.
  destruct (negb (eqs (Method r) "GET" || eqs (Method r) "HEAD"));
    [step_M; split; reflexivity|].
  destruct (negb (Strings.HasPrefix (RequestPath r) "/"));
    [step_M; split; reflexivity|].
  step_M. rewrite H. red_M. split; reflexivity.
Qed.

(** X7: whatever the request, the upstream is asked only for a log of the
    allow-set, under one of the paths [/latest], [/lookup/...] and
    [/tile/...], and at a URL of the scheme http or https: a module request,
    its goroutine included, never asks it, and neither does a request for
    another host. *)
Theorem ServeHTTP_asks_allowed_logs_only (L : Lib) (W : World) (g : Goproxy)
  (r : Request) (url : string) :
  In (EvHTTPDo url) (allEvents (snd (ServeHTTP L W g r))) ->
  exists u n,
    logRequest L g r u n
    /\ sumdbPassthrough u = true
    /\ url = URL_String L u
    /\ (Strings.ToLower (Scheme u) = "http"
        \/ Strings.ToLower (Scheme u) = "https").
Proof.
  unfold ServeHTTP, run, allEvents. cbn [snd].
  assert (Hname : requestName (loadOnce L g) r = requestName g r)
    by (unfold requestName; rewrite PathPrefix_loadOnce; reflexivity).
  destruct (requestName (loadOnce L g) r) as [name|] eqn:Hn.
  - rewrite (ServeHTTP_loaded_name _ _ _ _ _ _ Hn).
    destruct (Strings.HasPrefix name "sumdb/") eqn:Hpre.
    + destruct (ServeHTTP_sumdb_asks L W (loadOnce L g)
                  (Strings.TrimPrefix name "sumdb/")) as [Hb Hask].
      cbv zeta in Hb, Hask. rewrite Hb. cbn [default]. rewrite app_nil_r.
      intros Hin. destruct (Hask url Hin)
        as (u & n & Hparse & Hhost & Hflag & Hpass & Hurl).
      exists u, n. split; [|split; [exact Hpass|split; [exact Hurl|]]].
      * exists name. repeat split; try assumption. symmetry. exact Hname.
      * pose proof (parseRawURL_http L _ u Hparse) as Hs.
        apply orb_true_iff in Hs.
        destruct Hs as [Hs|Hs]; apply String.eqb_eq in Hs; auto.
    + intros Hin. exfalso.
      destruct (ServeHTTP_module_no_upstream L W (loadOnce L g) name St0)
        as (l & Hl & Pl).
      rewrite Hl in Hin. cbn [Events St0 app] in Hin.
      apply in_app_or in Hin. destruct Hin as [Hin|Hin].
      * rewrite forallb_forall in Pl. specialize (Pl _ Hin). discriminate Pl.
      * pose proof (startsWriteBack_module L W (loadOnce L g) name St0) as Hs.
        cbv zeta in Hs.
        destruct Hs as [[Hb _]|[_ (cacher & nm & ext & mr & Hb)]];
          rewrite Hb in Hin; [destruct Hin|].
        cbn [default] in Hin.
        pose proof (ServeHTTP_goroutine_only (fun e => negb (isHTTPDo e)) W
                      (loadOnce L g) cacher
                      (match ioutil_TempDir W with Ok d => d | Err _ => "" end)
                      nm ext mr (fun _ => eq_refl)
                      (fun _ _ => eq_refl) (fun _ => eq_refl) eq_refl) as Pg.
        rewrite forallb_forall in Pg. specialize (Pg _ Hin). discriminate Pg.
  - destruct (ServeHTTP_loaded_rejected L W (loadOnce L g) r Hn) as [He Hb].
    cbv zeta in He, Hb. rewrite He, Hb. intros [].
Qed.

Lemma ServeHTTP_asks_allowed_logs_only_witness :
  let up := upstreamAnswer 200 "200 OK" "tile" in
  let W := exampleWorld exampleModule exampleLines 10 up in
  exists u n,
    logRequest exampleLib (New [])
               (GET "/sumdb/sum.golang.org/tile/8/0/000") u n
    /\ sumdbPassthrough u = true
    /\ "https://sum.golang.org/tile/8/0/000" = URL_String exampleLib u
    /\ (Strings.ToLower (Scheme u) = "http"
        \/ Strings.ToLower (Scheme u) = "https").
Proof.
  intros up W.
  apply (ServeHTTP_asks_allowed_logs_only exampleLib W (New [])
           (GET "/sumdb/sum.golang.org/tile/8/0/000")).
  vm_compute. left. reflexivity.
Defined.

(** X8: a log request asks the upstream and logs, and does nothing else: the
    toolchain is not driven, no scratch directory is made, the cache is
    neither probed nor written, and no goroutine is started. *)
Theorem ServeHTTP_sumdb_only_asks (L : Lib) (W : World) (g : Goproxy)
  (r : Request) (name : string) :
  requestName g r = Some name ->
  Strings.HasPrefix name "sumdb/" = true ->
  let s := snd (ServeHTTP L W g r) in
  forallb (fun e => isHTTPDo e || isLog e) (Events s) = true
  /\ Background s = None.
Proof.
  intros Hname Hpre. unfold ServeHTTP, run. cbn [snd].
  assert (Hn : requestName (loadOnce L g) r = Some name)
    by (unfold requestName in *; rewrite PathPrefix_loadOnce; exact Hname).
  rewrite (ServeHTTP_loaded_name _ _ _ _ _ _ Hn), Hpre. split.
  - assert (H : emitsOnly (fun e => isHTTPDo e || isLog e)
                  (ServeHTTP_sumdb L W (loadOnce L g)
                     (Strings.TrimPrefix name "sumdb/")))
      by (unfold ServeHTTP_sumdb; emitsOnly_tac).
    destruct (H St0) as (l & -> & Pl). exact Pl.
  - apply ServeHTTP_sumdb_asks.
Qed.

Lemma ServeHTTP_sumdb_only_asks_witness :
  let s := snd (ServeHTTP exampleLib W_ok (New [])
                          (GET "/sumdb/sum.golang.org/lookup/m@v1")) in
  forallb (fun e => isHTTPDo e || isLog e) (Events s) = true
  /\ Background s = None.
Proof.
  apply (ServeHTTP_sumdb_only_asks exampleLib W_ok (New [])
           (GET "/sumdb/sum.golang.org/lookup/m@v1")
           "sumdb/sum.golang.org/lookup/m@v1"); reflexivity.
Defined.

(** ** The cache probe *)

(** X9: when the cache backend holds the entry of the name, the entry is
    served as it is, with its MIME type, its checksum as the ETag and the
    cache hint of the request: nothing is downloaded, nothing is verified
    against the checksum database, and no write-back is started. *)
Theorem ServeHTTP_fetch_cache_hit (L : Lib) (W : World) (g : Goproxy)
  (goproxyRoot modulePath moduleVersion name nameExt : string)
  (cachingForever : bool) (c : Cache) (s0 : St) :
  Cacher_Cache (default tempCacher (Cacher g)) name = CacheFound c ->
  let s := fst (ServeHTTP_fetch L W g goproxyRoot modulePath moduleVersion
                                name nameExt cachingForever s0) in
  Written s = Some (ServeContent c)
  /\ Header s !! "Content-Type" = Some (MIMEType c)
  /\ Header s !! "ETag"
     = Some (quote +:+ base64_EncodeToString L (Checksum c) +:+ quote)
  /\ maxAgeIs (if cachingForever then 31536000 else 60) s
  /\ Events s = Events s0 ++ [EvCacheGet name]
  /\ Background s = Background s0.
Proof.
  intros Hc. unfold ServeHTTP_fetch. step_M. rewrite Hc. red_M.
  destruct cachingForever; red_M; repeat split; try reflexivity.
  all: try apply lookup_insert_eq.
  all: rewrite lookup_insert_ne by discriminate; apply lookup_insert_eq.
Qed.

Lemma ServeHTTP_fetch_cache_hit_witness :
  let c := {| Name := "example.com/m/@v/v1.2.3.zip";
              MIMEType := "application/zip"; Size := 10;
              Checksum := "sum" |} in
  let g := exampleGoproxy (Some (holdingCacher c)) 0 in
  let s := fst (ServeHTTP_fetch exampleLib W_ok g "/tmp/goproxy1"
                  "example.com/m" "v1.2.3" "example.com/m/@v/v1.2.3.zip"
                  ".zip" true St0) in
  Written s = Some (ServeContent c)
  /\ Header s !! "Content-Type" = Some "application/zip"
  /\ Header s !! "ETag" = Some (quote +:+ "" +:+ quote)
  /\ maxAgeIs 31536000 s
  /\ Events s = [EvCacheGet "example.com/m/@v/v1.2.3.zip"]
  /\ Background s = None.
Proof.
  intros c g.
  apply (ServeHTTP_fetch_cache_hit exampleLib W_ok g "/tmp/goproxy1"
           "example.com/m" "v1.2.3" "example.com/m/@v/v1.2.3.zip" ".zip"
           true c St0).
  reflexivity.
Defined.

(** X10: when the cache backend fails with an error other than
    [ErrCacheNotFound], the error is logged and the request is answered by
    [responseInternalServerError] (500) without a cache hint: the module is
    not downloaded in its stead. *)
Theorem ServeHTTP_fetch_cache_error (L : Lib) (W : World) (g : Goproxy)
  (goproxyRoot modulePath moduleVersion name nameExt : string)
  (cachingForever : bool) (e : string) (s0 : St) :
  Cacher_Cache (default tempCacher (Cacher g)) name = CacheErr e ->
  let s := fst (ServeHTTP_fetch L W g goproxyRoot modulePath moduleVersion
                                name nameExt cachingForever s0) in
  Written s = Some InternalServerError /\ answered 500 s
  /\ CacheControl s = CacheControl s0
  /\ Events s = Events s0 ++ [EvCacheGet name; EvLog e]
  /\ Background s = Background s0.
Proof.
  intros Hc. unfold ServeHTTP_fetch. step_M. rewrite Hc. red_M.
  repeat split; [eexists; split; reflexivity|].
  rewrite <- app_assoc. reflexivity.
Qed.

Lemma ServeHTTP_fetch_cache_error_witness :
  let g := exampleGoproxy (Some (brokenCacher "disk full")) 0 in
  let s := fst (ServeHTTP_fetch exampleLib W_ok g "/tmp/goproxy1"
                  "example.com/m" "v1.2.3" "example.com/m/@v/v1.2.3.zip"
                  ".zip" true St0) in
  Written s = Some InternalServerError /\ answered 500 s
  /\ CacheControl s = None
  /\ Events s = [EvCacheGet "example.com/m/@v/v1.2.3.zip"; EvLog "disk full"]
  /\ Background s = None.
Proof.
  intros g.
  apply (ServeHTTP_fetch_cache_error exampleLib W_ok g "/tmp/goproxy1"
           "example.com/m" "v1.2.3" "example.com/m/@v/v1.2.3.zip" ".zip"
           true "disk full" St0).
  reflexivity.
Defined.

(** ** What reaches the cache *)

(** X11: the write-back is started only for a module that was downloaded on
    a cache miss and, where downloads of its path are verified, only after
    both lines, the one of the zip and the one of the [go.mod], were found
    among the lines of the checksum database: whatever else happens, nothing
    is handed to the cache backend. *)
Theorem ServeHTTP_fetch_writes_back_verified (L : Lib) (W : World)
  (g : Goproxy)
  (goproxyRoot modulePath moduleVersion name nameExt : string)
  (cachingForever : bool) (s0 : St) (bg : list Event) :
  Background s0 = None ->
  Background (fst (ServeHTTP_fetch L W g goproxyRoot modulePath moduleVersion
                                   name nameExt cachingForever s0))
  = Some bg ->
  let cacher := default tempCacher (Cacher g) in
  exists mr,
    Cacher_Cache cacher name = ErrCacheNotFound
    /\ mod_ W "download" (GoBinName g) (goBinEnv g) goproxyRoot modulePath
            moduleVersion = Ok mr
    /\ bg = ServeHTTP_goroutine W g cacher goproxyRoot name nameExt mr
    /\ (verifies L g modulePath = true ->
        exists zipLines zipHash goModLines goModHash,
          sumdbClient_Lookup W modulePath moduleVersion = Ok zipLines
          /\ dirhash_HashZip W (Zip mr) = Ok zipHash
          /\ stringSliceContains zipLines
               (zipLine modulePath moduleVersion zipHash) = true
          /\ sumdbClient_Lookup W modulePath (moduleVersion +:+ "/go.mod")
             = Ok goModLines
          /\ dirhash_Hash1 W (GoMod mr) = Ok goModHash
          /\ stringSliceContains goModLines
               (goModLine modulePath moduleVersion goModHash) = true).
Proof.
  intros Hb0. unfold ServeHTTP_fetch, verifies, zipLine, goModLine.
  step_M.
  destruct (Cacher_Cache (default tempCacher (Cacher g)) name) as [c| |e];
    red_M;
    [destruct cachingForever; red_M; rewrite Hb0; discriminate
    | | rewrite Hb0; discriminate].
  destruct (mod_ W "download" (GoBinName g) (goBinEnv g) goproxyRoot
              modulePath moduleVersion) as [mr|e]; red_M.
  2:{ unfold respondModError. step_M.
      destruct (Regexp.MatchString regModuleVersionNotFound e); red_M;
        [destruct (DisableNotFoundLog g); red_M|];
        rewrite Hb0; discriminate. }
  destruct (negb (eqs (env (goBinEnv g) "GOSUMDB") "off")
            && negb (globsMatchPath L (env (goBinEnv g) "GONOSUMDB")
                                    modulePath)); red_M.
  2:{ destruct (newTempCache W _ name); red_M;
        [destruct cachingForever; red_M|];
        intros [= <-]; exists mr; repeat split; discriminate. }
  unfold ServeHTTP_verify. step_M.
  destruct (sumdbClient_Lookup W modulePath moduleVersion) as [zipLines|e];
    red_M.
  2:{ unfold respondModError. step_M.
      destruct (Regexp.MatchString regModuleVersionNotFound _); red_M;
        [destruct (DisableNotFoundLog g); red_M|];
        rewrite Hb0; discriminate. }
  destruct (dirhash_HashZip W (Zip mr)) as [zipHash|e] eqn:Hhz; red_M;
    [|rewrite Hb0; discriminate].
  destruct (stringSliceContains zipLines _) eqn:Hzip; red_M;
    [|rewrite Hb0; discriminate].
  destruct (sumdbClient_Lookup W modulePath (moduleVersion +:+ "/go.mod"))
    as [goModLines|e]; red_M.
  2:{ unfold respondModError. step_M.
      destruct (Regexp.MatchString regModuleVersionNotFound _); red_M;
        [destruct (DisableNotFoundLog g); red_M|];
        rewrite Hb0; discriminate. }
  destruct (dirhash_Hash1 W (GoMod mr)) as [goModHash|e] eqn:Hh1; red_M;
    [|rewrite Hb0; discriminate].
  destruct (stringSliceContains goModLines _) eqn:Hmod; red_M;
    [|rewrite Hb0; discriminate].
  destruct (newTempCache W _ name); red_M;
    [destruct cachingForever; red_M|];
    intros [= <-]; exists mr; (repeat split; try reflexivity);
    intros _; exists zipLines, zipHash, goModLines, goModHash;
    repeat split; assumption.
Qed.

Lemma ServeHTTP_fetch_writes_back_verified_witness :
  let g := load exampleLib (New []) in
  exists mr,
    Cacher_Cache (default tempCacher (Cacher g))
                 "example.com/m/@v/v1.2.3.zip" = ErrCacheNotFound
    /\ mod_ W_ok "download" (GoBinName g) (goBinEnv g) "/tmp/goproxy1"
            "example.com/m" "v1.2.3" = Ok mr
    /\ ServeHTTP_goroutine W_ok g tempCacher "/tmp/goproxy1"
         "example.com/m/@v/v1.2.3.zip" ".zip" exampleModule
       = ServeHTTP_goroutine W_ok g (default tempCacher (Cacher g))
           "/tmp/goproxy1" "example.com/m/@v/v1.2.3.zip" ".zip" mr
    /\ (verifies exampleLib g "example.com/m" = true ->
        exists zipLines zipHash goModLines goModHash,
          sumdbClient_Lookup W_ok "example.com/m" "v1.2.3" = Ok zipLines
          /\ dirhash_HashZip W_ok (Zip mr) = Ok zipHash
          /\ stringSliceContains zipLines
               (zipLine "example.com/m" "v1.2.3" zipHash) = true
          /\ sumdbClient_Lookup W_ok "example.com/m" ("v1.2.3" +:+ "/go.mod")
             = Ok goModLines
          /\ dirhash_Hash1 W_ok (GoMod mr) = Ok goModHash
          /\ stringSliceContains goModLines
               (goModLine "example.com/m" "v1.2.3" goModHash) = true).
Proof.
  intros g.
  apply (ServeHTTP_fetch_writes_back_verified exampleLib W_ok g
           "/tmp/goproxy1" "example.com/m" "v1.2.3"
           "example.com/m/@v/v1.2.3.zip" ".zip" true St0
           (ServeHTTP_goroutine W_ok g tempCacher "/tmp/goproxy1"
              "example.com/m/@v/v1.2.3.zip" ".zip" exampleModule));
    reflexivity.
Defined.

(** ** Module requests that do not reach the cache *)

(** X12: when no scratch directory can be made for a module request, the
    error is logged and the request is answered by
    [responseInternalServerError] (500) without a cache hint; the toolchain
    is not driven, and there is nothing to purge. *)
Theorem ServeHTTP_module_no_scratch_directory (L : Lib) (W : World)
  (g : Goproxy) (name : string) (q : moduleRequest) (e : string) :
  decodeModule L name = Some q ->
  ioutil_TempDir W = Err e ->
  let s := run (ServeHTTP_module L W g name) in
  Written s = Some InternalServerError /\ answered 500 s
  /\ CacheControl s = None
  /\ List.filter (fun ev => negb (isPrint ev)) (Events s)
     = [EvTempDir; EvLog e]
  /\ Background s = None.
Proof.
  intros Hq Htmp. unfold run, ServeHTTP_module. rewrite Hq, Htmp. step_M.
  destruct (isStagingRepo (mq_modulePath q)); red_M;
    [destruct (Strings.HasPrefix (mq_moduleVersion q) "v0.1")|];
    cbn [andb]; red_M.
  all: repeat split; [eexists; split; reflexivity].
Qed.

Lemma ServeHTTP_module_no_scratch_directory_witness :
  let s := run (ServeHTTP_module exampleLib (noTempDir W_ok "no space left")
                  (load exampleLib (New []))
                  "example.com/m/@v/v1.2.3.info") in
  Written s = Some InternalServerError /\ answered 500 s
  /\ CacheControl s = None
  /\ List.filter (fun ev => negb (isPrint ev)) (Events s)
     = [EvTempDir; EvLog "no space left"]
  /\ Background s = None.
Proof.
  apply (ServeHTTP_module_no_scratch_directory exampleLib
           (noTempDir W_ok "no space left") (load exampleLib (New []))
           "example.com/m/@v/v1.2.3.info"
           {| mq_name := "example.com/m/@v/v1.2.3.info";
              mq_isLatest := false; mq_isList := false;
              mq_modulePath := "example.com/m"; mq_nameExt := ".info";
              mq_moduleVersion := "v1.2.3" |}
           "no space left"); reflexivity.
Defined.

(** X13: a list request for a module outside [stagingRepos] drives the
    toolchain once, with the operation [list], and is answered 200 with the
    versions it returned, one per line in the driver's order, and
    [max-age=60]; the cache backend and the checksum database are not
    consulted, nothing is written back, and the handler purges the scratch
    directory as it returns. *)
Theorem ServeHTTP_module_list (L : Lib) (W : World) (g : Goproxy)
  (name : string) (q : moduleRequest) (d : string) (mr : modResult) :
  decodeModule L name = Some q ->
  mq_isList q = true ->
  isStagingRepo (mq_modulePath q) = false ->
  ioutil_TempDir W = Ok d ->
  mod_ W "list" (GoBinName g) (goBinEnv g) d (mq_modulePath q)
       (mq_moduleVersion q) = Ok mr ->
  let s := run (ServeHTTP_module L W g name) in
  Written s = Some (Text 200 (Strings.Join (Versions mr) LF))
  /\ answered 200 s /\ maxAgeIs 60 s
  /\ Events s
     = [EvTempDir; EvMod "list" (mq_modulePath q) (mq_moduleVersion q)]
       ++ purge d
  /\ Background s = None.
Proof.
  intros Hq Hlist Hstaging Htmp Hmod.
  unfold run, ServeHTTP_module. rewrite Hq, Hstaging, Htmp. step_M.
  unfold deferPurge, ServeHTTP_operation, stagingVersion.
  rewrite Hlist, Hstaging. cbn [andb].
  unfold ServeHTTP_list. step_M. rewrite Hmod. red_M.
  repeat split. eexists. split; reflexivity.
Qed.

Lemma ServeHTTP_module_list_witness :
  let s := run (ServeHTTP_module exampleLib W_ok (load exampleLib (New []))
                                 "example.com/m/@v/list") in
  Written s = Some (Text 200 ("v1.0.0" +:+ LF +:+ "v1.1.0"))
  /\ answered 200 s /\ maxAgeIs 60 s
  /\ Events s
     = [EvTempDir; EvMod "list" "example.com/m" "latest"]
       ++ purge "/tmp/goproxy1"
  /\ Background s = None.
Proof.
  apply (ServeHTTP_module_list exampleLib W_ok (load exampleLib (New []))
           "example.com/m/@v/list"
           {| mq_name := "example.com/m/@v/latest.info";
              mq_isLatest := false; mq_isList := true;
              mq_modulePath := "example.com/m"; mq_nameExt := ".info";
              mq_moduleVersion := "latest" |}
           "/tmp/goproxy1" exampleModule); reflexivity.
Defined.

(** X14: for [/@latest], and for a version that is not valid semver, the
    toolchain is driven first (with [latest] or [lookup]) and the artifact is
    then fetched as the one of the version it resolved to: under the name of
    the request with the escaped resolved version in the place of the
    requested one, and with the short cache hint. *)
Theorem ServeHTTP_operation_resolved (L : Lib) (W : World) (g : Goproxy)
  (q : moduleRequest) (moduleVersion goproxyRoot : string) (mr : modResult)
  (escapedModuleVersion : string) (s0 : St) :
  mq_isList q = false ->
  mq_isLatest q = true \/ Semver.IsValid moduleVersion = false ->
  let operation := if mq_isLatest q then "latest" else "lookup" in
  mod_ W operation (GoBinName g) (goBinEnv g) goproxyRoot (mq_modulePath q)
       moduleVersion = Ok mr ->
  module_EscapeVersion L (Version mr) = Ok escapedModuleVersion ->
  ServeHTTP_operation L W g q moduleVersion goproxyRoot s0
  = ServeHTTP_fetch L W g goproxyRoot (mq_modulePath q) (Version mr)
      (Path.Join [Path.Dir (mq_name q);
                  escapedModuleVersion +:+ mq_nameExt q])
      (mq_nameExt q) false
      (fst (emit (EvMod operation (mq_modulePath q) moduleVersion) s0)).
Proof.
  intros Hlist Hres operation Hmod Hesc.
  unfold ServeHTTP_operation. rewrite Hlist.
  assert (Hb : mq_isLatest q || negb (Semver.IsValid moduleVersion) = true).
  { destruct Hres as [-> | ->]; [reflexivity|apply orb_true_r]. }
  rewrite Hb. unfold ServeHTTP_resolve. fold operation.
  unfold bind at 1. unfold bind at 1. unfold bind at 1.
  cbn [emit fst snd]. rewrite Hmod. unfold ret at 1. cbv iota beta.
  unfold bind at 1. rewrite Hesc. unfold ret at 1 2. cbv iota beta.
  reflexivity.
Qed.

Lemma ServeHTTP_operation_resolved_witness :
  let q := {| mq_name := "example.com/m/@v/latest.info";
              mq_isLatest := true; mq_isList := false;
              mq_modulePath := "example.com/m"; mq_nameExt := ".info";
              mq_moduleVersion := "latest" |} in
  let g := load exampleLib (New []) in
  ServeHTTP_operation exampleLib W_ok g q "latest" "/tmp/goproxy1" St0
  = ServeHTTP_fetch exampleLib W_ok g "/tmp/goproxy1" "example.com/m"
      "v1.2.3"
      (Path.Join [Path.Dir "example.com/m/@v/latest.info";
                  "v1.2.3" +:+ ".info"])
      ".info" false
      (fst (emit (EvMod "latest" "example.com/m" "latest") St0)).
Proof.
  intros q g.
  apply (ServeHTTP_operation_resolved exampleLib W_ok g q "latest"
           "/tmp/goproxy1" exampleModule "v1.2.3" St0);
    first [reflexivity|left; reflexivity].
Defined.

(** ** The order of the write-back *)

(** X15: the goroutine hands entries to the cache backend in the order
    [.info], [.mod], [.zip], each under the name of the request with its
    extension replaced, and stops at the first entry it cannot create or
    write: the names of the entries handed over are a prefix of these
    three. *)
Theorem ServeHTTP_goroutine_order (W : World) (g : Goproxy)
  (cacher : CacherI) (goproxyRoot name nameExt : string) (mr : modResult) :
  let namePrefix := Strings.TrimSuffix name nameExt in
  map Name (setCaches (ServeHTTP_goroutine W g cacher goproxyRoot name
                                           nameExt mr))
  `prefix_of` [namePrefix +:+ ".info"; namePrefix +:+ ".mod";
               namePrefix +:+ ".zip"].
Proof.
  intros namePrefix.
  unfold ServeHTTP_goroutine, ServeHTTP_setCaches, newTempCache.
  fold namePrefix. step_M.
  writeback_cases W cacher;
    repeat match goal with
    | |- context [if ?b then _ else _] => destruct b; red_M
    end;
    writeback_cases W cacher; cbn.
  all: first [ by eexists [] | by eexists [_] | by eexists [_; _]
             | by eexists [_; _; _] ].
Qed.

(** ** [load] *)

(** [load_env], block by block. *)
Lemma load_env_blocks (g : Goproxy) :
  load_env g
  = load_private "GONOSUMDB"
      (load_private "GONOPROXY"
         (load_GOSUMDB (load_GOPROXY (load_environ g)))).
Proof. reflexivity. Qed.

Lemma load_GOPROXY_other (e : gmap string string) (k : string) :
  k <> "GOPROXY" -> load_GOPROXY e !! k = e !! k.
Proof.
  intros Hk. unfold load_GOPROXY. cbv zeta.
  repeat match goal with
  | |- context [if ?b then <[_ := _]> _ else _] => destruct b
  end; apply lookup_insert_ne; congruence.
Qed.

Lemma load_GOSUMDB_other (e : gmap string string) (k : string) :
  k <> "GOSUMDB" -> load_GOSUMDB e !! k = e !! k.
Proof.
  intros Hk. unfold load_GOSUMDB. cbv zeta.
  destruct (_ || _); repeat (rewrite lookup_insert_ne by congruence);
    reflexivity.
Qed.

Lemma load_private_other (k : string) (e : gmap string string)
  (k' : string) :
  k' <> k -> load_private k e !! k' = e !! k'.
Proof.
  intros Hk. unfold load_private. cbv zeta.
  repeat match goal with
  | |- context [if ?b then <[_ := _]> _ else _] => destruct b
  end; repeat (rewrite lookup_insert_ne by congruence); reflexivity.
Qed.

(** X16: [load] rewrites the four variables GOPROXY, GOSUMDB, GONOPROXY and
    GONOSUMDB and no other: every other variable, GOPRIVATE among them,
    reaches the toolchain as [GoBinEnv] gives it, and stays unset when
    [GoBinEnv] does not give it. *)
Theorem load_env_other_variables (g : Goproxy) (k : string) :
  k <> "GOPROXY" -> k <> "GOSUMDB" -> k <> "GONOPROXY" -> k <> "GONOSUMDB" ->
  load_env g !! k = load_environ g !! k.
Proof.
  intros H1 H2 H3 H4.
  rewrite load_env_blocks, !load_private_other, load_GOSUMDB_other,
    load_GOPROXY_other by assumption.
  reflexivity.
Qed.

Lemma load_env_other_variables_witness :
  load_env (New ["GOPRIVATE= corp.example.com "; "GOFLAGS=-mod=mod"])
    !! "GOPRIVATE"
  = load_environ (New ["GOPRIVATE= corp.example.com "; "GOFLAGS=-mod=mod"])
      !! "GOPRIVATE".
Proof.
  apply (load_env_other_variables
           (New ["GOPRIVATE= corp.example.com "; "GOFLAGS=-mod=mod"])
           "GOPRIVATE"); discriminate.
Defined.

(** *** The first loop: [GoBinEnv] *)

Lemma Index_byte (c d : ascii) (s : string) :
  Strings.Index (String d s) (String c "")
  = if Ascii.eqb d c then Some 0 else S <$> Strings.Index s (String c "").
Proof.
  cbn [Strings.Index Strings.HasPrefix]. rewrite HasPrefix_nil, andb_true_r.
  reflexivity.
Qed.

Lemma rev_cons (d : ascii) (s : string) :
  Str.rev (String d s) = Str.rev s +:+ String d "".
Proof. unfold Str.rev at 1. cbn [Str.rev_onto]. apply rev_onto_append. Qed.

(** Cutting once at a byte: [SplitN(s, sep, 2)]. *)
Lemma split_go_once (c : ascii) (s cur : string) :
  Strings.split_go (String c "") 1 0 cur s
  = match Strings.Index s (String c "") with
    | Some i => [Str.rev cur +:+ Str.take i s; Str.drop (S i) s]
    | None => [Str.rev cur +:+ s]
    end.
Proof.
  revert cur. induction s as [|d s IH]; intros cur.
  - cbn. rewrite append_nil_r. reflexivity.
  - rewrite Index_byte. cbn [Strings.split_go Strings.HasPrefix].
    rewrite HasPrefix_nil, andb_true_r.
    destruct (Ascii.eqb d c).
    + cbn [Str.take Str.drop Str.len String.length Nat.pred].
      rewrite append_nil_r. destruct s; reflexivity.
    + rewrite IH, rev_cons.
      destruct (Strings.Index s (String c "")) as [i|];
        cbn [fmap option_fmap option_map Str.take Str.drop];
        rewrite append_assoc; reflexivity.
Qed.

Lemma Index_byte_Some (c : ascii) (s : string) (i : nat) :
  Strings.Index s (String c "") = Some i ->
  s = Str.take i s +:+ String c (Str.drop (S i) s).
Proof.
  revert i. induction s as [|d s IH]; intros i; [discriminate|].
  rewrite Index_byte. destruct (Ascii.eqb_spec d c) as [->|Hne].
  - intros [= <-]. reflexivity.
  - destruct (Strings.Index s (String c "")) as [j|]; [|discriminate].
    intros [= <-]. cbn [Str.take Str.drop]. rewrite append_cons.
    f_equal. apply IH. reflexivity.
Qed.

Lemma Index_byte_append (c : ascii) (k v : string) :
  Strings.Index k (String c "") = None ->
  Strings.Index (k +:+ String c v) (String c "") = Some (Str.len k).
Proof.
  induction k as [|d k IH]; intros Hk.
  - change ("" +:+ String c v) with (String c v).
    rewrite Index_byte, Ascii.eqb_refl. reflexivity.
  - rewrite Index_byte in Hk. rewrite append_cons, Index_byte.
    destruct (Ascii.eqb d c); [discriminate|].
    destruct (Strings.Index k (String c "")) as [j|] eqn:Hj; [discriminate|].
    rewrite IH by reflexivity. reflexivity.
Qed.

Lemma drop_len_append (a b : string) : Str.drop (Str.len a) (a +:+ b) = b.
Proof.
  unfold Str.len. induction a as [|x a IH]; [destruct b; reflexivity|].
  rewrite append_cons. exact IH.
Qed.

Lemma drop_S_len_append (a b : string) (c : ascii) :
  Str.drop (S (Str.len a)) (a +:+ String c b) = b.
Proof.
  unfold Str.len. induction a as [|x a IH]; [destruct b; reflexivity|].
  rewrite append_cons. exact IH.
Qed.

Lemma HasPrefix_append (p s : string) : Strings.HasPrefix (p +:+ s) p = true.
Proof.
  induction p as [|c p IH]; [apply HasPrefix_nil|].
  rewrite append_cons. cbn [Strings.HasPrefix].
  rewrite Ascii.eqb_refl. exact IH.
Qed.

(** What one entry of [GoBinEnv] does to the environment. *)
Lemma load_GoBinEnv_entry (e : string) :
  Strings.SplitN e "=" 2
  = match Strings.Index e "=" with
    | Some i => [Str.take i e; Str.drop (S i) e]
    | None => [e]
    end.
Proof.
  unfold Strings.SplitN. rewrite split_go_once.
  destruct (Strings.Index e "="); reflexivity.
Qed.

Lemma load_GoBinEnv_app (a b : list string) (m : gmap string string) :
  load_GoBinEnv (a ++ b) m = load_GoBinEnv b (load_GoBinEnv a m).
Proof. unfold load_GoBinEnv. apply foldl_app. Qed.

Lemma load_GoBinEnv_later (later : list string) (m : gmap string string)
  (k : string) :
  Forall (fun e => Strings.HasPrefix e (k +:+ "=") = false) later ->
  load_GoBinEnv later m !! k = m !! k.
Proof.
  intros H. revert m. induction H as [|e later He _ IH]; intros m;
    [reflexivity|].
  change (load_GoBinEnv (e :: later) m)
    with (load_GoBinEnv later
            (match Strings.SplitN e "=" 2 with
             | [k'; v'] => <[k' := v']> m
             | _ => m
             end)).
  rewrite IH, load_GoBinEnv_entry.
  destruct (Strings.Index e "=") as [i|] eqn:Hi; [|reflexivity].
  apply lookup_insert_ne. intros <-.
  assert (Hp : Strings.HasPrefix
                 (Str.take i e +:+ String "=" (Str.drop (S i) e))
                 (Str.take i e +:+ "=") = true).
  { change (String "=" (Str.drop (S i) e))
      with ("=" +:+ Str.drop (S i) e).
    rewrite <- append_assoc. apply HasPrefix_append. }
  rewrite <- (Index_byte_Some _ _ _ Hi) in Hp. congruence.
Qed.

(** X17: of the entries [key=value] of [GoBinEnv], the last one for a key
    decides the value the toolchain gets for it (the value being everything
    after the first [=], which may contain further ones), whatever the
    entries before it and the environment before [load] say. *)
Theorem load_GoBinEnv_last_wins (envs later : list string)
  (m : gmap string string) (k v : string) :
  Strings.Contains k "=" = false ->
  Forall (fun e => Strings.HasPrefix e (k +:+ "=") = false) later ->
  load_GoBinEnv (envs ++ (k +:+ "=" +:+ v) :: later) m !! k = Some v.
Proof.
  intros Hk Hlater.
  change (envs ++ (k +:+ "=" +:+ v) :: later)
    with (envs ++ [k +:+ "=" +:+ v] ++ later).
  rewrite !load_GoBinEnv_app, (load_GoBinEnv_later _ _ _ Hlater).
  unfold load_GoBinEnv at 1. cbn [foldl]. rewrite load_GoBinEnv_entry.
  unfold Strings.Contains in Hk.
  destruct (Strings.Index k "=") eqn:Hi; [discriminate|].
  change ("=" +:+ v) with (String "=" v).
  rewrite (Index_byte_append _ _ _ Hi), take_len_append, drop_S_len_append.
  apply lookup_insert_eq.
Qed.

Lemma load_GoBinEnv_last_wins_witness :
  load_GoBinEnv (["GOFLAGS=-mod=vendor"] ++ ("GOFLAGS" +:+ "=" +:+ "-mod=mod")
                   :: ["GOPATH=/go"; "GOFLAGSX=1"]) ∅ !! "GOFLAGS"
  = Some "-mod=mod".
Proof.
  apply (load_GoBinEnv_last_wins ["GOFLAGS=-mod=vendor"]
           ["GOPATH=/go"; "GOFLAGSX=1"] ∅ "GOFLAGS" "-mod=mod").
  - reflexivity.
  - repeat constructor.
Defined.

(** X18: an entry of [GoBinEnv] without [=] sets nothing: the environment
    is the one the other entries give. *)
Theorem load_GoBinEnv_skips (envs later : list string)
  (m : gmap string string) (e : string) :
  Strings.Contains e "=" = false ->
  load_GoBinEnv (envs ++ e :: later) m = load_GoBinEnv (envs ++ later) m.
Proof.
  intros He.
  change (envs ++ e :: later) with (envs ++ [e] ++ later).
  rewrite !load_GoBinEnv_app. f_equal.
  unfold load_GoBinEnv at 1. cbn [foldl]. rewrite load_GoBinEnv_entry.
  unfold Strings.Contains in He.
  destruct (Strings.Index e "="); [discriminate|reflexivity].
Qed.

Lemma load_GoBinEnv_skips_witness :
  load_GoBinEnv (["GOPATH=/go"] ++ "GOFLAGS" :: ["HOME=/root"]) ∅
  = load_GoBinEnv (["GOPATH=/go"] ++ ["HOME=/root"]) ∅.
Proof.
  apply (load_GoBinEnv_skips ["GOPATH=/go"] ["HOME=/root"] ∅ "GOFLAGS").
  reflexivity.
Defined.

(** *** The variables [load] rewrites *)

Lemma env_other (e e' : gmap string string) (k : string) :
  e' !! k = e !! k -> env e' k = env e k.
Proof. unfold env. intros ->. reflexivity. Qed.

(** X19: after [load], GOSUMDB is never empty: an unset or blank GOSUMDB and
    the bare name [sum.golang.org] become the default log with its public
    key, and any other value is kept, trimmed of white space. *)
Theorem load_env_GOSUMDB_set (g : Goproxy) :
  let v := Strings.TrimSpace (env (load_environ g) "GOSUMDB") in
  load_env g !! "GOSUMDB"
  = Some (if eqs v "" || eqs v "sum.golang.org" then GOSUMDB_default else v)
  /\ env (load_env g) "GOSUMDB" <> "".
Proof.
  intros v.
  assert (H : load_env g !! "GOSUMDB"
              = Some (if eqs v "" || eqs v "sum.golang.org"
                      then GOSUMDB_default else v)).
  { rewrite load_env_blocks, !load_private_other by discriminate.
    unfold load_GOSUMDB. cbv zeta. rewrite env_insert_eq.
    rewrite (env_other (load_environ g) (load_GOPROXY (load_environ g)))
      by (apply load_GOPROXY_other; discriminate).
    fold v. destruct (eqs v "" || eqs v "sum.golang.org");
      apply lookup_insert_eq. }
  split; [exact H|]. unfold env. rewrite H. cbn [default from_option id].
  destruct (eqs v "") eqn:Hv; [discriminate|].
  destruct (eqs v "sum.golang.org"); [discriminate|].
  apply String.eqb_neq. exact Hv.
Qed.

Lemma load_private_own (k : string) (e : gmap string string) :
  k <> "GOPRIVATE" ->
  env (load_private k e) k
  = load_list (if eqs (env e k) "" then env e "GOPRIVATE" else env e k).
Proof.
  intros Hk. unfold load_private, load_list. cbv zeta.
  set (x := if eqs (env e k) "" then env e "GOPRIVATE" else env e k).
  assert (Hx : env (if eqs (env e k) "" then <[k := env e "GOPRIVATE"]> e
                    else e) k = x).
  { subst x. destruct (eqs (env e k) ""); [apply env_insert_eq|reflexivity]. }
  rewrite Hx.
  destruct (0 <? length (load_trimmed (Strings.Split x ",") []))%nat;
    [apply env_insert_eq|exact Hx].
Qed.

(** X20: after [load], GONOPROXY and GONOSUMDB each hold their own list, or
    the list of GOPRIVATE when they are unset or empty, with the entries
    trimmed of white space and the empty entries dropped; a list without
    entries is left as it was. *)
Theorem load_env_lists (g : Goproxy) :
  let e := load_environ g in
  let fallback := fun k =>
    load_list (if eqs (env e k) "" then env e "GOPRIVATE" else env e k) in
  env (load_env g) "GONOPROXY" = fallback "GONOPROXY"
  /\ env (load_env g) "GONOSUMDB" = fallback "GONOSUMDB".
Proof.
  intros e fallback. subst fallback. cbv beta.
  assert (Hsame : forall e' k,
            k <> "GOPROXY" -> k <> "GOSUMDB" ->
            e' = load_GOSUMDB (load_GOPROXY e) -> env e' k = env e k).
  { intros e' k H1 H2 ->. apply env_other.
    rewrite load_GOSUMDB_other, load_GOPROXY_other by assumption.
    reflexivity. }
  pose proof (fun k H1 H2 =>
                Hsame (load_GOSUMDB (load_GOPROXY e)) k H1 H2 eq_refl)
    as Hs.
  pose proof (Hs "GONOPROXY" ltac:(discriminate) ltac:(discriminate)) as Hnp.
  pose proof (Hs "GONOSUMDB" ltac:(discriminate) ltac:(discriminate)) as Hns.
  pose proof (Hs "GOPRIVATE" ltac:(discriminate) ltac:(discriminate)) as Hpr.
  rewrite load_env_blocks. fold e. split.
  - rewrite (env_other (load_private "GONOPROXY"
                          (load_GOSUMDB (load_GOPROXY e))))
      by (apply load_private_other; discriminate).
    rewrite load_private_own by discriminate.
    rewrite Hnp, Hpr. reflexivity.
  - rewrite load_private_own by discriminate.
    rewrite !(env_other (load_GOSUMDB (load_GOPROXY e))
                (load_private "GONOPROXY" (load_GOSUMDB (load_GOPROXY e))))
      by (apply load_private_other; discriminate).
    rewrite Hns, Hpr. reflexivity.
Qed.

(** X21: after [load], a log name is in the allow-set exactly when it was in
    it before or is the IDNA-ASCII form of one of [SupportedSUMDBNames]; a
    configured name that has no such form allows nothing. *)
Theorem load_supportedSUMDBNames (L : Lib) (g : Goproxy) (n : string) :
  flag (supportedSUMDBNames (load L g)) n = true
  <-> flag (supportedSUMDBNames g) n = true
      \/ exists name,
           In name (SupportedSUMDBNames g) /\ idna_ToASCII L name = Some n.
Proof.
  cbn [load supportedSUMDBNames]. rewrite load_supported_flag.
  rewrite orb_true_iff, existsb_exists.
  split; (intros [H|(name & Hin & H)]; [left; exact H|right]);
    exists name; (split; [exact Hin|]).
  - destruct (idna_ToASCII L name) as [n'|]; [|discriminate].
    apply String.eqb_eq in H. rewrite H. reflexivity.
  - rewrite H. apply String.eqb_refl.
Qed.

(** ** The helpers *)

(** X22: a raw URL without [:/] that is not an absolute path, and that has a
    dot, a colon or a slash somewhere, is parsed as the https URL of that
    name: [parseRawURL] gives for it what it gives for the same text after
    [https://]. *)
Theorem parseRawURL_schemeless (L : Lib) (rawURL : string) :
  Strings.ContainsAny rawURL ".:/" = true ->
  Strings.Contains rawURL ":/" = false ->
  filepath_IsAbs L rawURL = false ->
  Path.IsAbs rawURL = false ->
  parseRawURL L rawURL = parseRawURL L ("https://" +:+ rawURL).
Proof.
  intros Hany Hsep Hfabs Habs. unfold parseRawURL.
  rewrite Hany, Hsep, Hfabs, Habs. reflexivity.
Qed.

Lemma parseRawURL_schemeless_witness :
  parseRawURL exampleLib "sum.golang.org/latest"
  = parseRawURL exampleLib ("https://" +:+ "sum.golang.org/latest").
Proof.
  apply (parseRawURL_schemeless exampleLib "sum.golang.org/latest");
    reflexivity.
Defined.

(** X23: the string [redactedURL] gives for a URL does not depend on the
    password of the URL: two URLs that differ in their passwords only are
    printed alike, with [[redacted]] in its place. *)
Theorem redactedURL_hides_password (L : Lib) (u : URL) (p1 p2 : string) :
  redactedURL L (withPassword u p1) = redactedURL L (withPassword u p2)
  /\ redactedURL L (withPassword u p1)
     = URL_String L (withPassword u "[redacted]").
Proof.
  destruct u as [scheme [ui|] host path]; split; reflexivity.
Qed.

(** X24: [stringSliceContains] is membership. *)
Theorem stringSliceContains_In (ss : list string) (s : string) :
  stringSliceContains ss s = true <-> In s ss.
Proof.
  induction ss as [|v ss IH]; cbn [stringSliceContains In].
  - split; [discriminate|intros []].
  - unfold eqs. destruct (String.eqb_spec v s) as [->|Hne].
    + split; auto.
    + rewrite IH. split; [auto|intros [H|H]; [contradiction|exact H]].
Qed.

(** *** [globsMatchPath] *)

Lemma spec_fields_append (sep : ascii) (a b : string) :
  spec_fields sep (a +:+ String sep b)
  = spec_fields sep a ++ spec_fields sep b.
Proof.
  induction a as [|c a IH].
  - change ("" +:+ String sep b) with (String sep b).
    cbn [spec_fields]. rewrite Ascii.eqb_refl. reflexivity.
  - rewrite append_cons. cbn [spec_fields]. rewrite IH.
    destruct (Ascii.eqb c sep); [reflexivity|].
    destruct (spec_fields sep a) as [|h t] eqn:Ea;
      [destruct (spec_fields_nonempty _ _ Ea)|].
    reflexivity.
Qed.

Lemma spec_fields_length (c : ascii) (s : string) :
  length (spec_fields c s) = S (Strings.Count s (String c "")).
Proof.
  unfold Strings.Count. cbn [Str.is_empty].
  induction s as [|d s IH]; [reflexivity|].
  cbn [spec_fields Strings.count_go Strings.HasPrefix].
  rewrite HasPrefix_nil, andb_true_r.
  destruct (Ascii.eqb d c).
  - cbn [length Str.len String.length Nat.pred]. rewrite IH. reflexivity.
  - rewrite <- IH.
    destruct (spec_fields c s) as [|h t] eqn:Es;
      [destruct (spec_fields_nonempty _ _ Es)|].
    reflexivity.
Qed.

(** X25: a pattern with more slashes than the target has cannot match it: a
    list whose patterns all have more slashes than the target matches
    nothing, whatever [path.Match] would say. *)
Theorem globsMatchPath_too_deep (L : Lib) (globs target : string) :
  Forall (fun glob => Strings.Count target "/" < Strings.Count glob "/")
         (Strings.Split globs ",") ->
  globsMatchPath L globs target = false.
Proof.
  intros H. rewrite Split_byte in H. unfold globsMatchPath.
  rewrite globsMatchPath_loop_spec by lia.
  induction H as [|glob globs' Hglob _ IH]; [reflexivity|].
  cbn [existsb]. rewrite IH, orb_false_r.
  unfold spec_globMatchesb. cbv zeta. rewrite spec_fields_length.
  destruct (Nat.leb_spec (Strings.Count glob "/" + 1)
                         (S (Strings.Count target "/"))); [lia|].
  cbn [andb]. apply andb_false_r.
Qed.

Lemma globsMatchPath_too_deep_witness :
  globsMatchPath exampleLib "corp.example.com/team/repo,a/b/c/d"
                 "corp.example.com" = false.
Proof.
  apply (globsMatchPath_too_deep exampleLib
           "corp.example.com/team/repo,a/b/c/d" "corp.example.com").
  repeat constructor.
Defined.

(** X26: a list made of two lists with a comma between them matches what
    either of them matches. *)
Theorem globsMatchPath_comma (L : Lib) (globs1 globs2 target : string) :
  globsMatchPath L (globs1 +:+ "," +:+ globs2) target
  = globsMatchPath L globs1 target || globsMatchPath L globs2 target.
Proof.
  unfold globsMatchPath. rewrite !globsMatchPath_loop_spec by lia.
  change ("," +:+ globs2) with (String "," globs2).
  rewrite spec_fields_append. apply existsb_app.
Qed.

Lemma spec_globMatchesb_below (L : Lib) (target rest glob : string) :
  spec_globMatchesb L target glob = true ->
  spec_globMatchesb L (target +:+ String "/" rest) glob = true.
Proof.
  unfold spec_globMatchesb. cbv zeta. rewrite spec_fields_append.
  intros H. apply andb_true_iff in H. destruct H as [Hne H].
  apply andb_true_iff in H. destruct H as [Hlen Hm].
  rewrite Hne. cbn [andb]. apply Nat.leb_le in Hlen.
  rewrite length_app.
  destruct (Nat.leb_spec (Strings.Count glob "/" + 1)
              (length (spec_fields "/" target)
               + length (spec_fields "/" rest))); [|lia].
  cbn [andb]. rewrite take_app_le by exact Hlen. exact Hm.
Qed.

(** X27: a list that matches a path matches every path below it: the
    pattern that matched [target] matches [target/rest] too, since only the
    leading elements of the target are looked at. *)
Theorem globsMatchPath_below (L : Lib) (globs target rest : string) :
  globsMatchPath L globs target = true ->
  globsMatchPath L globs (target +:+ "/" +:+ rest) = true.
Proof.
  unfold globsMatchPath. rewrite !globsMatchPath_loop_spec by lia.
  rewrite !existsb_exists. intros (glob & Hin & Hm).
  exists glob. split; [exact Hin|].
  apply (spec_globMatchesb_below L target rest glob Hm).
Qed.

Lemma globsMatchPath_below_witness :
  globsMatchPath exampleLib "corp.example.com/team"
                 ("corp.example.com/team" +:+ "/" +:+ "repo/pkg") = true.
Proof.
  apply (globsMatchPath_below exampleLib "corp.example.com/team"
           "corp.example.com/team" "repo/pkg").
  reflexivity.
Defined.

(** ** [appendURL] *)

Example escape_examples :
  Url.PathEscape "a b/c?d;e,f:g@h~i" = "a%20b%2Fc%3Fd%3Be%2Cf:g@h~i"
  /\ Strings.Replace "a%2Fb%2Fc" "%2F" "/" (-1) = "a/b/c"
  /\ Strings.Replace "aaaa" "aa" "b" (-1) = "bb"
  /\ Strings.Replace "aaa" "a" "b" 2 = "bba"
  /\ Strings.Replace "ab" "" "-" (-1) = "-a-b-"
  /\ Strings.Replace "ab" "" "-" 2 = "-a-b"
  /\ escapedPath "x y/@v/list" = "x%20y/@v/list"
  /\ RawPath (appendURL {| Plain := {| Scheme := "https"; User := None;
                                        Host := "h"; URLPath := "/p" |};
                            RawPath := "/p" |}
                         ["a b"; "../c/"])
     = "/p/c".
Proof. vm_compute. repeat split. Qed.

Ltac each_byte c :=
  destruct c as [[|] [|] [|] [|] [|] [|] [|] [|]].

Lemma PathEscape_cons (c : ascii) (s : string) :
  Url.PathEscape (String c s)
  = Url.PathEscape (String c "") +:+ Url.PathEscape s.
Proof.
  cbn [Url.PathEscape]. destruct (Url.shouldEscape c); reflexivity.
Qed.

Lemma replace_go_0 (old new s : string) :
  Strings.replace_go old new 0 0 s = s.
Proof. destruct s; reflexivity. Qed.

(** One byte of the extra path under [Replace]. *)
Lemma replace_go_byte (c : ascii) (n : nat) (r : string) :
  Strings.replace_go "%2F" "/" (S n) 0 (Url.PathEscape (String c "") +:+ r)
  = if Ascii.eqb c "/" then "/" +:+ Strings.replace_go "%2F" "/" n 0 r
    else Url.PathEscape (String c "")
         +:+ Strings.replace_go "%2F" "/" (S n) 0 r.
Proof.
  destruct (Ascii.eqb_spec c "/") as [->|Hne].
  - change (Url.PathEscape "/" +:+ r)
      with (String "%" (String "2" (String "F" r))).
    cbn [Strings.replace_go Strings.HasPrefix Ascii.eqb Bool.eqb andb
         Str.len String.length Nat.pred].
    rewrite HasPrefix_nil. reflexivity.
  - each_byte c; first [exfalso; apply Hne; reflexivity|vm_compute; reflexivity].
Qed.

Lemma count_go_byte (c : ascii) (r : string) :
  Strings.count_go "%2F" 0 (Url.PathEscape (String c "") +:+ r)
  = if Ascii.eqb c "/" then S (Strings.count_go "%2F" 0 r)
    else Strings.count_go "%2F" 0 r.
Proof.
  destruct (Ascii.eqb_spec c "/") as [->|Hne].
  - change (Url.PathEscape "/" +:+ r)
      with (String "%" (String "2" (String "F" r))).
    cbn [Strings.count_go Strings.HasPrefix Ascii.eqb Bool.eqb andb
         Str.len String.length Nat.pred].
    rewrite HasPrefix_nil. reflexivity.
  - each_byte c; first [exfalso; apply Hne; reflexivity|vm_compute; reflexivity].
Qed.

Lemma replace_go_PathEscape (s : string) (n : nat) :
  Strings.count_go "%2F" 0 (Url.PathEscape s) <= n ->
  Strings.replace_go "%2F" "/" n 0 (Url.PathEscape s) = escapedBytes s.
Proof.
  revert n. induction s as [|c s IH]; intros n Hn; [destruct n; reflexivity|].
  rewrite PathEscape_cons in *. rewrite count_go_byte in Hn.
  cbn [escapedBytes].
  destruct n as [|n].
  - rewrite replace_go_0.
    destruct (Ascii.eqb c "/"); [lia|].
    rewrite <- (IH 0 Hn), replace_go_0. reflexivity.
  - rewrite replace_go_byte. destruct (Ascii.eqb c "/").
    + rewrite IH by lia. reflexivity.
    + rewrite IH by lia. reflexivity.
Qed.

(** The escaped form, byte by byte. *)
Lemma escapedPath_bytes (p : string) : escapedPath p = escapedBytes p.
Proof.
  unfold escapedPath, Strings.Replace, Strings.Count.
  cbn [String.eqb Ascii.eqb Bool.eqb orb Z.eqb Str.is_empty Z.ltb Z.compare].
  destruct (Nat.eqb_spec (Strings.count_go "%2F" 0 (Url.PathEscape p)) 0)
    as [H0|_].
  - rewrite <- (replace_go_0 "%2F" "/" (Url.PathEscape p)).
    apply replace_go_PathEscape. lia.
  - apply replace_go_PathEscape. lia.
Qed.

Lemma unescape_plain (c : ascii) (r : string) :
  Ascii.eqb c "%" = false ->
  Url.unescape 0 (String c r) = String c <$> Url.unescape 0 r.
Proof. intros H. cbn [Url.unescape]. rewrite H. reflexivity. Qed.

Lemma unescape_escaped (h l : ascii) (a b : N) (r : string) :
  Url.hexval h = Some a -> Url.hexval l = Some b ->
  Url.unescape 0 (String "%" (String h (String l r)))
  = String (Ascii.ascii_of_N (16 * a + b)) <$> Url.unescape 0 r.
Proof.
  intros Hh Hl. cbn [Url.unescape Ascii.eqb Bool.eqb].
  rewrite Hh, Hl. reflexivity.
Qed.

(** A byte is kept, or escaped by two digits that give it back. *)
Lemma PathEscape_byte (c : ascii) :
  let hi := (Str.byte c / 16)%N in
  let lo := (Str.byte c mod 16)%N in
  (Url.shouldEscape c = false /\ Ascii.eqb c "%" = false)
  \/ (Url.shouldEscape c = true
      /\ Url.hexval (Url.upperhex hi) = Some hi
      /\ Url.hexval (Url.upperhex lo) = Some lo
      /\ Ascii.ascii_of_N (16 * hi + lo) = c
      /\ Ascii.eqb (Url.upperhex hi) "/" = false
      /\ Ascii.eqb (Url.upperhex lo) "/" = false).
Proof.
  each_byte c; vm_compute;
    first [left; split; reflexivity|right; repeat split; reflexivity].
Qed.

Lemma unescape_byte (c : ascii) (r : string) :
  Url.unescape 0
    ((if Ascii.eqb c "/" then "/" else Url.PathEscape (String c "")) +:+ r)
  = String c <$> Url.unescape 0 r.
Proof.
  destruct (Ascii.eqb_spec c "/") as [->|_];
    [apply unescape_plain; reflexivity|].
  cbn [Url.PathEscape].
  destruct (PathEscape_byte c) as [[Hs Hc]|(Hs & Hhi & Hlo & Hc & _)];
    rewrite Hs.
  - apply unescape_plain, Hc.
  - etransitivity; [apply (unescape_escaped _ _ _ _ _ Hhi Hlo)|].
    rewrite Hc. reflexivity.
Qed.

Lemma unescape_escapedBytes (p : string) :
  Url.PathUnescape (escapedBytes p) = Some p.
Proof.
  unfold Url.PathUnescape. induction p as [|c p IH]; [reflexivity|].
  cbn [escapedBytes]. rewrite unescape_byte, IH. reflexivity.
Qed.

(** X28: the escaped form that [appendURL] gives an extra path,
    [PathEscape] with every [%2F] turned back into a slash, decodes to the
    extra path: [PathUnescape] is its inverse. *)
Theorem PathUnescape_escapedPath (p : string) :
  Url.PathUnescape (escapedPath p) = Some p.
Proof. rewrite escapedPath_bytes. apply unescape_escapedBytes. Qed.

(** *** The escaped form and [path.Clean] *)

Lemma escapedBytes_append (a b : string) :
  escapedBytes (a +:+ b) = escapedBytes a +:+ escapedBytes b.
Proof.
  induction a as [|c a IH]; [reflexivity|].
  rewrite append_cons. cbn [escapedBytes]. rewrite IH, append_assoc.
  reflexivity.
Qed.

Lemma escapedBytes_eqb (a b : string) :
  String.eqb (escapedBytes a) (escapedBytes b) = String.eqb a b.
Proof.
  destruct (String.eqb_spec a b) as [->|Hne]; [apply String.eqb_refl|].
  apply String.eqb_neq. intros H. apply Hne.
  pose proof (unescape_escapedBytes a) as Ha. rewrite H in Ha.
  rewrite unescape_escapedBytes in Ha. congruence.
Qed.

Lemma escapedBytes_dots :
  escapedBytes "" = "" /\ escapedBytes "." = "." /\ escapedBytes ".." = "..".
Proof. vm_compute. repeat split. Qed.

Lemma escapedBytes_is (e x : string) :
  escapedBytes x = x -> String.eqb (escapedBytes e) x = String.eqb e x.
Proof. intros H. rewrite <- H at 1. apply escapedBytes_eqb. Qed.

(** The elements of the escaped form are the escaped elements. *)
Lemma spec_fields_escapedBytes (p : string) :
  spec_fields "/" (escapedBytes p) = escapedBytes <$> spec_fields "/" p.
Proof.
  induction p as [|c p IH]; [reflexivity|].
  cbn [escapedBytes spec_fields].
  destruct (Ascii.eqb_spec c "/") as [->|Hne].
  - change ("/" +:+ escapedBytes p) with (String "/" (escapedBytes p)).
    cbn [spec_fields Ascii.eqb Bool.eqb]. rewrite IH. reflexivity.
  - assert (Hc : Ascii.eqb c "/" = false) by (apply Ascii.eqb_neq, Hne).
    destruct (spec_fields "/" p) as [|h t] eqn:Ep;
      [destruct (spec_fields_nonempty _ _ Ep)|].
    cbn [fmap list_fmap escapedBytes] in *. rewrite Hc.
    cbn [Url.PathEscape].
    destruct (PathEscape_byte c) as [[Hs _]|(Hs & _ & _ & _ & Hhi & Hlo)];
      rewrite Hs.
    + change (String c "" +:+ ?x) with (String c x).
      cbn [spec_fields]. rewrite Hc, IH. reflexivity.
    + change (String "%" (String ?a (String ?b "")) +:+ ?x)
        with (String "%" (String a (String b x))).
      cbn [spec_fields Ascii.eqb Bool.eqb]. rewrite Hhi, Hlo, IH.
      reflexivity.
Qed.

Lemma HasPrefix_escapedBytes (p : string) :
  Strings.HasPrefix (escapedBytes p) "/" = Strings.HasPrefix p "/".
Proof.
  destruct p as [|c p]; [reflexivity|]. cbn [escapedBytes].
  destruct (Ascii.eqb_spec c "/") as [->|Hne].
  - change ("/" +:+ escapedBytes p) with (String "/" (escapedBytes p)).
    cbn [Strings.HasPrefix]. rewrite !HasPrefix_nil. reflexivity.
  - assert (Hc : Ascii.eqb c "/" = false) by (apply Ascii.eqb_neq, Hne).
    cbn [Url.PathEscape Strings.HasPrefix].
    destruct (Url.shouldEscape c).
    + change (String "%" (String ?a (String ?b "")) +:+ ?x)
        with (String "%" (String a (String b x))).
      cbn [Strings.HasPrefix]. rewrite Hc. reflexivity.
    + change (String c "" +:+ ?x) with (String c x).
      cbn [Strings.HasPrefix]. rewrite Hc. reflexivity.
Qed.

Lemma Join_escapedBytes (l : list string) :
  Strings.Join (escapedBytes <$> l) "/" = escapedBytes (Strings.Join l "/").
Proof.
  induction l as [|e l IH]; [reflexivity|].
  destruct l as [|e' l]; [reflexivity|].
  change (Strings.Join (e :: e' :: l) "/")
    with (e +:+ "/" +:+ Strings.Join (e' :: l) "/").
  change (Strings.Join (escapedBytes <$> e :: e' :: l) "/")
    with (escapedBytes e +:+ "/"
          +:+ Strings.Join (escapedBytes <$> e' :: l) "/").
  rewrite IH, !escapedBytes_append. reflexivity.
Qed.

Lemma clean_step_escapedBytes (rooted : bool) (out : list string)
  (e : string) :
  Path.clean_step rooted (escapedBytes <$> out) (escapedBytes e)
  = escapedBytes <$> Path.clean_step rooted out e.
Proof.
  destruct escapedBytes_dots as (H0 & H1 & H2).
  unfold Path.clean_step.
  rewrite (escapedBytes_is e "" H0), (escapedBytes_is e "." H1),
    (escapedBytes_is e ".." H2).
  destruct (String.eqb e "" || String.eqb e "."); [reflexivity|].
  destruct (String.eqb_spec e "..") as [->|_]; [|reflexivity].
  destruct out as [|top out]; cbn [fmap list_fmap].
  - destruct rooted; reflexivity.
  - rewrite (escapedBytes_is top ".." H2).
    destruct (String.eqb top ".."); reflexivity.
Qed.

Lemma foldl_clean_step_escapedBytes (rooted : bool) (l out : list string) :
  foldl (Path.clean_step rooted) (escapedBytes <$> out) (escapedBytes <$> l)
  = escapedBytes <$> foldl (Path.clean_step rooted) out l.
Proof.
  revert out. induction l as [|e l IH]; intros out; [reflexivity|].
  cbn [fmap list_fmap foldl]. rewrite clean_step_escapedBytes. apply IH.
Qed.

(** [path.Clean] and the escaped form commute. *)
Lemma Clean_escapedBytes (p : string) :
  Path.Clean (escapedBytes p) = escapedBytes (Path.Clean p).
Proof.
  destruct escapedBytes_dots as (H0 & H1 & _).
  unfold Path.Clean. cbv zeta.
  rewrite HasPrefix_escapedBytes, !Split_byte, spec_fields_escapedBytes.
  rewrite (foldl_clean_step_escapedBytes _ _ []), <- fmap_reverse,
    Join_escapedBytes.
  set (q := Strings.Join (reverse _) "/").
  assert (Hq : (if Strings.HasPrefix p "/" then "/" else "")
               +:+ escapedBytes q
               = escapedBytes ((if Strings.HasPrefix p "/" then "/" else "")
                               +:+ q)).
  { rewrite escapedBytes_append.
    destruct (Strings.HasPrefix p "/"); reflexivity. }
  rewrite Hq, (escapedBytes_is _ "" H0).
  destruct (String.eqb _ ""); [symmetry; exact H1|reflexivity].
Qed.

Lemma Join_pair_escapedBytes (a b : string) :
  Path.Join [escapedBytes a; escapedBytes b]
  = escapedBytes (Path.Join [a; b]).
Proof.
  destruct escapedBytes_dots as (H0 & _ & _).
  assert (Hone : forall e, Path.Join [escapedBytes e]
                           = escapedBytes (Path.Join [e])).
  { intros e. cbn [Path.Join Strings.Join].
    destruct e as [|c e]; [reflexivity|].
    assert (Hne : Str.is_empty (escapedBytes (String c e)) = false).
    { cbn [escapedBytes Url.PathEscape].
      destruct (Ascii.eqb c "/"); [reflexivity|].
      destruct (Url.shouldEscape c); reflexivity. }
    rewrite Hne. cbn [Str.is_empty]. apply Clean_escapedBytes. }
  destruct a as [|c a].
  - change (Path.Join [escapedBytes ""; escapedBytes b])
      with (Path.Join [escapedBytes b]).
    change (Path.Join [""; b]) with (Path.Join [b]). apply Hone.
  - assert (Hne : Str.is_empty (escapedBytes (String c a)) = false).
    { cbn [escapedBytes Url.PathEscape].
      destruct (Ascii.eqb c "/"); [reflexivity|].
      destruct (Url.shouldEscape c); reflexivity. }
    cbn [Path.Join]. rewrite Hne. cbn [Str.is_empty].
    change (Strings.Join [escapedBytes (String c a); escapedBytes b] "/")
      with (Strings.Join (escapedBytes <$> [String c a; b]) "/").
    rewrite Join_escapedBytes. apply Clean_escapedBytes.
Qed.

(** X29: [appendURL] keeps [RawPath] the escaped form of [Path]: when it is
    so before the call, as it is for a URL with an empty path, it is so
    after it, whatever the extra paths are, and [RawPath] decodes to
    [Path]. *)
Theorem appendURL_RawPath (u : RawURL) (extraPaths : list string) :
  RawPath u = escapedPath (URLPath (Plain u)) ->
  let u' := appendURL u extraPaths in
  RawPath u' = escapedPath (URLPath (Plain u'))
  /\ Url.PathUnescape (RawPath u') = Some (URLPath (Plain u')).
Proof.
  intros H. cbv zeta.
  assert (Hinv : RawPath (appendURL u extraPaths)
                 = escapedPath (URLPath (Plain (appendURL u extraPaths)))).
  { unfold appendURL. revert u H.
    induction extraPaths as [|ep eps IH]; intros u H; [exact H|].
    cbn [foldl]. apply IH. cbn [appendURL_step RawPath Plain URLPath].
    fold (escapedPath ep). rewrite H, !escapedPath_bytes.
    apply Join_pair_escapedBytes. }
  split; [exact Hinv|]. rewrite Hinv, escapedPath_bytes.
  apply unescape_escapedBytes.
Qed.

Lemma appendURL_RawPath_witness :
  let u := {| Plain := {| Scheme := "https"; User := None;
                          Host := "proxy.golang.org"; URLPath := "" |};
              RawPath := "" |} in
  let u' := appendURL u ["example.com/a b"; "@v"; "../@v/list"] in
  RawPath u' = escapedPath (URLPath (Plain u'))
  /\ Url.PathUnescape (RawPath u') = Some (URLPath (Plain u')).
Proof.
  intros u.
  apply (appendURL_RawPath u ["example.com/a b"; "@v"; "../@v/list"]).
  reflexivity.
Defined.

(** X30: [appendURL] changes the path and the raw path only, and appending
    in two calls gives what appending in one call gives. *)
Theorem appendURL_append (u : RawURL) (paths1 paths2 : list string) :
  appendURL (appendURL u paths1) paths2 = appendURL u (paths1 ++ paths2)
  /\ Scheme (Plain (appendURL u paths1)) = Scheme (Plain u)
  /\ User (Plain (appendURL u paths1)) = User (Plain u)
  /\ Host (Plain (appendURL u paths1)) = Host (Plain u).
Proof.
  unfold appendURL. split; [symmetry; apply foldl_app|].
  revert u. induction paths1 as [|ep eps IH]; intros u; [auto|].
  cbn [foldl]. destruct (IH (appendURL_step u ep)) as (-> & -> & ->).
  auto.
Qed.
